(** * ONS API tutorial scripts: a shallow embedding and its properties

    The four scripts under [examples/] are embedded module by module:
    [ListDatasets] (01), [ExploreDimensions] (02), [DownloadTimeseries] (03)
    and [BatchDownload] (04).  Python values are the inductive [pyobj];
    the network, [time.sleep] and [print] are an explicit [world] threaded
    through a small state-and-exception monad. *)

From Stdlib Require Import List String Ascii ZArith Lia Bool Arith.
From Stdlib Require Import Permutation Sorted DecimalString.
Import ListNotations.

Set Warnings "-register-all".

Local Open Scope string_scope.
Local Open Scope list_scope.

(* ===================================================================== *)
(** * Python values *)
(* ===================================================================== *)

(** What [response.json()] produces, plus the values the scripts build from
    it.  [PNone] is both JSON [null] and Python's [None].  Strings are
    sequences of code points below 256; numbers are the integers (a JSON
    number with a fraction is outside the model).  A dict is kept as an
    association list in insertion order, as Python keeps it; the keys of a
    dict that Python built are pairwise different. *)
Inductive pyobj : Type :=
| PNone
| PBool (b : bool)
| PInt (n : Z)
| PStr (s : string)
| PList (items : list pyobj)
| PDict (entries : list (pyobj * pyobj)).

Inductive exn : Type :=
| AttributeError
| KeyError
| TypeError
| IndexError
| ValueError
| RequestException.

(** The outcome of evaluating a Python expression. *)
Inductive result (A : Type) : Type :=
| Ok (a : A)
| Raise (e : exn).
Arguments Ok {A} a.
Arguments Raise {A} e.

Definition int_of_bool (b : bool) : Z := if b then 1%Z else 0%Z.

(** [bool(x)]: the truth value tested by [if x], [not x] and [x or y]. *)
Definition truthy (v : pyobj) : bool :=
  match v with
  | PNone => false
  | PBool b => b
  | PInt n => negb (n =? 0)%Z
  | PStr s => negb (s =? "")
  | PList l => match l with [] => false | _ :: _ => true end
  | PDict d => match d with [] => false | _ :: _ => true end
  end.

(** [a or b]. *)
Definition py_or (a b : pyobj) : pyobj := if truthy a then a else b.

(** Python's [==]: [True == 1], containers are compared by content, dicts
    regardless of the order of their entries. *)
Fixpoint py_eqb (a b : pyobj) {struct a} : bool :=
  match a, b with
  | PNone, PNone => true
  | PBool x, PBool y => Bool.eqb x y
  | PBool x, PInt n => (int_of_bool x =? n)%Z
  | PInt n, PBool x => (n =? int_of_bool x)%Z
  | PInt m, PInt n => (m =? n)%Z
  | PStr s, PStr t => (s =? t)
  | PList xs, PList ys =>
      (fix all2 (xs ys : list pyobj) {struct xs} : bool :=
         match xs, ys with
         | [], [] => true
         | x :: xs', y :: ys' => py_eqb x y && all2 xs' ys'
         | _, _ => false
         end) xs ys
  | PDict d, PDict e =>
      Nat.eqb (List.length d) (List.length e) &&
      (fix each (d : list (pyobj * pyobj)) {struct d} : bool :=
         match d with
         | [] => true
         | (k, v) :: d' =>
             (fix find (e : list (pyobj * pyobj)) {struct e} : bool :=
                match e with
                | [] => false
                | (k', v') :: e' => if py_eqb k k' then py_eqb v v' else find e'
                end) e && each d'
         end) d
  | _, _ => false
  end.

(** Lists and dicts are unhashable: they cannot be dict keys. *)
Definition hashable (k : pyobj) : bool :=
  match k with
  | PList _ | PDict _ => false
  | _ => true
  end.

(** The entry of a dict under a key. *)
Fixpoint dict_lookup (d : list (pyobj * pyobj)) (k : pyobj) : option pyobj :=
  match d with
  | [] => None
  | (k', v) :: d' => if py_eqb k' k then Some v else dict_lookup d' k
  end.

(** [d[k] = v] on the entries: an existing key keeps its place. *)
Fixpoint dict_store (d : list (pyobj * pyobj)) (k v : pyobj) : list (pyobj * pyobj) :=
  match d with
  | [] => [(k, v)]
  | (k', v') :: d' =>
      if py_eqb k' k then (k', v) :: d' else (k', v') :: dict_store d' k v
  end.

(** [d[k] = v] *)
Definition py_setitem (d : list (pyobj * pyobj)) (k v : pyobj)
  : result (list (pyobj * pyobj)) :=
  if hashable k then Ok (dict_store d k v) else Raise TypeError.

(** [o.get(key, default)]: only a dict has the method. *)
Definition py_get (o : pyobj) (key : string) (default : pyobj) : result pyobj :=
  match o with
  | PDict d =>
      Ok match dict_lookup d (PStr key) with
         | Some v => v
         | None => default
         end
  | _ => Raise AttributeError
  end.

(** [o[key]] with a string key. *)
Definition py_getitem (o : pyobj) (key : string) : result pyobj :=
  match o with
  | PDict d =>
      match dict_lookup d (PStr key) with
      | Some v => Ok v
      | None => Raise KeyError
      end
  | _ => Raise TypeError
  end.

(** [a + b] where [b] is a string literal. *)
Definition py_add_str (a : pyobj) (b : string) : result pyobj :=
  match a with
  | PStr s => Ok (PStr (s ++ b)%string)
  | _ => Raise TypeError
  end.

(** [a - n] for an integer literal [n]. *)
Definition py_sub_int (a : pyobj) (n : Z) : result pyobj :=
  match a with
  | PInt m => Ok (PInt (m - n))
  | PBool b => Ok (PInt (int_of_bool b - n))
  | _ => Raise TypeError
  end.

(** [list(o)], the items a [for] loop or [extend] runs over. *)
Definition py_iter (o : pyobj) : result (list pyobj) :=
  match o with
  | PList l => Ok l
  | PDict d => Ok (map fst d)
  | PStr s => Ok (map (fun c => PStr (String c "")) (list_ascii_of_string s))
  | _ => Raise TypeError
  end.

(** [len(o)] *)
Definition py_len (o : pyobj) : result nat :=
  match o with
  | PList l => Ok (List.length l)
  | PDict d => Ok (List.length d)
  | PStr s => Ok (String.length s)
  | _ => Raise TypeError
  end.

(** [a < b]: numbers with numbers, strings with strings by code point,
    lists lexicographically; any other pair is a [TypeError]. *)
Fixpoint py_lt (a b : pyobj) {struct a} : result bool :=
  match a, b with
  | PBool x, PBool y => Ok (int_of_bool x <? int_of_bool y)%Z
  | PBool x, PInt n => Ok (int_of_bool x <? n)%Z
  | PInt n, PBool y => Ok (n <? int_of_bool y)%Z
  | PInt m, PInt n => Ok (m <? n)%Z
  | PStr s, PStr t => Ok (String.ltb s t)
  | PList xs, PList ys =>
      (fix lex (xs ys : list pyobj) {struct xs} : result bool :=
         match xs, ys with
         | [], [] => Ok false
         | [], _ :: _ => Ok true
         | _ :: _, [] => Ok false
         | x :: xs', y :: ys' => if py_eqb x y then lex xs' ys' else py_lt x y
         end) xs ys
  | _, _ => Raise TypeError
  end.

(* ===================================================================== *)
(** * Characters and strings *)
(* ===================================================================== *)

Definition code (c : ascii) : nat := nat_of_ascii c.

Definition is_lower (c : ascii) : bool := ((97 <=? code c) && (code c <=? 122))%nat.
Definition is_upper (c : ascii) : bool := ((65 <=? code c) && (code c <=? 90))%nat.
Definition is_digit (c : ascii) : bool := ((48 <=? code c) && (code c <=? 57))%nat.

(** [str.lower] on one character: A-Z, and the upper-case letters of the
    Latin-1 block (192-222 without the multiplication sign 215). *)
Definition lower_char (c : ascii) : ascii :=
  let n := code c in
  if is_upper c then ascii_of_nat (n + 32)
  else if ((192 <=? n) && (n <=? 222) && negb (n =? 215))%nat then ascii_of_nat (n + 32)
  else c.

Fixpoint lower (s : string) : string :=
  match s with
  | EmptyString => EmptyString
  | String c s' => String (lower_char c) (lower s')
  end.

(** [s.replace(old, new)] for a one-character [old]. *)
Fixpoint replace_char (old : ascii) (new : string) (s : string) : string :=
  match s with
  | EmptyString => EmptyString
  | String c s' =>
      if Ascii.eqb c old then (new ++ replace_char old new s')%string
      else String c (replace_char old new s')
  end.

(** [s.lstrip(c)], [s.rstrip(c)] and [s.strip(c)] for a one-character set. *)
Fixpoint lstrip (x : ascii) (s : string) : string :=
  match s with
  | EmptyString => EmptyString
  | String c s' => if Ascii.eqb c x then lstrip x s' else s
  end.

Fixpoint rstrip (x : ascii) (s : string) : string :=
  match s with
  | EmptyString => EmptyString
  | String c s' =>
      match rstrip x s' with
      | EmptyString => if Ascii.eqb c x then EmptyString else String c EmptyString
      | r => String c r
      end
  end.

Definition strip (x : ascii) (s : string) : string := rstrip x (lstrip x s).

(** The character class [[a-z0-9]]. *)
Definition alnum_lower (c : ascii) : bool := is_lower c || is_digit c.

(** [re.sub(r"[^a-z0-9]+", "_", s)]: every maximal run of characters
    outside [[a-z0-9]] becomes one underscore.  [in_run] tells that the
    previous character already belonged to the run being replaced. *)
Fixpoint sub_non_alnum (in_run : bool) (s : string) : string :=
  match s with
  | EmptyString => EmptyString
  | String c s' =>
      if alnum_lower c then String c (sub_non_alnum false s')
      else if in_run then sub_non_alnum true s'
      else String "_" (sub_non_alnum true s')
  end.

(** ** [repr] and [str], as an f-string applies them *)

Definition hex_digit (n : nat) : ascii :=
  if (n <? 10)%nat then ascii_of_nat (48 + n) else ascii_of_nat (87 + n).

(** [str.isprintable] on one character of the model's range. *)
Definition printable (c : ascii) : bool :=
  let n := code c in
  ((32 <=? n) && (n <=? 126) || (161 <=? n) && negb (n =? 173))%nat.

Fixpoint mem_char (x : ascii) (s : string) : bool :=
  match s with
  | EmptyString => false
  | String c s' => Ascii.eqb c x || mem_char x s'
  end.

Definition backslash : ascii := ascii_of_nat 92.
Definition double_quote : ascii := ascii_of_nat 34.
Definition single_quote : ascii := ascii_of_nat 39.

Fixpoint repr_chars (quote : ascii) (s : string) : string :=
  match s with
  | EmptyString => EmptyString
  | String c s' =>
      let n := code c in
      let rest := repr_chars quote s' in
      if Ascii.eqb c quote || (n =? 92)%nat then String backslash (String c rest)
      else if (n =? 9)%nat then String backslash (String "t" rest)
      else if (n =? 10)%nat then String backslash (String "n" rest)
      else if (n =? 13)%nat then String backslash (String "r" rest)
      else if printable c then String c rest
      else String backslash
             (String "x" (String (hex_digit (n / 16))
                            (String (hex_digit (n mod 16)) rest)))
  end.

(** [repr(s)]: double quotes only when [s] has a single quote and no
    double one. *)
Definition repr_str (s : string) : string :=
  let quote : ascii :=
    if mem_char single_quote s && negb (mem_char double_quote s)
    then double_quote else single_quote in
  String quote (repr_chars quote s ++ String quote EmptyString)%string.

Definition str_of_Z (n : Z) : string := NilZero.string_of_int (Z.to_int n).

Fixpoint join (sep : string) (l : list string) : string :=
  match l with
  | [] => EmptyString
  | [x] => x
  | x :: rest => (x ++ sep ++ join sep rest)%string
  end.

Fixpoint py_repr (v : pyobj) : string :=
  match v with
  | PNone => "None"
  | PBool true => "True"
  | PBool false => "False"
  | PInt n => str_of_Z n
  | PStr s => repr_str s
  | PList l => ("[" ++ join ", " (map py_repr l) ++ "]")%string
  | PDict d =>
      ("{" ++ join ", " (map (fun kv => (py_repr (fst kv) ++ ": " ++ py_repr (snd kv))%string) d)
           ++ "}")%string
  end.

(** [str(v)], what [f"{v}"] inserts. *)
Definition py_str (v : pyobj) : string :=
  match v with
  | PStr s => s
  | _ => py_repr v
  end.

(* ===================================================================== *)
(** * Exceptions, the world and the monad of the scripts *)
(* ===================================================================== *)

Definition rbind {A B : Type} (r : result A) (f : A -> result B) : result B :=
  match r with
  | Ok a => f a
  | Raise e => Raise e
  end.

Notation "'let?' x ':=' r 'in' k" := (rbind r (fun x => k))
  (at level 10, x name, r at level 100, k at level 200).

(** One [requests.get(url, params=...)]. *)
Record request : Type := mkRequest {
  req_url : string;
  req_params : pyobj
}.

(** The network: what the [k]-th HTTP call of a run (counted from 0) gets
    for its request.  [Some v] is a 2xx response whose body parses to [v];
    [None] is any exception of [requests.get], [raise_for_status] or
    [.json()]. *)
Definition network : Type := nat -> request -> option pyobj.

(** The lines the scripts print, by their format string. *)
Inductive line : Type :=
| Fetching_catalogue
| Found_datasets (n : nat)
| Looking_up (dataset_id : string)
| Title (title : pyobj)
| Available_editions (names : list pyobj)
| Version_URL (version_url : pyobj)
| Dimension (name label : pyobj)
| Valid_options (total : pyobj)
| Option_line (opt_id opt_label : pyobj)
| And_more (n : pyobj)
| Blank
| FAILED_after (retries : nat).

(** What a run has done so far: the HTTP calls it made, the seconds it
    slept, the lines it printed, each in order. *)
Record world : Type := mkWorld {
  calls : list request;
  slept : list Z;
  stdout : list line
}.

Definition start : world := mkWorld [] [] [].

Definition M (A : Type) : Type := world -> result A * world.

Definition ret {A : Type} (a : A) : M A := fun w => (Ok a, w).

Definition bind {A B : Type} (m : M A) (f : A -> M B) : M B :=
  fun w =>
    match m w with
    | (Ok a, w') => f a w'
    | (Raise e, w') => (Raise e, w')
    end.

Definition lift {A : Type} (r : result A) : M A := fun w => (r, w).

Declare Scope script_scope.
Delimit Scope script_scope with script.

Notation "x <- m ;; k" := (bind m (fun x => k))
  (at level 100, m at next level, right associativity) : script_scope.
Notation "m ;;; k" := (bind m (fun _ => k))
  (at level 100, right associativity) : script_scope.

Local Open Scope script_scope.

Definition print (l : line) : M unit :=
  fun w => (Ok tt, mkWorld (calls w) (slept w) (stdout w ++ [l])).

(** [time.sleep(seconds)] *)
Definition sleep (seconds : Z) : M unit :=
  fun w => (Ok tt, mkWorld (calls w) (slept w ++ [seconds]) (stdout w)).

Section Requests.

Variable net : network.

(** The outcome of [requests.get(url, params=params)], [raise_for_status()]
    and [.json()] together.  A [url] that is no string has no scheme:
    [requests] raises before anything is sent. *)
Definition http (url : pyobj) (params : pyobj) : world -> option pyobj * world :=
  fun w =>
    match url with
    | PStr u =>
        let rq := mkRequest u params in
        (net (List.length (calls w)) rq,
         mkWorld (calls w ++ [rq]) (slept w) (stdout w))
    | _ => (None, w)
    end.

(** [r = requests.get(url, params=params); r.raise_for_status(); r.json()]
    outside any [try]. *)
Definition requests_get (url : pyobj) (params : pyobj) : M pyobj :=
  fun w =>
    match http url params w with
    | (Some v, w') => (Ok v, w')
    | (None, w') => (Raise RequestException, w')
    end.

End Requests.

Definition ROOT_URL : string := "https://api.beta.ons.gov.uk/v1/".

(** [x.get("links", {}).get(name, {}).get("href")] *)
Definition link_href (x : pyobj) (name : string) : result pyobj :=
  let? links := py_get x "links" (PDict []) in
  let? l := py_get links name (PDict []) in
  py_get l "href" PNone.

(** [item["links"]["latest_version"]["href"]] *)
Definition latest_version_href (item : pyobj) : result pyobj :=
  let? links := py_getitem item "links" in
  let? l := py_getitem links "latest_version" in
  py_getitem l "href".

(** [o[-1]] *)
Definition py_last (o : pyobj) : result pyobj :=
  match o with
  | PList l =>
      match rev l with
      | x :: _ => Ok x
      | [] => Raise IndexError
      end
  | PStr s =>
      match rev (list_ascii_of_string s) with
      | c :: _ => Ok (PStr (String c ""))
      | [] => Raise IndexError
      end
  | PDict d =>
      match dict_lookup d (PInt (-1)) with
      | Some v => Ok v
      | None => Raise KeyError
      end
  | _ => Raise TypeError
  end.

(** [[f(e) for e in items]] *)
Fixpoint comprehension (f : pyobj -> result pyobj) (items : list pyobj)
  : result (list pyobj) :=
  match items with
  | [] => Ok []
  | e :: rest =>
      let? x := f e in
      let? xs := comprehension f rest in
      Ok (x :: xs)
  end.

(* ===================================================================== *)
(** * examples/01_list_datasets.py *)
(* ===================================================================== *)

Module ListDatasets.

Definition limit : nat := 50.

(** The query parameters of one page request. *)
Definition page_params (offset : nat) : pyobj :=
  PDict [(PStr "offset", PInt (Z.of_nat offset));
         (PStr "limit", PInt (Z.of_nat limit))].

Section Net.

Variable net : network.

(** One turn of the [while True] loop: [None] is the [break], [Some]
    carries [datasets] and [offset] into the next turn. *)
Definition turn (datasets : list pyobj) (offset : nat)
  : M (option (list pyobj * nat)) :=
  data <- requests_get net (PStr (ROOT_URL ++ "datasets")) (page_params offset) ;;
  items <- lift (py_get data "items" (PList [])) ;;
  if negb (truthy items) then ret None
  else
    more <- lift (py_iter items) ;;
    n <- lift (py_len items) ;;
    ret (Some (datasets ++ more, offset + n)).

(** The loop; [None] when [fuel] turns were not enough to reach the
    [break]. *)
Fixpoint loop (fuel : nat) (datasets : list pyobj) (offset : nat) (w : world)
  : option (result (list pyobj) * world) :=
  match fuel with
  | O => None
  | S fuel' =>
      match turn datasets offset w with
      | (Raise e, w') => Some (Raise e, w')
      | (Ok None, w') => Some (Ok datasets, w')
      | (Ok (Some (datasets', offset')), w') => loop fuel' datasets' offset' w'
      end
  end.

Definition get_all_datasets (fuel : nat) (w : world)
  : option (result (list pyobj) * world) :=
  match print Fetching_catalogue w with
  | (_, w0) =>
      match loop fuel [] 0 w0 with
      | None => None
      | Some (Raise e, w1) => Some (Raise e, w1)
      | Some (Ok datasets, w1) =>
          Some (Ok datasets, snd (print (Found_datasets (List.length datasets)) w1))
      end
  end.

End Net.

End ListDatasets.

(* ===================================================================== *)
(** * examples/02_explore_dimensions.py *)
(* ===================================================================== *)

Module ExploreDimensions.

(** The [for edition in editions] loop of [get_latest_version_url] up to
    its [return]: [Some href] when an edition named "time-series" was
    met, [None] when the loop ran to its end. *)
Fixpoint first_time_series (editions : list pyobj) : result (option pyobj) :=
  match editions with
  | [] => Ok None
  | edition :: rest =>
      let? e := py_get edition "edition" PNone in
      if py_eqb e (PStr "time-series") then
        let? href := latest_version_href edition in
        Ok (Some href)
      else first_time_series rest
  end.

(** [options = {}] filled by the loop over [opts_data.get("items", [])]. *)
Fixpoint collect_options (items : list pyobj) (options : list (pyobj * pyobj))
  : result (list (pyobj * pyobj)) :=
  match items with
  | [] => Ok options
  | item :: rest =>
      let? label := py_get item "label" (PStr "") in
      let? opt := py_get item "option" PNone in
      let? options' := py_setitem options opt label in
      collect_options rest options'
  end.

(** The summary loop over [enumerate(options.items())], from index [i]. *)
Fixpoint print_options (i : nat) (options : list (pyobj * pyobj)) (total : pyobj)
  : M unit :=
  match options with
  | [] => ret tt
  | (opt_id, opt_label) :: rest =>
      if (10 <=? i)%nat then
        more <- lift (py_sub_int total 10) ;;
        print (And_more more)
      else
        print (Option_line opt_id opt_label) ;;;
        print_options (S i) rest total
  end.

Section Net.

Variable net : network.

Definition get_latest_version_url (dataset_id : string) : M pyobj :=
  print (Looking_up dataset_id) ;;;
  data <- requests_get net (PStr (ROOT_URL ++ "datasets/" ++ dataset_id)) PNone ;;
  title <- lift (py_get data "title" (PStr "?")) ;;
  print (Title title) ;;;
  editions_url <- lift (link_href data "editions") ;;
  if truthy editions_url then
    ed_data <- requests_get net editions_url PNone ;;
    editions <- lift (py_get ed_data "items" (PList [])) ;;
    es <- lift (py_iter editions) ;;
    names <- lift (comprehension (fun e => py_get e "edition" PNone) es) ;;
    print (Available_editions names) ;;;
    found <- lift (first_time_series es) ;;
    match found with
    | Some href => ret href
    | None =>
        if truthy editions then
          lift (let? last := py_last editions in latest_version_href last)
        else lift (link_href data "latest_version")
    end
  else lift (link_href data "latest_version").

(** The body of [for dim in dimensions]: [all_dimensions] comes in and
    goes out with the entry of [dim] stored. *)
Definition explore_dimension (version_url : pyobj)
    (all_dimensions : list (pyobj * pyobj)) (dim : pyobj)
  : M (list (pyobj * pyobj)) :=
  name <- lift (py_get dim "name" (PStr "")) ;;
  label <- lift (py_get dim "label" name) ;;
  dim_id <- lift (let? links := py_get dim "links" (PDict []) in
                  let? o := py_get links "options" (PDict []) in
                  py_get o "id" name) ;;
  opts_data <- requests_get net
                 (PStr (py_str version_url ++ "/dimensions/" ++ py_str dim_id
                          ++ "/options"))
                 (PDict [(PStr "limit", PInt 200)]) ;;
  items <- lift (py_get opts_data "items" (PList [])) ;;
  its <- lift (py_iter items) ;;
  options <- lift (collect_options its []) ;;
  total <- lift (py_get opts_data "total_count"
                   (PInt (Z.of_nat (List.length options)))) ;;
  all_dimensions' <- lift (py_setitem all_dimensions name (PDict options)) ;;
  print (Dimension name label) ;;;
  print (Valid_options total) ;;;
  print_options 0 options total ;;;
  print Blank ;;;
  ret all_dimensions'.

Fixpoint explore_each (version_url : pyobj) (dimensions : list pyobj)
    (all_dimensions : list (pyobj * pyobj)) : M (list (pyobj * pyobj)) :=
  match dimensions with
  | [] => ret all_dimensions
  | dim :: rest =>
      all_dimensions' <- explore_dimension version_url all_dimensions dim ;;
      explore_each version_url rest all_dimensions'
  end.

Definition explore_dimensions (version_url : pyobj) : M pyobj :=
  print (Version_URL version_url) ;;;
  u <- lift (py_add_str version_url "/dimensions") ;;
  response <- requests_get net u PNone ;;
  dimensions <- lift (py_get response "items" (PList [])) ;;
  dims <- lift (py_iter dimensions) ;;
  all_dimensions <- explore_each version_url dims [] ;;
  ret (PDict all_dimensions).

End Net.

End ExploreDimensions.

(* ===================================================================== *)
(** * Observations and the pandas calls of scripts 03 and 04 *)
(* ===================================================================== *)

(** One row of the frame: the dict appended to [rows], with the cell type
    of the [value] column left open ([pyobj] as collected, numeric after
    [pd.to_numeric]). *)
Record row (V : Type) : Type := mkRow {
  period : pyobj;
  period_label : pyobj;
  value : V
}.
Arguments mkRow {V} period period_label value.
Arguments period {V} r.
Arguments period_label {V} r.
Arguments value {V} r.

(** [obs.get("dimensions", {}).get("Time") or
     obs.get("dimensions", {}).get("time")] *)
Definition time_dim_of (obs : pyobj) : result pyobj :=
  let? dims := py_get obs "dimensions" (PDict []) in
  let? upper := py_get dims "Time" PNone in
  if truthy upper then Ok upper
  else
    let? dims' := py_get obs "dimensions" (PDict []) in
    py_get dims' "time" PNone.

(** The loop that fills [rows], the same text in [download_observations]
    (03) and [get_observations] (04). *)
Fixpoint collect_rows (observations : list pyobj) : result (list (row pyobj)) :=
  match observations with
  | [] => Ok []
  | obs :: rest =>
      let? time_dim := time_dim_of obs in
      if negb (truthy time_dim) then collect_rows rest
      else
        let? id := py_get time_dim "id" (PStr "") in
        let? label := py_get time_dim "label" (PStr "") in
        let? v := py_get obs "observation" PNone in
        let? rows := collect_rows rest in
        Ok (mkRow id label v :: rows)
  end.

(** ** Timestamps *)

(** Days from 1970-01-01 to the civil date [y]-[m]-[d]. *)
Definition days_from_civil (y m d : Z) : Z :=
  let y' := if (m <=? 2)%Z then (y - 1)%Z else y in
  let era := (y' / 400)%Z in
  let yoe := (y' - era * 400)%Z in
  let mp := if (m <=? 2)%Z then (m + 9)%Z else (m - 3)%Z in
  let doy := ((153 * mp + 2) / 5 + d - 1)%Z in
  let doe := (yoe * 365 + yoe / 4 - yoe / 100 + doy)%Z in
  (era * 146097 + doe - 719468)%Z.

(** A pandas [Timestamp]: nanoseconds since the epoch. *)
Definition timestamp (y m d : Z) : Z :=
  (days_from_civil y m d * 86400 * 1000000000)%Z.

(** [%b]: the abbreviated month names, matched without regard to case. *)
Definition month_of_abbr (s : string) : option Z :=
  let s := lower s in
  if s =? "jan" then Some 1%Z else if s =? "feb" then Some 2%Z
  else if s =? "mar" then Some 3%Z else if s =? "apr" then Some 4%Z
  else if s =? "may" then Some 5%Z else if s =? "jun" then Some 6%Z
  else if s =? "jul" then Some 7%Z else if s =? "aug" then Some 8%Z
  else if s =? "sep" then Some 9%Z else if s =? "oct" then Some 10%Z
  else if s =? "nov" then Some 11%Z else if s =? "dec" then Some 12%Z
  else None.

Definition digit_value (c : ascii) : option Z :=
  if is_digit c then Some (Z.of_nat (code c - 48)) else None.

(** [%y]: two digits; 00-68 are 2000-2068, 69-99 are 1969-1999. *)
Definition year_of_yy (c1 c2 : ascii) : option Z :=
  match digit_value c1, digit_value c2 with
  | Some a, Some b =>
      let yy := (10 * a + b)%Z in
      Some (if (yy <=? 68)%Z then (2000 + yy)%Z else (1900 + yy)%Z)
  | _, _ => None
  end.

(** [strptime(s, "%b-%y")], the whole of [s] matching the format: the
    first day of the month, or [None] for a mismatch. *)
Definition strptime_b_y (s : string) : option Z :=
  match s with
  | String m1 (String m2 (String m3 (String dash (String y1 (String y2 EmptyString))))) =>
      if Ascii.eqb dash "-" then
        match month_of_abbr (String m1 (String m2 (String m3 EmptyString))),
              year_of_yy y1 y2 with
        | Some m, Some y => Some (timestamp y m 1)
        | _, _ => None
        end
      else None
  | _ => None
  end.

(** The strings pandas reads as a missing date. *)
Definition nat_string (s : string) : bool :=
  (s =? "") || (s =? "NaT") || (s =? "nat") || (s =? "NAT")
  || (s =? "nan") || (s =? "NaN") || (s =? "NAN").

(** [pd.to_datetime(x, format="%b-%y")] on one cell: [Ok None] is [NaT].
    An empty string, like [None], is a missing date and does not raise.  A
    number or a bool is refused, as pandas refuses it; a list or a dict in
    a label cell is beyond what this model follows and is refused too. *)
Definition to_datetime_b_y (x : pyobj) : result (option Z) :=
  match x with
  | PNone => Ok None
  | PStr s =>
      if nat_string s then Ok None
      else match strptime_b_y s with
           | Some t => Ok (Some t)
           | None => Raise ValueError
           end
  | PBool _ => Raise TypeError
  | _ => Raise ValueError
  end.

(** [f] over a column; the first cell that raises ends it. *)
Fixpoint column {A B : Type} (f : A -> result B) (cells : list A) : result (list B) :=
  match cells with
  | [] => Ok []
  | c :: rest =>
      let? x := f c in
      let? xs := column f rest in
      Ok (x :: xs)
  end.

(** [errors="coerce"]: what does not parse is [NaT]. *)
Definition coerce (r : result (option Z)) : option Z :=
  match r with
  | Ok t => t
  | Raise _ => None
  end.

(** [parsed.notna().any()] *)
Definition notna_any (parsed : list (option Z)) : bool :=
  existsb (fun t => match t with Some _ => true | None => false end) parsed.

(** ** [DataFrame.sort_values] *)

Section Sorting.

Context {A K : Type}.
Variable lt : K -> K -> result bool.

(** [x] goes in front of the first element that is not below it, so rows
    with equal keys keep their order. *)
Fixpoint insert_sorted (x : K * A) (l : list (K * A)) : result (list (K * A)) :=
  match l with
  | [] => Ok [x]
  | y :: l' =>
      let? below := lt (fst y) (fst x) in
      if below then
        let? r := insert_sorted x l' in
        Ok (y :: r)
      else Ok (x :: y :: l')
  end.

Fixpoint insertion_sort (l : list (K * A)) : result (list (K * A)) :=
  match l with
  | [] => Ok []
  | x :: l' =>
      let? s := insertion_sort l' in
      insert_sorted x s
  end.

(** The rows that have a key, each with its key. *)
Fixpoint with_key (keys : list (option K)) (rows : list A) : list (K * A) :=
  match keys, rows with
  | Some k :: keys', r :: rows' => (k, r) :: with_key keys' rows'
  | None :: keys', _ :: rows' => with_key keys' rows'
  | _, _ => []
  end.

(** The rows whose key is missing ([NaT], [None]). *)
Fixpoint without_key (keys : list (option K)) (rows : list A) : list A :=
  match keys, rows with
  | Some _ :: keys', _ :: rows' => without_key keys' rows'
  | None :: keys', r :: rows' => r :: without_key keys' rows'
  | _, _ => []
  end.

(** [df.assign(_sort=keys).sort_values("_sort").drop(columns="_sort")]:
    ascending by key, the rows without a key last.  The comparison is
    Python's, so it can raise. *)
Definition sort_values (keys : list (option K)) (rows : list A) : result (list A) :=
  let? sorted := insertion_sort (with_key keys rows) in
  Ok (map snd sorted ++ without_key keys rows).

End Sorting.

Definition timestamp_lt (a b : Z) : result bool := Ok (a <? b)%Z.

(** The key of a cell of the [period] column: [None] is missing. *)
Definition period_key (x : pyobj) : option pyobj :=
  match x with
  | PNone => None
  | _ => Some x
  end.

(** [df.sort_values("period")] *)
Definition sort_by_period {V : Type} (df : list (row V)) : result (list (row V)) :=
  sort_values py_lt (map (fun r => period_key (period r)) df) df.

(** [df.assign(_sort=parsed).sort_values("_sort").drop(columns="_sort")] *)
Definition sort_by_parsed {V : Type} (parsed : list (option Z)) (df : list (row V))
  : result (list (row V)) :=
  sort_values timestamp_lt parsed df.

(** [df["value"] = pd.to_numeric(df["value"], errors="coerce")] *)
Definition numeric_values {Num : Type} (to_numeric : pyobj -> Num)
    (df : list (row pyobj)) : list (row Num) :=
  map (fun r => mkRow (period r) (period_label r) (to_numeric (value r))) df.

(** The [for item in ...] loop of [get_edition_url] up to its [return]:
    [Some v] when an item named [preferred_edition] was met and [href]
    gave [v], [None] when the loop ran to its end. *)
Fixpoint first_preferred (href : pyobj -> result pyobj) (preferred_edition : string)
    (items : list pyobj) : result (option pyobj) :=
  match items with
  | [] => Ok None
  | item :: rest =>
      let? e := py_get item "edition" PNone in
      if py_eqb e (PStr preferred_edition) then
        let? v := href item in
        Ok (Some v)
      else first_preferred href preferred_edition rest
  end.

(* ===================================================================== *)
(** * examples/03_download_timeseries.py *)
(* ===================================================================== *)

Module DownloadTimeseries.

Section Net.

Variable net : network.

Definition get_edition_url (dataset_id : string) (preferred_edition : string)
  : M pyobj :=
  data <- requests_get net (PStr (ROOT_URL ++ "datasets/" ++ dataset_id)) PNone ;;
  fallback_url <- lift (link_href data "latest_version") ;;
  editions_url <- lift (link_href data "editions") ;;
  if negb (truthy editions_url) then ret fallback_url
  else
    ed_data <- requests_get net editions_url PNone ;;
    items <- lift (py_get ed_data "items" (PList [])) ;;
    its <- lift (py_iter items) ;;
    found <- lift (first_preferred latest_version_href preferred_edition its) ;;
    match found with
    | Some href => ret href
    | None => ret fallback_url
    end.

Section Pandas.

Context {Num : Type}.
(** [pd.to_numeric(x, errors="coerce")] on one cell. *)
Variable to_numeric : pyobj -> Num.
(** [pd.to_datetime(x, format="mixed", dayfirst=False)] on one cell:
    [Ok None] is [NaT], [Raise] a cell that does not parse. *)
Variable to_datetime_mixed : pyobj -> result (option Z).

(** The [try] ... [except] around the sort, on a non-empty frame. *)
Definition sort_chronologically (df : list (row Num)) : result (list (row Num)) :=
  let labels := map period_label df in
  match column to_datetime_b_y labels with
  | Ok parsed => sort_by_parsed parsed df
  | Raise _ =>
      let parsed := map (fun x => coerce (to_datetime_mixed x)) labels in
      match (if notna_any parsed then sort_by_parsed parsed df
             else sort_by_period df) with
      | Ok df' => Ok df'
      | Raise _ => sort_by_period df
      end
  end.

Definition download_observations (edition_url : pyobj) (dimensions : pyobj)
  : M (list (row Num)) :=
  u <- lift (py_add_str edition_url "/observations") ;;
  data <- requests_get net u dimensions ;;
  observations <- lift (py_get data "observations" (PList [])) ;;
  obs <- lift (py_iter observations) ;;
  rows <- lift (collect_rows obs) ;;
  match rows with
  | [] => ret []
  | _ :: _ => lift (sort_chronologically (numeric_values to_numeric rows))
  end.

End Pandas.

End Net.

End DownloadTimeseries.

(* ===================================================================== *)
(** * examples/04_batch_download.py *)
(* ===================================================================== *)

Module BatchDownload.

Definition label_to_filename (label : string) : string :=
  let s := lower label in
  let s := replace_char "/" "_"
             (replace_char "&" "and" (replace_char "%" "pct" s)) in
  let s := sub_non_alnum false s in
  strip "_" s.

Section Net.

Variable net : network.

(** The [for attempt in range(retries)] loop from [attempt] on, with
    [remaining] turns left. *)
Fixpoint get_json_from (retries remaining attempt : nat) (url params : pyobj)
  : M pyobj :=
  match remaining with
  | O => ret PNone
  | S remaining' =>
      fun w =>
        match http net url params w with
        | (Some v, w') => (Ok v, w')
        | (None, w') =>
            if (Z.of_nat attempt <? Z.of_nat retries - 1)%Z then
              (sleep (2 ^ Z.of_nat attempt) ;;;
               get_json_from retries remaining' (S attempt) url params) w'
            else
              (print (FAILED_after retries) ;;; ret PNone) w'
        end
  end.

Definition get_json (url params : pyobj) (retries : nat) : M pyobj :=
  get_json_from retries retries 0 url params.

(** [item.get("links", {}).get("latest_version", {}).get("href")] *)
Definition item_href (item : pyobj) : result pyobj := link_href item "latest_version".

Definition get_edition_url (dataset_id : string) (preferred_edition : string)
  : M pyobj :=
  data <- get_json (PStr (ROOT_URL ++ "datasets/" ++ dataset_id)) PNone 3 ;;
  if negb (truthy data) then ret PNone
  else
    fallback <- lift (link_href data "latest_version") ;;
    editions_url <- lift (link_href data "editions") ;;
    if negb (truthy editions_url) then ret fallback
    else
      editions <- get_json editions_url PNone 3 ;;
      if negb (truthy editions) then ret fallback
      else
        items <- lift (py_get editions "items" (PList [])) ;;
        its <- lift (py_iter items) ;;
        found <- lift (first_preferred item_href preferred_edition its) ;;
        match found with
        | Some href => ret href
        | None => ret fallback
        end.

Section Pandas.

Context {Num : Type}.
Variable to_numeric : pyobj -> Num.
Variable to_datetime_mixed : pyobj -> result (option Z).

(** The nested [parse_period(s)]. *)
Definition parse_period (s : pyobj) : option Z :=
  match to_datetime_b_y s with
  | Ok t => t
  | Raise _ =>
      match to_datetime_mixed s with
      | Ok t => t
      | Raise _ => None
      end
  end.

(** The sort of a non-empty frame. *)
Definition sort_chronologically (df : list (row Num)) : result (list (row Num)) :=
  let parsed := map parse_period (map period_label df) in
  if notna_any parsed then sort_by_parsed parsed df
  else sort_by_period df.

Definition get_observations (edition_url : pyobj) (dimensions : pyobj)
  : M (list (row Num)) :=
  u <- lift (py_add_str edition_url "/observations") ;;
  data <- get_json u dimensions 3 ;;
  if negb (truthy data) then ret []
  else
    observations <- lift (py_get data "observations" (PList [])) ;;
    obs <- lift (py_iter observations) ;;
    rows <- lift (collect_rows obs) ;;
    match rows with
    | [] => ret []
    | _ :: _ => lift (sort_chronologically (numeric_values to_numeric rows))
    end.

End Pandas.

End Net.

End BatchDownload.

(* ===================================================================== *)
(** * Vocabulary of the statements *)
(* ===================================================================== *)

(** The characters a file name may hold: a-z, 0-9 and the underscore. *)
Definition filename_char (c : ascii) : bool := alnum_lower c || Ascii.eqb c "_".

Fixpoint all_chars (p : ascii -> bool) (s : string) : bool :=
  match s with
  | EmptyString => true
  | String c s' => p c && all_chars p s'
  end.

Definition first_char (s : string) : option ascii :=
  match s with
  | EmptyString => None
  | String c _ => Some c
  end.

Fixpoint last_char (s : string) : option ascii :=
  match s with
  | EmptyString => None
  | String c EmptyString => Some c
  | String _ s' => last_char s'
  end.


(** Every one of the three attempts of a [get_json] call that starts in
    world [w] fails: the network refuses the request each time, or the
    [url] is no string and [requests] refuses it itself. *)
Definition all_attempts_fail (net : network) (url params : pyobj) (w : world) : Prop :=
  match url with
  | PStr u =>
      forall k, k < 3 -> net (List.length (calls w) + k) (mkRequest u params) = None
  | _ => True
  end.

(** The requests a [get_json] call sends when each of [n] attempts fails. *)
Definition failed_calls (url params : pyobj) (n : nat) : list request :=
  match url with
  | PStr u => repeat (mkRequest u params) n
  | _ => []
  end.

(** The seconds slept in total. *)
Definition total_sleep (w : world) : Z := fold_right Z.add 0%Z (slept w).

(** A dict with string keys. *)
Definition obj (entries : list (string * pyobj)) : pyobj :=
  PDict (map (fun kv => (PStr (fst kv), snd kv)) entries).

(* ===================================================================== *)
(** * Sample API replies *)
(* ===================================================================== *)

Module Sample.

(** A network on which nothing answers. *)
Definition down : network := fun _ _ => None.

(** A network whose first two calls fail and whose later calls answer. *)
Definition flaky (body : pyobj) : network :=
  fun k _ => if (k <? 2)%nat then None else Some body.

(** A network that answers by URL alone. *)
Definition serving (pages : list (string * pyobj)) : network :=
  fun _ rq => dict_lookup (map (fun kv => (PStr (fst kv), snd kv)) pages)
                          (PStr (req_url rq)).

Definition link (href : string) : pyobj := obj [("href", PStr href)].

Definition edition (name href : string) : pyobj :=
  obj [("edition", PStr name); ("links", obj [("latest_version", link href)])].

Definition labour_market_url : string := ROOT_URL ++ "datasets/labour-market".
Definition labour_market_editions_url : string := labour_market_url ++ "/editions".
Definition labour_market_latest : string :=
  labour_market_url ++ "/editions/PWT23/versions/7".
Definition pwt23_latest : string := labour_market_url ++ "/editions/PWT23/versions/7".
Definition pwt24_latest : string := labour_market_url ++ "/editions/PWT24/versions/3".

(** [GET /datasets/labour-market] *)
Definition labour_market : pyobj :=
  obj [("title", PStr "Labour market");
       ("links", obj [("editions", link labour_market_editions_url);
                      ("latest_version", link labour_market_latest)])].

(** [GET /datasets/labour-market/editions]: no edition is called
    "time-series". *)
Definition labour_market_editions : pyobj :=
  obj [("items", PList [edition "PWT23" pwt23_latest; edition "PWT24" pwt24_latest])].

Definition ons : network :=
  serving [(labour_market_url, labour_market);
           (labour_market_editions_url, labour_market_editions)].

(** A catalogue of [items] that honours [offset] and [limit], and never
    puts more than [P] items on a page. *)
Definition catalogue (items : list pyobj) (P : nat) : network :=
  fun _ rq =>
    match req_params rq with
    | PDict [(_, PInt offset); (_, PInt limit)] =>
        Some (obj [("items",
                    PList (firstn (Nat.min P (Z.to_nat limit))
                                  (skipn (Z.to_nat offset) items)))])
    | _ => None
    end.

(** The same API while its editions listing is unreachable. *)
Definition ons_listing_down : network :=
  serving [(labour_market_url, labour_market)].

(** A version of the trade dataset and a full filter set. *)
Definition trade_version : string :=
  ROOT_URL ++ "datasets/trade/editions/time-series/versions/45".

Definition trade_filters : pyobj :=
  obj [("time", PStr "*"); ("geography", PStr "K02000001"); ("direction", PStr "EX")].

(** One observation, its temporal sub-object under [key]. *)
Definition observation (key id label v : string) : pyobj :=
  obj [("dimensions", obj [(key, obj [("id", PStr id); ("label", PStr label)])]);
       ("observation", PStr v)].

(** A network that answers every request with these observations. *)
Definition observing (observations : list pyobj) : network :=
  fun _ _ => Some (obj [("observations", PList observations)]).


(** The temporal sub-object under "Time", "TIME" and "time". *)
Definition three_spellings : list pyobj :=
  [observation "Time" "2023-12" "Dec-23" "10";
   observation "TIME" "2024-01" "Jan-24" "11";
   observation "time" "2024-02" "Feb-24" "12"].

(** A dimension of the listing, and one option of a dimension. *)
Definition dimension (name label : string) : pyobj :=
  obj [("name", PStr name); ("label", PStr label);
       ("links", obj [("options", obj [("id", PStr name)])])].

Definition option_item (opt label : string) : pyobj :=
  obj [("option", PStr opt); ("label", PStr label)].

(** A version with the one dimension "geography", labelled [label]; its
    options reply holds two options and declares [total] of them. *)
Definition dimensions_api (label : string) (total : Z) : network :=
  serving
    [((trade_version ++ "/dimensions")%string,
      obj [("items", PList [dimension "geography" label])]);
     ((trade_version ++ "/dimensions/geography/options")%string,
      obj [("items", PList [option_item "K02000001" "United Kingdom";
                            option_item "K03000001" "Great Britain"]);
           ("total_count", PInt total)])].

End Sample.

(** ** The catalogue listing *)

(** The [offset]-th page request of [get_all_datasets]. *)
Definition page_request (offset : nat) : request :=
  mkRequest (ROOT_URL ++ "datasets") (ListDatasets.page_params offset).

(** The body of a page reply. *)
Definition page_reply (items : list pyobj) : pyobj := obj [("items", PList items)].

(** A listing of [items] served in pages of [P]: whenever it is asked, the
    API answers a page request with the next [P] items from the offset on
    (fewer at the end, none past it). *)
Definition serves_in_pages (net : network) (items : list pyobj) (P : nat) : Prop :=
  forall k offset,
    net k (page_request offset) = Some (page_reply (firstn P (skipn offset items))).

(** ceil(N / P) *)
Definition pages_of (N P : nat) : nat := (N + P - 1) / P.

(** The offset of the [i]-th request over [N] items in pages of [P]. *)
Definition offset_of (N P i : nat) : nat := Nat.min (i * P) N.

(** ** Editions *)

(** No edition of the listing is named [preferred]. *)
Definition no_edition_named (preferred : string) (editions : list pyobj) : Prop :=
  Forall (fun e => exists name, py_get e "edition" PNone = Ok name
                                /\ py_eqb name (PStr preferred) = false) editions.

(** The URL of [GET /datasets/{id}]. *)
Definition dataset_url (dataset_id : string) : string :=
  ROOT_URL ++ "datasets/" ++ dataset_id.

(** ** Order of a frame *)

(** Two keyed rows stand in order when the second key is not below the
    first. *)
Definition in_order {A K : Type} (ltb : K -> K -> bool) (x y : K * A) : Prop :=
  ltb (fst y) (fst x) = false.

(** [out] holds the rows of [df] that have a date, in date order, and
    after them the rows without one, as they stood in [df]. *)
Definition dated_then_undated {V : Type} (parsed : list (option Z))
    (df out : list (row V)) : Prop :=
  exists dated,
    Permutation (with_key parsed df) dated
    /\ Sorted (fun a b => (fst a <= fst b)%Z) dated
    /\ out = map snd dated ++ without_key parsed df.





(** ** Observations *)

(** [d.get(key, default)] on the entries of a dict. *)
Definition entry (d : list (pyobj * pyobj)) (key : string) (default : pyobj) : pyobj :=
  match dict_lookup d (PStr key) with
  | Some v => v
  | None => default
  end.

(** What the two lookups of [time_dim_of] find in a [dimensions] dict:
    the entry under "Time" when it is truthy, else the one under "time". *)
Definition time_entry (dims : list (pyobj * pyobj)) : pyobj :=
  py_or (entry dims "Time" PNone) (entry dims "time" PNone).

(** ** The dimension catalogue *)

(** What [explore_dimensions] learns about one dimension. *)
Record dim_info : Type := mkInfo {
  info_name : pyobj;
  info_label : pyobj;
  info_options : list (pyobj * pyobj);
  info_total : pyobj
}.

(** The lines the summary loop prints for [options], from index [i] on. *)
Fixpoint option_lines (i : nat) (options : list (pyobj * pyobj)) (total : pyobj)
  : list line :=
  match options with
  | [] => []
  | (opt_id, opt_label) :: rest =>
      if (10 <=? i)%nat then
        match py_sub_int total 10 with
        | Ok more => [And_more more]
        | Raise _ => []
        end
      else Option_line opt_id opt_label :: option_lines (S i) rest total
  end.

(** The lines printed for one dimension. *)
Definition info_lines (i : dim_info) : list line :=
  Dimension (info_name i) (info_label i)
    :: Valid_options (info_total i)
    :: option_lines 0 (info_options i) (info_total i) ++ [Blank].

(** [info] is read off the listed dimension [dim] and off some options
    reply: name and label from [dim], the options from the reply's items,
    the total from its [total_count], or the number of options collected
    when it declares none. *)
Definition describes (dim : pyobj) (info : dim_info) : Prop :=
  py_get dim "name" (PStr "") = Ok (info_name info)
  /\ py_get dim "label" (info_name info) = Ok (info_label info)
  /\ exists opts_data items its,
       py_get opts_data "items" (PList []) = Ok items
       /\ py_iter items = Ok its
       /\ ExploreDimensions.collect_options its [] = Ok (info_options info)
       /\ py_get opts_data "total_count"
                 (PInt (Z.of_nat (List.length (info_options info))))
          = Ok (info_total info).

(** The dict [explore_dimensions] builds: each name with its options. *)
Definition catalog (infos : list dim_info) (all_dimensions : list (pyobj * pyobj))
  : list (pyobj * pyobj) :=
  fold_left (fun d i => dict_store d (info_name i) (PDict (info_options i)))
            infos all_dimensions.

(* ===================================================================== *)
(** * Further vocabulary: retries *)
(* ===================================================================== *)

(** The pauses of [get_json] before its [k]-th attempt (counted from 0):
    1, 2, 4, ... seconds, one after each failed attempt so far. *)
Definition backoff (k : nat) : list Z := map (fun i => (2 ^ Z.of_nat i)%Z) (seq 0 k).

(** The first [k] attempts of a call for [u] that starts after [n] earlier
    requests all fail. *)
Definition fails_first (net : network) (u : string) (params : pyobj) (n k : nat) : Prop :=
  forall i, i < k -> net (n + i) (mkRequest u params) = None.

(** ** Cost of a computation *)

(** Whatever the world it starts in, [m] sends at most [requests] HTTP
    requests and sleeps at most [seconds] seconds. *)
Definition costs_at_most {A : Type} (requests : nat) (seconds : Z) (m : M A) : Prop :=
  forall w,
    List.length (calls (snd (m w))) <= List.length (calls w) + requests
    /\ (total_sleep w <= total_sleep (snd (m w)) <= total_sleep w + seconds)%Z.

(** ** Listings in pages of any size *)

(** The offset of the [i]-th request when the pages before it were
    [pages]: the number of items received so far. *)
Definition offset_before (pages : list (list pyobj)) (i : nat) : nat :=
  List.length (List.concat (firstn i pages)).

(** From its [n0]-th call on, the API answers the request for each page in
    turn with that page. *)
Definition answers_pages (net : network) (n0 : nat) (pages : list (list pyobj)) : Prop :=
  forall i page,
    nth_error pages i = Some page ->
    net (n0 + i) (page_request (offset_before pages i)) = Some (page_reply page).

(** The requests of a run over [pages], the closing one included. *)
Definition page_requests (pages : list (list pyobj)) : list request :=
  map (fun i => page_request (offset_before pages i)) (seq 0 (S (List.length pages))).

Module MoreSamples.

(** An API that ignores the offset and serves the same page for ever. *)
Definition endless : network := fun _ _ => Some (page_reply [PStr "cpih01"]).

(** Pages of 2, 1 and 3 items, then the empty page; calls are told apart
    by their position in the run. *)
Definition uneven_pages : list (list pyobj) :=
  [[PInt 1; PInt 2]; [PInt 3]; [PInt 4; PInt 5; PInt 6]].

Definition uneven : network :=
  fun k _ => Some (page_reply (nth k uneven_pages [])).

(** The same API, failing from its third call on. *)
Definition uneven_then_down : network :=
  fun k _ => if (k <? 2)%nat then Some (page_reply (nth k uneven_pages [])) else None.

(** Four monthly observations around the two ends of the century window,
    out of order. *)
Definition century : list pyobj :=
  [Sample.observation "time" "2000-01" "Jan-00" "3";
   Sample.observation "Time" "1999-12" "Dec-99" "2";
   Sample.observation "time" "2068-06" "Jun-68" "4";
   Sample.observation "time" "1969-06" "Jun-69" "1"].

Definition century_rows : list (row pyobj) :=
  [mkRow (PStr "2000-01") (PStr "Jan-00") (PStr "3");
   mkRow (PStr "1999-12") (PStr "Dec-99") (PStr "2");
   mkRow (PStr "2068-06") (PStr "Jun-68") (PStr "4");
   mkRow (PStr "1969-06") (PStr "Jun-69") (PStr "1")].

End MoreSamples.

(** ** File names and dated rows *)

(** [s] has no two underscores in a row. *)
Fixpoint no_double_underscore (s : string) : bool :=
  match s with
  | String c1 ((String c2 _) as s') =>
      negb (Ascii.eqb c1 "_" && Ascii.eqb c2 "_") && no_double_underscore s'
  | _ => true
  end.

(** The date of a row whose label is a Mon-YY string. *)
Definition label_date {V : Type} (r : row V) : option Z :=
  match period_label r with
  | PStr s => strptime_b_y s
  | _ => None
  end.

(** Every label of the frame is a Mon-YY string. *)
Definition all_mon_yy {V : Type} (df : list (row V)) : Prop :=
  Forall (fun r => exists t, label_date r = Some t) df.

(** The frame is in the order of the dates its labels give. *)
Definition chronological {V : Type} (df : list (row V)) : Prop :=
  Sorted (fun a b => exists x y, label_date a = Some x /\ label_date b = Some y
                                 /\ (x <= y)%Z) df.

(* ===================================================================== *)
(** * examples/01_list_datasets.py: [summarise] *)
(* ===================================================================== *)

(** The first [n] characters of [s]. *)
Fixpoint string_take (n : nat) (s : string) : string :=
  match n, s with
  | S n', String c s' => String c (string_take n' s')
  | _, _ => EmptyString
  end.

(** [x[:n]]: a string or a list has a slice; [None], a number or a bool is
    not subscriptable.  A dict refuses the slice as well (with a
    [TypeError] up to Python 3.11, a [KeyError] from 3.12 on). *)
Definition py_slice_to (x : pyobj) (n : nat) : result pyobj :=
  match x with
  | PStr s => Ok (PStr (string_take n s))
  | PList l => Ok (PList (firstn n l))
  | _ => Raise TypeError
  end.

(** The items of a [join], which all have to be strings. *)
Fixpoint strings_of (items : list pyobj) : result (list string) :=
  match items with
  | [] => Ok []
  | PStr s :: rest =>
      let? ss := strings_of rest in
      Ok (s :: ss)
  | _ :: _ => Raise TypeError
  end.

(** [sep.join(x)] *)
Definition py_join (sep : string) (x : pyobj) : result pyobj :=
  let? items := py_iter x in
  let? ss := strings_of items in
  Ok (PStr (join sep ss)).

Module Summary.

(** One row of the table: the dict appended to [rows]. *)
Record summary_row : Type := mkSummary {
  ds_id : pyobj;
  ds_title : pyobj;
  ds_description : pyobj;
  ds_publisher : pyobj;
  ds_keywords : pyobj
}.

(** The dict built for one dataset, its values in the order written. *)
Definition summarise_one (ds : pyobj) : result summary_row :=
  let? id := py_get ds "id" (PStr "") in
  let? title := py_get ds "title" (PStr "") in
  let? full := py_get ds "description" (PStr "") in
  let? description := py_slice_to full 200 in
  let? publisher := py_get ds "publisher" (PDict []) in
  let? name := py_get publisher "name" (PStr "") in
  let? kw := py_get ds "keywords" (PList []) in
  let? keywords := py_join ", " kw in
  Ok (mkSummary id title description name keywords).

(** [summarise(datasets)]: the frame is the list of its rows. *)
Fixpoint summarise (datasets : list pyobj) : result (list summary_row) :=
  match datasets with
  | [] => Ok []
  | ds :: rest =>
      let? r := summarise_one ds in
      let? rows := summarise rest in
      Ok (r :: rows)
  end.

End Summary.

(** A dataset of the catalogue as [summarise] expects it: a JSON object
    whose description, when it has one, is a string, whose publisher, when
    it has one, is an object, and whose keywords, when it has any, are a
    list of strings. *)
Definition summarisable (ds : pyobj) : Prop :=
  exists d text publisher words,
    ds = PDict d
    /\ entry d "description" (PStr "") = PStr text
    /\ entry d "publisher" (PDict []) = PDict publisher
    /\ entry d "keywords" (PList []) = PList (map PStr words).

(** [r] is the row of dataset [ds]: id, title and publisher name as given
    (empty strings for missing ones), the keywords joined, and the
    description cut to its first 200 characters. *)
Definition row_of (ds : pyobj) (r : Summary.summary_row) : Prop :=
  exists d text publisher words,
    ds = PDict d
    /\ entry d "description" (PStr "") = PStr text
    /\ entry d "publisher" (PDict []) = PDict publisher
    /\ entry d "keywords" (PList []) = PList (map PStr words)
    /\ Summary.ds_id r = entry d "id" (PStr "")
    /\ Summary.ds_title r = entry d "title" (PStr "")
    /\ Summary.ds_description r = PStr (string_take 200 text)
    /\ String.length (string_take 200 text) <= 200
    /\ Summary.ds_publisher r = entry publisher "name" (PStr "")
    /\ Summary.ds_keywords r = PStr (join ", " words).

(* ===================================================================== *)
(** * examples/04_batch_download.py: [SERIES] and [main] *)
(* ===================================================================== *)

Module BatchMain.

(** One entry of [SERIES]: (dataset_id, human_label, dimension_overrides,
    edition_or_None). *)
Record series : Type := mkSeries {
  s_dataset_id : string;
  s_label : string;
  s_overrides : list (pyobj * pyobj);
  s_edition : option string
}.

Definition SERIES : list series :=
  [mkSeries "gdp-to-four-decimal-places" "Monthly GDP index - all sectors"
     [(PStr "geography", PStr "K02000001");
      (PStr "unofficialstandardindustrialclassification", PStr "A--T")] None;
   mkSeries "gdp-to-four-decimal-places" "Monthly GDP index - services"
     [(PStr "geography", PStr "K02000001");
      (PStr "unofficialstandardindustrialclassification", PStr "G--T")] None;
   mkSeries "gdp-to-four-decimal-places" "Monthly GDP index - production"
     [(PStr "geography", PStr "K02000001");
      (PStr "unofficialstandardindustrialclassification", PStr "B--E")] None;
   mkSeries "trade" "UK total exports"
     [(PStr "countriesandterritories", PStr "W1"); (PStr "direction", PStr "EX");
      (PStr "geography", PStr "K02000001");
      (PStr "standardindustrialtradeclassification", PStr "T")] None;
   mkSeries "trade" "UK total imports"
     [(PStr "countriesandterritories", PStr "W1"); (PStr "direction", PStr "IM");
      (PStr "geography", PStr "K02000001");
      (PStr "standardindustrialtradeclassification", PStr "T")] None;
   mkSeries "trade" "UK exports to EU"
     [(PStr "countriesandterritories", PStr "B5"); (PStr "direction", PStr "EX");
      (PStr "geography", PStr "K02000001");
      (PStr "standardindustrialtradeclassification", PStr "T")] None;
   mkSeries "trade" "UK imports from EU"
     [(PStr "countriesandterritories", PStr "B5"); (PStr "direction", PStr "IM");
      (PStr "geography", PStr "K02000001");
      (PStr "standardindustrialtradeclassification", PStr "T")] None;
   mkSeries "labour-market" "Employment rate 16+ SA"
     [(PStr "economicactivity", PStr "in-employment"); (PStr "agegroups", PStr "16+");
      (PStr "seasonaladjustment", PStr "seasonal-adjustment");
      (PStr "sex", PStr "all-adults"); (PStr "unitofmeasure", PStr "rates");
      (PStr "geography", PStr "K02000001")] (Some "PWT24");
   mkSeries "labour-market" "Unemployment rate 16+ SA"
     [(PStr "economicactivity", PStr "unemployed"); (PStr "agegroups", PStr "16+");
      (PStr "seasonaladjustment", PStr "seasonal-adjustment");
      (PStr "sex", PStr "all-adults"); (PStr "unitofmeasure", PStr "rates");
      (PStr "geography", PStr "K02000001")] (Some "PWT24")].

(** What the [except Exception as e] of the loop can catch, as [str(e)]
    tells it: the two [ValueError]s [main] raises itself, an exception of
    a helper, and the [OSError] of a [to_csv] that could not write. *)
Inductive failure : Type :=
| Could_not_resolve (dataset_id : string)
| No_observations_returned
| Raised (e : exn)
| Write_failed.

(** One dict appended to [metadata]. *)
Record metadata_row : Type := mkMeta {
  m_dataset_id : string;
  m_filename : string;
  m_label : string;
  m_edition_url : pyobj;
  m_obs_count : nat;
  m_period_start : pyobj;
  m_period_end : pyobj
}.

(** The lines on the console: those [main] prints, by their format
    string, and those its helpers print in between. *)
Inductive report : Type :=
| Downloading (n : nat)
| Progress (i n : nat) (label : string)
| OK (observations : nat)
| FAILED (f : failure)
| Done (saved : nat)
| Series_failed (n : nat)
| Failed_series (dataset_id label : string) (f : failure)
| Helper (l : line).

(** How [main] ends: it returns, or an [OSError] leaves it. *)
Inductive ending : Type :=
| Returned
| Crashed.

(** [edition or "time-series"] *)
Definition edition_name (s : series) : string :=
  match s_edition s with
  | Some e => if e =? "" then "time-series" else e
  | None => "time-series"
  end.

(** [edition_cache], keyed by (dataset_id, edition name). *)
Fixpoint cache_find (cache : list (string * string * pyobj)) (dataset_id name : string)
  : option pyobj :=
  match cache with
  | [] => None
  | (d, n, url) :: rest =>
      if (d =? dataset_id) && (n =? name) then Some url
      else cache_find rest dataset_id name
  end.

Section Run.

Context {Num : Type}.
Variable net : network.
Variable to_numeric : pyobj -> Num.
Variable to_datetime_mixed : pyobj -> result (option Z).
(** Whether a file of this name in [OUTPUT_DIR] can be written. *)
Variable writable : string -> bool.

(** A file of [OUTPUT_DIR], by what was written to it. *)
Inductive file : Type :=
| Series_csv (df : list (row Num))
| Metadata_csv (rows : list metadata_row).

(** The variables of [main], the world around them and the files written
    so far, in order. *)
Record state : Type := mkState {
  st_world : world;
  st_console : list report;
  st_files : list (string * file);
  edition_cache : list (string * string * pyobj);
  metadata : list metadata_row;
  errors : list (string * string * failure)
}.

Definition initial (w : world) : state := mkState w [] [] [] [] [].

Definition say (r : report) (st : state) : state :=
  mkState (st_world st) (st_console st ++ [r]) (st_files st) (edition_cache st)
          (metadata st) (errors st).

(** A helper run from [main]: the world moves on, and what the helper
    printed reaches the console at this point. *)
Definition call {A : Type} (m : M A) (st : state) : result A * state :=
  let '(r, w') := m (st_world st) in
  (r, mkState w'
        (st_console st
           ++ map Helper (skipn (List.length (stdout (st_world st))) (stdout w')))
        (st_files st) (edition_cache st) (metadata st) (errors st)).

(** The lookup of the edition URL, through the cache. *)
Definition resolve (s : series) (st : state) : (failure + pyobj) * state :=
  match cache_find (edition_cache st) (s_dataset_id s) (edition_name s) with
  | Some url => (inr url, st)
  | None =>
      match call (BatchDownload.get_edition_url net (s_dataset_id s) (edition_name s)) st with
      | (Raise e, st1) => (inl (Raised e), st1)
      | (Ok url, st1) =>
          if negb (truthy url) then (inl (Could_not_resolve (s_dataset_id s)), st1)
          else
            (inr url,
             mkState (st_world st1) (st_console st1) (st_files st1)
                     (edition_cache st1 ++ [(s_dataset_id s, edition_name s, url)])
                     (metadata st1) (errors st1))
      end
  end.

(** [df["period"].iloc[-1]] of a frame that starts with [r]. *)
Definition last_period (r : row Num) (df : list (row Num)) : pyobj :=
  period (last df r).

(** The body of the [try]: the metadata row of the series saved, or what
    was raised. *)
Definition attempt (s : series) (st : state) : (failure + metadata_row) * state :=
  match resolve s st with
  | (inl f, st1) => (inl f, st1)
  | (inr edition_url, st1) =>
      let dims := PDict (dict_store (s_overrides s) (PStr "time") (PStr "*")) in
      match call (BatchDownload.get_observations net to_numeric to_datetime_mixed
                    edition_url dims) st1 with
      | (Raise e, st2) => (inl (Raised e), st2)
      | (Ok [], st2) => (inl No_observations_returned, st2)
      | (Ok (r :: df), st2) =>
          let fname := (BatchDownload.label_to_filename (s_label s) ++ ".csv")%string in
          if writable fname then
            (inr (mkMeta (s_dataset_id s) fname (s_label s) edition_url
                         (List.length (r :: df)) (period r) (last_period r df)),
             say (OK (List.length (r :: df)))
                 (mkState (st_world st2) (st_console st2)
                          (st_files st2 ++ [(fname, Series_csv (r :: df))])
                          (edition_cache st2) (metadata st2) (errors st2)))
          else (inl Write_failed, st2)
      end
  end.

(** One turn of the loop, for the [i]-th of [n] series. *)
Definition turn (i n : nat) (s : series) (st : state) : state :=
  match attempt s (say (Progress i n (s_label s)) st) with
  | (inr m, st1) =>
      mkState (st_world st1) (st_console st1) (st_files st1) (edition_cache st1)
              (metadata st1 ++ [m]) (errors st1)
  | (inl f, st1) =>
      say (FAILED f)
          (mkState (st_world st1) (st_console st1) (st_files st1) (edition_cache st1)
                   (metadata st1) (errors st1 ++ [(s_dataset_id s, s_label s, f)]))
  end.

(** The loop over [enumerate(SERIES, 1)], from index [i] on. *)
Fixpoint turns (i n : nat) (todo : list series) (st : state) : state :=
  match todo with
  | [] => st
  | s :: rest => turns (S i) n rest (turn i n s st)
  end.

(** The summary printed at the end. *)
Definition summary (st : state) : state :=
  let st1 := say (Done (List.length (metadata st))) st in
  match errors st with
  | [] => st1
  | _ :: _ =>
      fold_left (fun acc e => say (Failed_series (fst (fst e)) (snd (fst e)) (snd e)) acc)
                (errors st) (say (Series_failed (List.length (errors st))) st1)
  end.

(** [main] over a list of series; [mkdir_ok] tells whether
    [OUTPUT_DIR.mkdir] succeeds. *)
Definition main_over (all_series : list series) (mkdir_ok : bool) (w : world)
  : ending * state :=
  if negb mkdir_ok then (Crashed, initial w)
  else
    let st := turns 1 (List.length all_series) all_series
                (say (Downloading (List.length all_series)) (initial w)) in
    match metadata st with
    | [] => (Returned, summary st)
    | _ :: _ =>
        if writable "_metadata.csv" then
          (Returned,
           summary (mkState (st_world st) (st_console st)
                            (st_files st ++ [("_metadata.csv", Metadata_csv (metadata st))])
                            (edition_cache st) (metadata st) (errors st)))
        else (Crashed, st)
    end.

Definition main (mkdir_ok : bool) (w : world) : ending * state :=
  main_over SERIES mkdir_ok w.

End Run.

End BatchMain.

(** ** Vocabulary for [main] *)

(** The metadata row [m] stands for a series file that was written: a
    file of its name holds a frame of [m_obs_count m] rows, at least one,
    and the name is the file name of its label. *)
Definition saved {Num : Type} (files : list (string * BatchMain.file (Num := Num)))
    (m : BatchMain.metadata_row) : Prop :=
  exists df,
    In (BatchMain.m_filename m, BatchMain.Series_csv df) files
    /\ BatchMain.m_obs_count m = List.length df
    /\ 0 < List.length df
    /\ BatchMain.m_filename m
       = (BatchDownload.label_to_filename (BatchMain.m_label m) ++ ".csv")%string.

(** The query of a series: its overrides and the time wildcard. *)
Definition series_query (s : BatchMain.series) : pyobj :=
  PDict (dict_store (BatchMain.s_overrides s) (PStr "time") (PStr "*")).

(** Nothing answers on the network. *)
Definition unreachable (net : network) : Prop := forall k rq, net k rq = None.

(** ** The requests of [explore_dimensions] *)

(** The [dim_id] that [explore_dimensions] reads off a listed dimension. *)
Definition options_id (dim : pyobj) : result pyobj :=
  let? name := py_get dim "name" (PStr "") in
  let? links := py_get dim "links" (PDict []) in
  let? o := py_get links "options" (PDict []) in
  py_get o "id" name.

(** The one request sent for the options of a dimension. *)
Definition options_request (version_url dim_id : pyobj) : request :=
  mkRequest (py_str version_url ++ "/dimensions/" ++ py_str dim_id ++ "/options")
            (PDict [(PStr "limit", PInt 200)]).

(** The line printed for one option. *)
Definition option_line (kv : pyobj * pyobj) : line := Option_line (fst kv) (snd kv).

(* ===================================================================== *)
(** * Script 02: [main] and the template it prints *)
(* ===================================================================== *)

(** [l[n]] on a list, negative indexes counted from the end. *)
Definition list_item (l : list pyobj) (n : Z) : result pyobj :=
  let i := (if n <? 0 then n + Z.of_nat (List.length l) else n)%Z in
  if (i <? 0)%Z then Raise IndexError
  else match nth_error l (Z.to_nat i) with
       | Some x => Ok x
       | None => Raise IndexError
       end.

(** [o[k]] with any key. *)
Definition py_index (o k : pyobj) : result pyobj :=
  match o with
  | PDict d =>
      if hashable k then
        match dict_lookup d k with
        | Some v => Ok v
        | None => Raise KeyError
        end
      else Raise TypeError
  | PList l =>
      match k with
      | PInt n => list_item l n
      | PBool b => list_item l (int_of_bool b)
      | _ => Raise TypeError
      end
  | PStr s =>
      match k with
      | PInt n => list_item (map (fun c => PStr (String c "")) (list_ascii_of_string s)) n
      | PBool b =>
          list_item (map (fun c => PStr (String c "")) (list_ascii_of_string s))
                    (int_of_bool b)
      | _ => Raise TypeError
      end
  | _ => Raise TypeError
  end.

Module ExploreMain.

Definition DATASET_ID : string := "trade".

(** What stops [main]: an exception of the model, or the [StopIteration]
    of [next] on an exhausted iterator. *)
Inductive crash : Type :=
| Raised (e : exn)
| StopIteration.

Inductive ending : Type :=
| Returned
| Crashed (c : crash).

(** The lines [main] prints, and the lines of its helpers among them. *)
Inductive report : Type :=
| Helper (l : line)
| Could_not_find
| Rule
| Template_intro
| Params_open
| Time_wildcard (name : string)
| First_option (name : string) (first_key first_label : pyobj)
| Params_close.

(** The body of [for name, options in dimensions.items()]: the line it
    prints, if any. *)
Definition template_entry (name options : pyobj) : crash + option report :=
  match name with
  | PStr n =>
      if (lower n =? "time")%string then inr (Some (Time_wildcard n))
      else if truthy options then
        match py_iter options with
        | Raise e => inl (Raised e)
        | Ok [] => inl StopIteration
        | Ok (first_key :: _) =>
            match py_index options first_key with
            | Raise e => inl (Raised e)
            | Ok first_label => inr (Some (First_option n first_key first_label))
            end
        end
      else inr None
  | _ => inl (Raised AttributeError)
  end.

(** The loop over the items: the lines printed and what stopped it, if
    anything did. *)
Fixpoint template_loop (items : list (pyobj * pyobj)) : list report * option crash :=
  match items with
  | [] => ([], None)
  | (name, options) :: rest =>
      match template_entry name options with
      | inl c => ([], Some c)
      | inr printed =>
          let '(lines, stopped) := template_loop rest in
          (match printed with
           | Some l => l :: lines
           | None => lines
           end, stopped)
      end
  end.

(** The template part of [main], from [print("=" * 60)] on. *)
Definition template (dimensions : pyobj) : list report * option crash :=
  match dimensions with
  | PDict d =>
      let '(lines, stopped) := template_loop d in
      match stopped with
      | None => ([Rule; Template_intro; Params_open] ++ lines ++ [Params_close], None)
      | Some c => ([Rule; Template_intro; Params_open] ++ lines, Some c)
      end
  | _ => ([Rule; Template_intro; Params_open], Some (Raised AttributeError))
  end.

(** What the helpers printed between two worlds. *)
Definition helper_lines (w w' : world) : list report :=
  map Helper (skipn (List.length (stdout w)) (stdout w')).

Section Net.

Variable net : network.

(** [main]: how it ends, the world it leaves and all it printed. *)
Definition main (w : world) : ending * (world * list report) :=
  match ExploreDimensions.get_latest_version_url net DATASET_ID w with
  | (Raise e, w1) => (Crashed (Raised e), (w1, helper_lines w w1))
  | (Ok version_url, w1) =>
      if negb (truthy version_url) then
        (Returned, (w1, helper_lines w w1 ++ [Could_not_find]))
      else
        match ExploreDimensions.explore_dimensions net version_url w1 with
        | (Raise e, w2) => (Crashed (Raised e), (w2, helper_lines w w2))
        | (Ok dimensions, w2) =>
            let '(lines, stopped) := template dimensions in
            (match stopped with
             | None => Returned
             | Some c => Crashed c
             end, (w2, helper_lines w w2 ++ lines))
        end
  end.

End Net.

End ExploreMain.

(** The template line of one dimension of a catalogue: the wildcard for a
    dimension named "time" in any case, else the first option, and no line
    for a dimension without options. *)
Definition template_line (kv : pyobj * pyobj) : list ExploreMain.report :=
  match kv with
  | (PStr n, PDict options) =>
      if (lower n =? "time")%string then [ExploreMain.Time_wildcard n]
      else match options with
           | [] => []
           | (first_key, first_label) :: _ =>
               [ExploreMain.First_option n first_key first_label]
           end
  | _ => []
  end.

Definition named_by_string (kv : pyobj * pyobj) : Prop := exists n, fst kv = PStr n.

(** An options dict as [explore_dimensions] builds it. *)
Definition options_dict (v : pyobj) : Prop :=
  exists options, v = PDict options /\ Forall (fun kv => hashable (fst kv) = true) options.

(** Sample replies for script 02. *)
Module Sample02.

Definition trade : pyobj :=
  obj [("title", PStr "Trade in goods");
       ("links", obj [("latest_version", Sample.link Sample.trade_version)])].

(** A dimension as the API lists it, under any [name]. *)
Definition listed (name : pyobj) (id : string) : pyobj :=
  obj [("name", name); ("links", obj [("options", obj [("id", PStr id)])])].

Definition options_of (id : string) (items : list pyobj) : string * pyobj :=
  ((Sample.trade_version ++ "/dimensions/" ++ id ++ "/options")%string,
   obj [("items", PList items)]).

(** The trade dataset with a time dimension spelled "Time", a geography
    and a dimension that lists no options. *)
Definition api : network :=
  Sample.serving
    [(dataset_url "trade", trade);
     ((Sample.trade_version ++ "/dimensions")%string,
      obj [("items", PList [listed (PStr "Time") "time";
                            listed (PStr "geography") "geography";
                            listed (PStr "direction") "direction"])]);
     options_of "time" [Sample.option_item "Jan-24" "Jan-24"];
     options_of "geography" [Sample.option_item "K02000001" "United Kingdom";
                             Sample.option_item "K03000001" "Great Britain"];
     options_of "direction" []].

(** The same, the second dimension listed with a null name. *)
Definition nameless_api : network :=
  Sample.serving
    [(dataset_url "trade", trade);
     ((Sample.trade_version ++ "/dimensions")%string,
      obj [("items", PList [listed (PStr "Time") "time";
                            listed PNone "geography";
                            listed (PStr "direction") "direction"])]);
     options_of "time" [Sample.option_item "Jan-24" "Jan-24"];
     options_of "geography" [Sample.option_item "K02000001" "United Kingdom"];
     options_of "direction" []].

(** The world after the lookup of the trade dataset on either API. *)
Definition looked_up : world :=
  mkWorld [mkRequest (dataset_url "trade") PNone] []
          [Looking_up "trade"; Title (PStr "Trade in goods")].

Definition requests : list request :=
  [mkRequest (dataset_url "trade") PNone;
   mkRequest (Sample.trade_version ++ "/dimensions") PNone;
   options_request (PStr Sample.trade_version) (PStr "time");
   options_request (PStr Sample.trade_version) (PStr "geography");
   options_request (PStr Sample.trade_version) (PStr "direction")].

(** The world after the exploration on [api]. *)
Definition explored : world :=
  mkWorld requests []
    [Looking_up "trade"; Title (PStr "Trade in goods");
     Version_URL (PStr Sample.trade_version);
     Dimension (PStr "Time") (PStr "Time"); Valid_options (PInt 1);
     Option_line (PStr "Jan-24") (PStr "Jan-24"); Blank;
     Dimension (PStr "geography") (PStr "geography"); Valid_options (PInt 2);
     Option_line (PStr "K02000001") (PStr "United Kingdom");
     Option_line (PStr "K03000001") (PStr "Great Britain"); Blank;
     Dimension (PStr "direction") (PStr "direction"); Valid_options (PInt 0); Blank].

(** The world after the exploration on [nameless_api]. *)
Definition explored_nameless : world :=
  mkWorld requests []
    [Looking_up "trade"; Title (PStr "Trade in goods");
     Version_URL (PStr Sample.trade_version);
     Dimension (PStr "Time") (PStr "Time"); Valid_options (PInt 1);
     Option_line (PStr "Jan-24") (PStr "Jan-24"); Blank;
     Dimension PNone PNone; Valid_options (PInt 1);
     Option_line (PStr "K02000001") (PStr "United Kingdom"); Blank;
     Dimension (PStr "direction") (PStr "direction"); Valid_options (PInt 0); Blank].

End Sample02.

(* ===================================================================== *)
(** * Which observations of a reply make a row *)
(* ===================================================================== *)

(** The [dimensions] map of an observation of the reply. *)
Definition dimensions_of (o : pyobj) : list (pyobj * pyobj) :=
  match o with
  | PDict d =>
      match entry d "dimensions" (PDict []) with
      | PDict dims => dims
      | _ => []
      end
  | _ => []
  end.

(** The observation has a temporal sub-object the fetchers find: a truthy
    entry under "Time", or else under "time". *)
Definition has_time (o : pyobj) : bool := truthy (time_entry (dimensions_of o)).

(** [r] is the row of the observation [o]: id and label from the temporal
    sub-object found, the value from the observation. *)
Definition row_from (o : pyobj) (r : row pyobj) : Prop :=
  exists td v,
    time_entry (dimensions_of o) = PDict td
    /\ py_get o "observation" PNone = Ok v
    /\ r = mkRow (entry td "id" (PStr "")) (entry td "label" (PStr "")) v.

(** An observation of the shape the API documents: an object whose
    [dimensions], when present, is an object, and whose temporal
    sub-object, when truthy, is an object. *)
Definition shaped (o : pyobj) : Prop :=
  exists d dims,
    o = PDict d
    /\ entry d "dimensions" (PDict []) = PDict dims
    /\ (truthy (time_entry dims) = true -> exists td, time_entry dims = PDict td).

(* ===================================================================== *)
(** * The dimension catalogue, read off the replies of the API *)
(* ===================================================================== *)

(** [info] is what [explore_dimensions] reads off the listed dimension
    [dim] and off the reply [opts_data] to its options request: name and
    label from [dim], the options from the items of the reply, the total
    from its [total_count], or the size of the options mapping when the
    reply declares none. *)
Definition reads (dim opts_data : pyobj) (info : dim_info) : Prop :=
  py_get dim "name" (PStr "") = Ok (info_name info)
  /\ py_get dim "label" (info_name info) = Ok (info_label info)
  /\ exists items its,
       py_get opts_data "items" (PList []) = Ok items
       /\ py_iter items = Ok its
       /\ ExploreDimensions.collect_options its [] = Ok (info_options info)
       /\ py_get opts_data "total_count"
                 (PInt (Z.of_nat (List.length (info_options info))))
          = Ok (info_total info).

(** The [k]-th request of the run is the options request of [dim]; the
    API answers it, and [info] is read off the answer. *)
Definition answered (net : network) (version_url : pyobj) (k : nat)
    (dim : pyobj) (info : dim_info) : Prop :=
  exists dim_id opts_data,
    options_id dim = Ok dim_id
    /\ net k (options_request version_url dim_id) = Some opts_data
    /\ reads dim opts_data info.

(** The same for the dimensions listed, one request after the other from
    the [k]-th on. *)
Fixpoint each_answered (net : network) (version_url : pyobj) (k : nat)
    (dims : list pyobj) (infos : list dim_info) : Prop :=
  match dims, infos with
  | [], [] => True
  | dim :: dims', info :: infos' =>
      answered net version_url k dim info
      /\ each_answered net version_url (S k) dims' infos'
  | _, _ => False
  end.

(** What the loop needs beyond the replies: a name that can be a dict
    key, and a total the summary can subtract from when it has to. *)
Definition presentable (info : dim_info) : Prop :=
  hashable (info_name info) = true
  /\ (List.length (info_options info) <= 10
      \/ exists more, py_sub_int (info_total info) 10 = Ok more).

(** No two keys of the entries are equal. *)
Fixpoint distinct_keys (d : list (pyobj * pyobj)) : Prop :=
  match d with
  | [] => True
  | (k, _) :: d' =>
      Forall (fun kv => py_eqb k (fst kv) = false) d' /\ distinct_keys d'
  end.

(** The options mapping holds one entry per distinct option id among the
    items retrieved: each item's id has an entry, each entry is the id of
    an item, no id has two entries. *)
Definition one_entry_per_id (its : list pyobj) (options : list (pyobj * pyobj)) : Prop :=
  (forall item, In item its ->
     exists opt label, py_get item "option" PNone = Ok opt
                       /\ dict_lookup options opt = Some label)
  /\ (forall k v, In (k, v) options ->
        exists item, In item its /\ py_get item "option" PNone = Ok k)
  /\ distinct_keys options
  /\ List.length options <= List.length its.
(* ===================================================================== *)
(** * Properties of [label_to_filename] *)
(* ===================================================================== *)

Lemma all_chars_sub_non_alnum (s : string) :
  forall in_run, all_chars filename_char (sub_non_alnum in_run s) = true.
Proof.
  induction s as [|c s IH]; intros in_run; simpl; [reflexivity|].
  destruct (alnum_lower c) eqn:Hc.
  - simpl. unfold filename_char at 1. rewrite Hc. simpl. apply IH.
  - destruct in_run; [apply IH|].
    simpl. rewrite IH. reflexivity.
Qed.

Lemma all_chars_lstrip (p : ascii -> bool) (x : ascii) (s : string) :
  all_chars p s = true -> all_chars p (lstrip x s) = true.
Proof.
  induction s as [|c s IH]; simpl; intros H; [reflexivity|].
  apply andb_true_iff in H as [Hc Hs].
  destruct (Ascii.eqb c x); [auto|].
  simpl. rewrite Hc, Hs. reflexivity.
Qed.

Lemma rstrip_cons (x c : ascii) (s : string) :
  rstrip x (String c s) =
  match rstrip x s with
  | EmptyString => if Ascii.eqb c x then EmptyString else String c EmptyString
  | r => String c r
  end.
Proof. reflexivity. Qed.

Lemma all_chars_rstrip (p : ascii -> bool) (x : ascii) (s : string) :
  all_chars p s = true -> all_chars p (rstrip x s) = true.
Proof.
  induction s as [|c s IH]; intros H; [reflexivity|].
  simpl in H. apply andb_true_iff in H as [Hc Hs].
  rewrite rstrip_cons. specialize (IH Hs).
  destruct (rstrip x s) as [|d r].
  - destruct (Ascii.eqb c x); simpl; [reflexivity|]. rewrite Hc. reflexivity.
  - simpl in *. rewrite Hc. exact IH.
Qed.

Lemma first_char_lstrip (x : ascii) (s : string) :
  first_char (lstrip x s) <> Some x.
Proof.
  induction s as [|c s IH]; simpl; [discriminate|].
  destruct (Ascii.eqb c x) eqn:E; [exact IH|].
  simpl. intros H. injection H as ->. rewrite Ascii.eqb_refl in E. discriminate.
Qed.

Lemma first_char_rstrip (x : ascii) (s : string) :
  first_char s <> Some x -> first_char (rstrip x s) <> Some x.
Proof.
  destruct s as [|c s]; intros H; [exact H|].
  rewrite rstrip_cons.
  destruct (rstrip x s); [destruct (Ascii.eqb c x)|]; simpl; try exact H; discriminate.
Qed.

Lemma last_char_rstrip (x : ascii) (s : string) :
  last_char (rstrip x s) <> Some x.
Proof.
  induction s as [|c s IH]; [discriminate|].
  rewrite rstrip_cons.
  destruct (rstrip x s) as [|d r] eqn:E.
  - destruct (Ascii.eqb c x) eqn:Ec; simpl; [discriminate|].
    intros H. injection H as ->. rewrite Ascii.eqb_refl in Ec. discriminate.
  - exact IH.
Qed.

(** C10: whatever the label, [label_to_filename] yields only the characters
    a-z, 0-9 and underscore, and the result neither starts nor ends with
    an underscore. *)
Theorem label_to_filename_safe (label : string) :
  all_chars filename_char (BatchDownload.label_to_filename label) = true
  /\ first_char (BatchDownload.label_to_filename label) <> Some "_"%char
  /\ last_char (BatchDownload.label_to_filename label) <> Some "_"%char.
Proof.
  unfold BatchDownload.label_to_filename, strip.
  split; [|split].
  - apply all_chars_rstrip, all_chars_lstrip, all_chars_sub_non_alnum.
  - apply first_char_rstrip, first_char_lstrip.
  - apply last_char_rstrip.
Qed.

(* ===================================================================== *)
(** * The monad *)
(* ===================================================================== *)

Lemma bind_ok {A B : Type} (m : M A) (f : A -> M B) (w w' : world) (a : A) :
  m w = (Ok a, w') -> bind m f w = f a w'.
Proof. intros H. unfold bind. rewrite H. reflexivity. Qed.

Lemma bind_raise {A B : Type} (m : M A) (f : A -> M B) (w w' : world) (e : exn) :
  m w = (Raise e, w') -> bind m f w = (Raise e, w').
Proof. intros H. unfold bind. rewrite H. reflexivity. Qed.

Lemma bind_lift_ok {A B : Type} (r : result A) (f : A -> M B) (w : world) (a : A) :
  r = Ok a -> bind (lift r) f w = f a w.
Proof. intros ->. reflexivity. Qed.

Lemma bind_inv {A B : Type} (m : M A) (f : A -> M B) (w w' : world) (b : B) :
  bind m f w = (Ok b, w') ->
  exists a w1, m w = (Ok a, w1) /\ f a w1 = (Ok b, w').
Proof.
  unfold bind. destruct (m w) as [[a|e] w1]; intros H; [|discriminate].
  exists a, w1. split; [reflexivity | exact H].
Qed.

Lemma lift_inv {A : Type} (r : result A) (w w' : world) (a : A) :
  lift r w = (Ok a, w') -> r = Ok a /\ w' = w.
Proof. unfold lift. intros H. injection H as -> ->. split; reflexivity. Qed.

(* ===================================================================== *)
(** * [get_json]: retries and backoff *)
(* ===================================================================== *)

Section GetJson.

Variable net : network.

Lemma http_string (u : string) (params : pyobj) (w : world) :
  http net (PStr u) params w =
  (net (List.length (calls w)) (mkRequest u params),
   mkWorld (calls w ++ [mkRequest u params]) (slept w) (stdout w)).
Proof. reflexivity. Qed.

(** A call whose three attempts fail: what it returns and what it leaves
    behind. *)
Lemma get_json_all_fail (url params : pyobj) (w : world) :
  all_attempts_fail net url params w ->
  BatchDownload.get_json net url params 3 w =
  (Ok PNone,
   mkWorld (calls w ++ failed_calls url params 3)
           (slept w ++ [1; 2]%Z)
           (stdout w ++ [FAILED_after 3])).
Proof.
  intros H. unfold BatchDownload.get_json.
  destruct url as [| b | n | u | l | d];
    try (cbn; rewrite ?app_nil_r, <- ?app_assoc; reflexivity).
  unfold all_attempts_fail in H.
  pose proof (H 0 ltac:(lia)) as H0.
  pose proof (H 1 ltac:(lia)) as H1.
  pose proof (H 2 ltac:(lia)) as H2.
  rewrite Nat.add_0_r in H0.
  cbn -[Z.pow]. rewrite H0. cbn -[Z.pow].
  rewrite length_app. cbn -[Z.pow]. rewrite H1. cbn -[Z.pow].
  rewrite !length_app. cbn -[Z.pow].
  replace (List.length (calls w) + 1 + 1) with (List.length (calls w) + 2) by lia.
  rewrite H2. cbn. rewrite <- !app_assoc. reflexivity.
Qed.

(** A call whose first attempt answers. *)
Lemma get_json_first_try (u : string) (params v : pyobj) (w : world) :
  net (List.length (calls w)) (mkRequest u params) = Some v ->
  BatchDownload.get_json net (PStr u) params 3 w =
  (Ok v, mkWorld (calls w ++ [mkRequest u params]) (slept w) (stdout w)).
Proof.
  intros H. unfold BatchDownload.get_json. cbn. rewrite H. reflexivity.
Qed.

(** [get_json] never raises, whatever the network does. *)
Lemma get_json_from_total (retries remaining attempt : nat) (url params : pyobj) :
  forall w, exists v, fst (BatchDownload.get_json_from net retries remaining attempt
                             url params w) = Ok v.
Proof.
  revert attempt. induction remaining as [|remaining IH]; intros attempt w.
  - exists PNone. reflexivity.
  - cbn -[Z.pow Z.ltb Z.sub Z.of_nat].
    destruct (http net url params w) as [[v|] w'].
    + exists v. reflexivity.
    + destruct (Z.of_nat attempt <? Z.of_nat retries - 1)%Z.
      * unfold bind, sleep. apply IH.
      * exists PNone. reflexivity.
Qed.

(** Each attempt sends at most one request. *)
Lemma get_json_from_calls (retries remaining attempt : nat) (url params : pyobj) :
  forall w,
    List.length (calls (snd (BatchDownload.get_json_from net retries remaining attempt
                               url params w)))
    <= List.length (calls w) + remaining.
Proof.
  revert attempt. induction remaining as [|remaining IH]; intros attempt w.
  - cbn. lia.
  - cbn -[Z.pow Z.ltb Z.sub Z.of_nat].
    assert (Hh : List.length (calls (snd (http net url params w)))
                 <= List.length (calls w) + 1).
    { destruct url; cbn; rewrite ?length_app; cbn; lia. }
    destruct (http net url params w) as [[v|] w']; cbn [snd] in Hh |- *.
    + lia.
    + destruct (Z.of_nat attempt <? Z.of_nat retries - 1)%Z.
      * unfold bind, sleep.
        match goal with
        | |- context [BatchDownload.get_json_from _ _ _ ?a _ _ ?w0] =>
            specialize (IH a w0)
        end.
        cbn [calls] in IH. lia.
      * cbn. lia.
Qed.

End GetJson.

(** C7: a [get_json] call sends at most three requests and never raises;
    when the first two attempts fail and the third answers, it returns the
    parsed body; when all three fail, it returns [None]. *)
Theorem get_json_three_attempts (net : network) (u : string) (params : pyobj)
    (w : world) :
  let rq := mkRequest u params in
  let n := List.length (calls w) in
  let run := BatchDownload.get_json net (PStr u) params 3 w in
  (exists v, fst run = Ok v)
  /\ List.length (calls (snd run)) <= n + 3
  /\ (forall v, net n rq = None -> net (n + 1) rq = None -> net (n + 2) rq = Some v ->
                fst run = Ok v)
  /\ (net n rq = None -> net (n + 1) rq = None -> net (n + 2) rq = None ->
      fst run = Ok PNone).
Proof.
  cbv zeta. split; [|split; [|split]].
  - apply get_json_from_total.
  - apply get_json_from_calls.
  - intros v H0 H1 H2. unfold BatchDownload.get_json.
    cbn -[Z.pow]. rewrite H0. cbn -[Z.pow].
    rewrite length_app. cbn -[Z.pow]. rewrite H1. cbn -[Z.pow].
    rewrite !length_app. cbn -[Z.pow].
    replace (List.length (calls w) + 1 + 1) with (List.length (calls w) + 2) by lia.
    rewrite H2. reflexivity.
  - intros H0 H1 H2. rewrite get_json_all_fail; [reflexivity|].
    intros k Hk. destruct k as [|[|[|k]]]; try lia.
    + rewrite Nat.add_0_r. exact H0.
    + exact H1.
    + exact H2.
Qed.

Lemma get_json_three_attempts_witness :
  fst (BatchDownload.get_json (Sample.flaky (PInt 7)) (PStr "u") PNone 3 start)
    = Ok (PInt 7)
  /\ fst (BatchDownload.get_json Sample.down (PStr "u") PNone 3 start) = Ok PNone.
Proof.
  split.
  - apply (get_json_three_attempts (Sample.flaky (PInt 7)) "u" PNone start);
      reflexivity.
  - apply (get_json_three_attempts Sample.down "u" PNone start); reflexivity.
Defined.

(** C8, as the code has it: a call whose three attempts all fail slept
    1 + 2 = 3 seconds, not 7: there are two pauses between three attempts. *)
Lemma backoff_is_three_seconds :
  slept (snd (BatchDownload.get_json Sample.down (PStr "u") PNone 3 start)) = [1; 2]%Z
  /\ total_sleep (snd (BatchDownload.get_json Sample.down (PStr "u") PNone 3 start)) = 3%Z
  /\ (total_sleep (snd (BatchDownload.get_json Sample.down (PStr "u") PNone 3 start))
        =? 1 + 2 + 4)%Z = false.
Proof. repeat split. Qed.

Lemma total_sleep_app (c c' : list request) (s d : list Z) (o o' : list line) :
  total_sleep (mkWorld c' (s ++ d) o') =
  (total_sleep (mkWorld c s o) + fold_right Z.add 0 d)%Z.
Proof.
  unfold total_sleep. cbn [slept].
  induction s as [|x s IH]; cbn [app fold_right]; lia.
Qed.

(** C8, amended: when every attempt of a call fails, the call sleeps 1 and
    then 2 seconds, 3 seconds in all, before it returns [None]. *)
Theorem get_json_backoff_total (net : network) (url params : pyobj) (w : world) :
  all_attempts_fail net url params w ->
  let w' := snd (BatchDownload.get_json net url params 3 w) in
  fst (BatchDownload.get_json net url params 3 w) = Ok PNone
  /\ slept w' = slept w ++ [1; 2]%Z
  /\ total_sleep w' = (total_sleep w + 3)%Z.
Proof.
  intros H. cbv zeta. rewrite (get_json_all_fail net url params w H). cbn [fst snd slept].
  repeat split.
  destruct w as [c s o].
  rewrite (total_sleep_app c _ s _ o). reflexivity.
Qed.

Lemma get_json_backoff_total_witness :
  fst (BatchDownload.get_json Sample.down (PStr "u") PNone 3 start) = Ok PNone
  /\ slept (snd (BatchDownload.get_json Sample.down (PStr "u") PNone 3 start))
     = slept start ++ [1; 2]%Z
  /\ total_sleep (snd (BatchDownload.get_json Sample.down (PStr "u") PNone 3 start))
     = (total_sleep start + 3)%Z.
Proof.
  apply (get_json_backoff_total Sample.down (PStr "u") PNone start).
  intros k Hk. reflexivity.
Defined.

(* ===================================================================== *)
(** * [get_edition_url] of script 04 *)
(* ===================================================================== *)

(** The run of [get_edition_url] once both fetches have answered. *)
Lemma batch_get_edition_url_run (net : network) (dataset_id preferred : string)
    (w w1 w2 : world) (data fallback editions_url editions : pyobj) :
  BatchDownload.get_json net (PStr (ROOT_URL ++ "datasets/" ++ dataset_id)) PNone 3 w
    = (Ok data, w1) ->
  truthy data = true ->
  link_href data "latest_version" = Ok fallback ->
  link_href data "editions" = Ok editions_url ->
  truthy editions_url = true ->
  BatchDownload.get_json net editions_url PNone 3 w1 = (Ok editions, w2) ->
  BatchDownload.get_edition_url net dataset_id preferred w =
  if negb (truthy editions) then (Ok fallback, w2)
  else
    (items <- lift (py_get editions "items" (PList [])) ;;
     its <- lift (py_iter items) ;;
     found <- lift (first_preferred BatchDownload.item_href preferred its) ;;
     match found with
     | Some href => ret href
     | None => ret fallback
     end)%script w2.
Proof.
  intros Hdata Htrue Hfallback Hurl Hurl_true Heditions.
  unfold BatchDownload.get_edition_url.
  rewrite (bind_ok _ _ _ _ _ Hdata). rewrite Htrue. cbn [negb].
  rewrite (bind_lift_ok _ _ _ _ Hfallback).
  rewrite (bind_lift_ok _ _ _ _ Hurl).
  rewrite Hurl_true. cbn [negb].
  rewrite (bind_ok _ _ _ _ _ Heditions).
  destruct (truthy editions); reflexivity.
Qed.

(** C9: a failed dataset-detail fetch makes [get_edition_url] return
    [None]; a failed editions-listing fetch does not: the dataset-level
    [latest_version] link is returned, although the listing, had it been
    fetched, could have held the preferred edition (as it does on the
    sample API). *)
Theorem get_edition_url_listing_failure :
  (forall (net : network) (dataset_id preferred : string) (w : world),
      all_attempts_fail net (PStr (ROOT_URL ++ "datasets/" ++ dataset_id)) PNone w ->
      fst (BatchDownload.get_edition_url net dataset_id preferred w) = Ok PNone)
  /\ (forall (net : network) (dataset_id preferred : string) (w w1 : world)
             (data fallback editions_url : pyobj),
      BatchDownload.get_json net (PStr (ROOT_URL ++ "datasets/" ++ dataset_id)) PNone 3 w
        = (Ok data, w1) ->
      truthy data = true ->
      link_href data "latest_version" = Ok fallback ->
      link_href data "editions" = Ok editions_url ->
      truthy editions_url = true ->
      all_attempts_fail net editions_url PNone w1 ->
      fst (BatchDownload.get_edition_url net dataset_id preferred w) = Ok fallback)
  /\ (fst (BatchDownload.get_edition_url Sample.ons "labour-market" "PWT24" start)
        = Ok (PStr Sample.pwt24_latest)
      /\ fst (BatchDownload.get_edition_url Sample.ons_listing_down
                "labour-market" "PWT24" start)
        = Ok (PStr Sample.labour_market_latest)).
Proof.
  split; [|split].
  - intros net dataset_id preferred w H.
    unfold BatchDownload.get_edition_url.
    rewrite (bind_ok _ _ _ _ _ (get_json_all_fail net _ _ w H)).
    reflexivity.
  - intros net dataset_id preferred w w1 data fallback editions_url
      Hdata Htrue Hfallback Hurl Hurl_true Hfail.
    rewrite (batch_get_edition_url_run net dataset_id preferred w w1 _ data fallback
               editions_url PNone Hdata Htrue Hfallback Hurl Hurl_true
               (get_json_all_fail net _ _ w1 Hfail)).
    reflexivity.
  - split; vm_compute; reflexivity.
Qed.

Lemma get_edition_url_listing_failure_witness :
  fst (BatchDownload.get_edition_url Sample.down "labour-market" "PWT24" start)
    = Ok PNone
  /\ fst (BatchDownload.get_edition_url Sample.ons_listing_down
            "labour-market" "PWT24" start)
     = Ok (PStr Sample.labour_market_latest).
Proof.
  destruct get_edition_url_listing_failure as (Hdetail & Hlisting & _).
  split.
  - apply Hdetail. intros k Hk. reflexivity.
  - apply (Hlisting Sample.ons_listing_down "labour-market" "PWT24" start
             (mkWorld [mkRequest Sample.labour_market_url PNone] [] [])
             Sample.labour_market
             (PStr Sample.labour_market_latest)
             (PStr Sample.labour_market_editions_url));
      try reflexivity.
    intros k Hk. reflexivity.
Defined.

(* ===================================================================== *)
(** * [get_all_datasets]: the pagination loop *)
(* ===================================================================== *)

Lemma pages_of_lt (N P j : nat) : 0 < P -> (j < pages_of N P <-> j * P < N).
Proof.
  intros HP. unfold pages_of. split; intros H.
  - destruct (Nat.lt_ge_cases (j * P) N) as [Hlt|Hge]; [exact Hlt|].
    assert (Hup : (N + P - 1) / P < j + 1).
    { apply Nat.Div0.div_lt_upper_bound. nia. }
    lia.
  - assert (Hlow : j + 1 <= (N + P - 1) / P).
    { apply Nat.div_le_lower_bound; [lia | nia]. }
    lia.
Qed.

Lemma offset_of_inside (N P j : nat) :
  0 < P -> j < pages_of N P -> offset_of N P j = j * P /\ j * P < N.
Proof.
  intros HP Hj. apply (pages_of_lt N P j HP) in Hj. unfold offset_of. lia.
Qed.

Lemma offset_of_last (N P : nat) : 0 < P -> offset_of N P (pages_of N P) = N.
Proof.
  intros HP. unfold offset_of.
  assert (H : ~ pages_of N P * P < N).
  { intros H. apply (pages_of_lt N P _ HP) in H. lia. }
  lia.
Qed.

(** The offset moves on by the length of the page received. *)
Lemma offset_of_step (items : list pyobj) (P j : nat) :
  0 < P -> j < pages_of (List.length items) P ->
  offset_of (List.length items) P (S j) =
  offset_of (List.length items) P j
  + List.length (firstn P (skipn (offset_of (List.length items) P j) items)).
Proof.
  intros HP Hj.
  destruct (offset_of_inside _ _ _ HP Hj) as [-> Hlt].
  rewrite length_firstn, length_skipn. unfold offset_of. nia.
Qed.

Lemma page_nonempty (items : list pyobj) (P offset : nat) :
  0 < P -> offset < List.length items -> firstn P (skipn offset items) <> [].
Proof.
  intros HP Hlt Hnil. apply (f_equal (@List.length pyobj)) in Hnil.
  rewrite length_firstn, length_skipn in Hnil. cbn in Hnil. lia.
Qed.

Lemma page_empty (items : list pyobj) (P : nat) :
  firstn P (skipn (List.length items) items) = [].
Proof. rewrite skipn_all. apply firstn_nil. Qed.

Lemma firstn_skipn_length {A : Type} (n : nat) (l : list A) :
  firstn n l ++ skipn (List.length (firstn n l)) l = l.
Proof.
  revert l. induction n as [|n IH]; intros [|x l]; cbn; try reflexivity.
  f_equal. apply IH.
Qed.

Section Pagination.

Variable net : network.
Variable items : list pyobj.
Variable P : nat.
Hypothesis P_positive : 0 < P.
Hypothesis served : serves_in_pages net items P.

(** One turn of the loop against the listing. *)
Lemma turn_served (datasets : list pyobj) (offset : nat) (w : world) :
  ListDatasets.turn net datasets offset w =
  (Ok match firstn P (skipn offset items) with
      | [] => None
      | x :: page => Some (datasets ++ x :: page, offset + List.length (x :: page))
      end,
   mkWorld (calls w ++ [page_request offset]) (slept w) (stdout w)).
Proof.
  unfold ListDatasets.turn, requests_get, bind.
  rewrite http_string.
  fold (page_request offset). rewrite served.
  destruct (firstn P (skipn offset items)) as [|x page]; reflexivity.
Qed.

(** From the [j]-th request on, the loop fetches what is left and stops at
    the empty page. *)
Lemma loop_served (rest : nat) :
  forall (j fuel : nat) (datasets : list pyobj) (w : world),
    j + rest = pages_of (List.length items) P ->
    rest < fuel ->
    ListDatasets.loop net fuel datasets (offset_of (List.length items) P j) w =
    Some (Ok (datasets ++ skipn (offset_of (List.length items) P j) items),
          mkWorld (calls w ++ map (fun i => page_request (offset_of (List.length items) P i))
                                  (seq j (S rest)))
                  (slept w) (stdout w)).
Proof.
  induction rest as [|rest IH]; intros j fuel datasets w Hj Hfuel;
    (destruct fuel as [|fuel]; [lia|]); cbn [ListDatasets.loop];
    rewrite turn_served.
  - rewrite Nat.add_0_r in Hj. subst j.
    rewrite offset_of_last by exact P_positive.
    rewrite page_empty, skipn_all, app_nil_r.
    cbn [seq map]. rewrite offset_of_last by exact P_positive. reflexivity.
  - assert (Hin : j < pages_of (List.length items) P) by lia.
    pose proof (offset_of_step items P j P_positive Hin) as Hstep.
    destruct (offset_of_inside _ _ _ P_positive Hin) as [Hoff Hlt].
    assert (Hne : firstn P (skipn (offset_of (List.length items) P j) items) <> []).
    { rewrite Hoff. apply page_nonempty; assumption. }
    pose proof (firstn_skipn_length P (skipn (offset_of (List.length items) P j) items))
      as Hsplit.
    rewrite skipn_skipn, Nat.add_comm, <- Hstep in Hsplit.
    destruct (firstn P (skipn (offset_of (List.length items) P j) items))
      as [|x page]; [contradiction|].
    rewrite <- Hstep.
    rewrite (IH (S j) fuel _ _ ltac:(lia) ltac:(lia)).
    cbn [calls slept stdout].
    change (seq j (S (S rest))) with (j :: seq (S j) (S rest)).
    cbn [map]. rewrite <- !app_assoc. rewrite Hsplit. reflexivity.
Qed.

End Pagination.

(** C6: over a listing of N items served in pages of P, [get_all_datasets]
    returns the N items in page order after ceil(N/P)+1 requests.  Each
    request starts where the pages received so far end; every page but the
    last one fetched is non-empty, and that last one, at offset N, is the
    empty page that ends the loop. *)
Theorem get_all_datasets_pages (net : network) (items : list pyobj) (P fuel : nat)
    (w : world) :
  0 < P ->
  serves_in_pages net items P ->
  pages_of (List.length items) P < fuel ->
  let N := List.length items in
  let offset := offset_of N P in
  exists w',
    ListDatasets.get_all_datasets net fuel w = Some (Ok items, w')
    /\ calls w' = calls w ++ map (fun i => page_request (offset i))
                                 (seq 0 (pages_of N P + 1))
    /\ List.length (calls w') = List.length (calls w) + (pages_of N P + 1)
    /\ offset 0 = 0
    /\ (forall i, i < pages_of N P ->
          firstn P (skipn (offset i) items) <> []
          /\ offset (S i) = offset i + List.length (firstn P (skipn (offset i) items)))
    /\ offset (pages_of N P) = N
    /\ firstn P (skipn (offset (pages_of N P)) items) = [].
Proof.
  intros HP Hserved Hfuel. cbv zeta.
  pose proof (loop_served net items P HP Hserved (pages_of (List.length items) P)
                0 fuel [] (snd (print Fetching_catalogue w))
                eq_refl Hfuel) as Hloop.
  change (offset_of (List.length items) P 0) with 0 in Hloop.
  cbn [skipn app] in Hloop.
  unfold ListDatasets.get_all_datasets.
  destruct (print Fetching_catalogue w) as [r w0] eqn:Hprint.
  cbn [snd] in Hloop. rewrite Hloop.
  eexists. split; [reflexivity|].
  assert (Hw0 : calls w0 = calls w).
  { unfold print in Hprint. injection Hprint as _ <-. reflexivity. }
  cbn [print snd calls]. rewrite Hw0, Nat.add_1_r.
  split; [reflexivity|].
  split; [rewrite length_app, length_map, length_seq; reflexivity|].
  split; [reflexivity|].
  split.
  - intros i Hi. split.
    + destruct (offset_of_inside _ _ _ HP Hi) as [-> Hlt].
      apply page_nonempty; assumption.
    + apply offset_of_step; assumption.
  - split; [apply offset_of_last; exact HP|].
    rewrite offset_of_last by exact HP. apply page_empty.
Qed.

Lemma get_all_datasets_pages_witness :
  exists w',
    ListDatasets.get_all_datasets
      (Sample.catalogue [PInt 1; PInt 2; PInt 3; PInt 4; PInt 5] 2) 4 start
    = Some (Ok [PInt 1; PInt 2; PInt 3; PInt 4; PInt 5], w')
    /\ List.length (calls w') = 4.
Proof.
  assert (Hserved : serves_in_pages
                      (Sample.catalogue [PInt 1; PInt 2; PInt 3; PInt 4; PInt 5] 2)
                      [PInt 1; PInt 2; PInt 3; PInt 4; PInt 5] 2).
  { intros k offset. unfold Sample.catalogue, page_request, ListDatasets.page_params.
    cbn [req_params]. rewrite !Nat2Z.id. reflexivity. }
  destruct (get_all_datasets_pages
              (Sample.catalogue [PInt 1; PInt 2; PInt 3; PInt 4; PInt 5] 2)
              [PInt 1; PInt 2; PInt 3; PInt 4; PInt 5] 2 4 start
              (Nat.lt_0_succ 1) Hserved (le_n 4))
    as (w' & Hrun & _ & Hcalls & _).
  exists w'. split; [exact Hrun | exact Hcalls].
Defined.

(* ===================================================================== *)
(** * Resolving the edition *)
(* ===================================================================== *)

Lemma bind_print {B : Type} (l : line) (f : unit -> M B) (w : world) :
  bind (print l) f w = f tt (mkWorld (calls w) (slept w) (stdout w ++ [l])).
Proof. reflexivity. Qed.

Lemma requests_get_ok (net : network) (u : string) (params v : pyobj) (w : world) :
  net (List.length (calls w)) (mkRequest u params) = Some v ->
  requests_get net (PStr u) params w =
  (Ok v, mkWorld (calls w ++ [mkRequest u params]) (slept w) (stdout w)).
Proof. intros H. unfold requests_get. rewrite http_string, H. reflexivity. Qed.

(** [link_href] only answers on a dict. *)
Lemma link_href_dict (x : pyobj) (name : string) (v : pyobj) :
  link_href x name = Ok v -> exists d, x = PDict d.
Proof.
  destruct x; cbn; try discriminate. intros _. eexists. reflexivity.
Qed.

Lemma first_preferred_none (href : pyobj -> result pyobj) (preferred : string)
    (items : list pyobj) :
  no_edition_named preferred items -> first_preferred href preferred items = Ok None.
Proof.
  induction 1 as [|e items (name & Hname & Hneq) _ IH]; [reflexivity|].
  cbn [first_preferred]. rewrite Hname. cbn [rbind]. rewrite Hneq. exact IH.
Qed.

Lemma first_time_series_none (editions : list pyobj) :
  no_edition_named "time-series" editions ->
  ExploreDimensions.first_time_series editions = Ok None.
Proof.
  induction 1 as [|e items (name & Hname & Hneq) _ IH]; [reflexivity|].
  cbn [ExploreDimensions.first_time_series]. rewrite Hname. cbn [rbind].
  rewrite Hneq. exact IH.
Qed.

Lemma edition_names_ok (preferred : string) (editions : list pyobj) :
  no_edition_named preferred editions ->
  exists names, comprehension (fun e => py_get e "edition" PNone) editions = Ok names.
Proof.
  induction 1 as [|e items (name & Hname & _) _ (names & IH)].
  - exists []. reflexivity.
  - exists (name :: names). cbn [comprehension]. rewrite Hname. cbn [rbind].
    rewrite IH. reflexivity.
Qed.

Lemma py_last_snoc (earlier : list pyobj) (x : pyobj) :
  py_last (PList (earlier ++ [x])) = Ok x.
Proof. unfold py_last. rewrite rev_app_distr. reflexivity. Qed.

Lemma truthy_snoc (earlier : list pyobj) (x : pyobj) :
  truthy (PList (earlier ++ [x])) = true.
Proof. destruct earlier; reflexivity. Qed.

(** C1, as the code has it: on the sample API no edition is called
    "time-series" and the listing is not empty, yet [get_edition_url] of
    scripts 03 and 04 returns the dataset-level [latest_version] link, which
    is not the link of PWT24, the last edition listed. *)
Lemma get_edition_url_not_last_edition :
  no_edition_named "time-series" [Sample.edition "PWT23" Sample.pwt23_latest;
                                  Sample.edition "PWT24" Sample.pwt24_latest]
  /\ fst (BatchDownload.get_edition_url Sample.ons "labour-market" "time-series" start)
     = Ok (PStr Sample.labour_market_latest)
  /\ fst (DownloadTimeseries.get_edition_url Sample.ons "labour-market" "time-series"
            start)
     = Ok (PStr Sample.labour_market_latest)
  /\ latest_version_href (Sample.edition "PWT24" Sample.pwt24_latest)
     = Ok (PStr Sample.pwt24_latest)
  /\ py_eqb (PStr Sample.labour_market_latest) (PStr Sample.pwt24_latest) = false.
Proof.
  split.
  - repeat constructor; eexists; split; reflexivity.
  - repeat split; vm_compute; reflexivity.
Qed.

(** A listing with an item in it sits in a non-empty dict. *)
Lemma items_truthy (listing : pyobj) (earlier : list pyobj) (x : pyobj) :
  py_get listing "items" (PList []) = Ok (PList (earlier ++ [x])) ->
  truthy listing = true.
Proof.
  destruct listing as [| | | | |d]; try discriminate.
  destruct d as [|kv d]; [|reflexivity].
  cbn. intros H. injection H as H. destruct earlier; discriminate.
Qed.

(** C1, amended: when the editions listing is not empty and none of its
    editions bears the preferred name, [get_latest_version_url] (02, whose
    preferred name is "time-series") returns the [latest_version] link of
    the last edition listed, while [get_edition_url] (03 and 04) returns
    the dataset-level [latest_version] link. *)
Theorem edition_fallback_by_script :
  (forall (net : network) (dataset_id eu : string) (w : world)
          (data ed_data last_edition : pyobj) (earlier : list pyobj),
      net (List.length (calls w)) (mkRequest (dataset_url dataset_id) PNone) = Some data ->
      link_href data "editions" = Ok (PStr eu) ->
      truthy (PStr eu) = true ->
      net (List.length (calls w) + 1) (mkRequest eu PNone) = Some ed_data ->
      py_get ed_data "items" (PList []) = Ok (PList (earlier ++ [last_edition])) ->
      no_edition_named "time-series" (earlier ++ [last_edition]) ->
      fst (ExploreDimensions.get_latest_version_url net dataset_id w)
      = latest_version_href last_edition)
  /\ (forall (net : network) (dataset_id preferred eu : string) (w : world)
             (data fallback ed_data last_edition : pyobj) (earlier : list pyobj),
      net (List.length (calls w)) (mkRequest (dataset_url dataset_id) PNone) = Some data ->
      link_href data "latest_version" = Ok fallback ->
      link_href data "editions" = Ok (PStr eu) ->
      truthy (PStr eu) = true ->
      net (List.length (calls w) + 1) (mkRequest eu PNone) = Some ed_data ->
      py_get ed_data "items" (PList []) = Ok (PList (earlier ++ [last_edition])) ->
      no_edition_named preferred (earlier ++ [last_edition]) ->
      fst (DownloadTimeseries.get_edition_url net dataset_id preferred w) = Ok fallback)
  /\ (forall (net : network) (dataset_id preferred : string) (w w1 w2 : world)
             (data fallback editions_url editions last_edition : pyobj)
             (earlier : list pyobj),
      BatchDownload.get_json net (PStr (dataset_url dataset_id)) PNone 3 w = (Ok data, w1) ->
      truthy data = true ->
      link_href data "latest_version" = Ok fallback ->
      link_href data "editions" = Ok editions_url ->
      truthy editions_url = true ->
      BatchDownload.get_json net editions_url PNone 3 w1 = (Ok editions, w2) ->
      py_get editions "items" (PList []) = Ok (PList (earlier ++ [last_edition])) ->
      no_edition_named preferred (earlier ++ [last_edition]) ->
      fst (BatchDownload.get_edition_url net dataset_id preferred w) = Ok fallback).
Proof.
  split; [|split].
  - intros net dataset_id eu w data ed_data last_edition earlier
      Hdata Hurl Htrue Hed Hitems Hnone.
    unfold ExploreDimensions.get_latest_version_url.
    rewrite bind_print.
    rewrite (bind_ok _ _ _ _ _ (requests_get_ok net (dataset_url dataset_id) PNone data
                                  (mkWorld _ _ _) Hdata)).
    destruct (link_href_dict _ _ _ Hurl) as [d ->].
    rewrite (bind_lift_ok (py_get (PDict d) "title" (PStr "?")) _ _ _ eq_refl).
    rewrite bind_print.
    rewrite (bind_lift_ok _ _ _ _ Hurl). rewrite Htrue.
    assert (Hed' : net (List.length (calls w ++ [mkRequest (dataset_url dataset_id) PNone]))
                       (mkRequest eu PNone) = Some ed_data).
    { rewrite length_app. exact Hed. }
    rewrite (bind_ok _ _ _ _ _ (requests_get_ok net eu PNone ed_data
                                  (mkWorld _ _ _) Hed')).
    rewrite (bind_lift_ok _ _ _ _ Hitems).
    rewrite (bind_lift_ok (py_iter (PList (earlier ++ [last_edition]))) _ _ _ eq_refl).
    destruct (edition_names_ok _ _ Hnone) as [names Hnames].
    rewrite (bind_lift_ok _ _ _ _ Hnames).
    rewrite bind_print.
    rewrite (bind_lift_ok _ _ _ _ (first_time_series_none _ Hnone)).
    rewrite truthy_snoc. unfold lift. cbn [fst].
    rewrite py_last_snoc. reflexivity.
  - intros net dataset_id preferred eu w data fallback ed_data last_edition earlier
      Hdata Hfallback Hurl Htrue Hed Hitems Hnone.
    unfold DownloadTimeseries.get_edition_url.
    rewrite (bind_ok _ _ _ _ _ (requests_get_ok net (dataset_url dataset_id) PNone data
                                  w Hdata)).
    rewrite (bind_lift_ok _ _ _ _ Hfallback).
    rewrite (bind_lift_ok _ _ _ _ Hurl). rewrite Htrue. cbn [negb].
    assert (Hed' : net (List.length (calls w ++ [mkRequest (dataset_url dataset_id) PNone]))
                       (mkRequest eu PNone) = Some ed_data).
    { rewrite length_app. exact Hed. }
    rewrite (bind_ok _ _ _ _ _ (requests_get_ok net eu PNone ed_data
                                  (mkWorld _ _ _) Hed')).
    rewrite (bind_lift_ok _ _ _ _ Hitems).
    rewrite (bind_lift_ok (py_iter (PList (earlier ++ [last_edition]))) _ _ _ eq_refl).
    rewrite (bind_lift_ok _ _ _ _ (first_preferred_none _ _ _ Hnone)).
    reflexivity.
  - intros net dataset_id preferred w w1 w2 data fallback editions_url editions
      last_edition earlier Hdata Htrue Hfallback Hurl Hurl_true Heditions Hitems Hnone.
    rewrite (batch_get_edition_url_run net dataset_id preferred w w1 w2 data fallback
               editions_url editions Hdata Htrue Hfallback Hurl Hurl_true Heditions).
    rewrite (items_truthy _ _ _ Hitems). cbn [negb].
    rewrite (bind_lift_ok _ _ _ _ Hitems).
    rewrite (bind_lift_ok (py_iter (PList (earlier ++ [last_edition]))) _ _ _ eq_refl).
    rewrite (bind_lift_ok _ _ _ _ (first_preferred_none _ _ _ Hnone)).
    reflexivity.
Qed.

Lemma edition_fallback_by_script_witness :
  fst (ExploreDimensions.get_latest_version_url Sample.ons "labour-market" start)
    = Ok (PStr Sample.pwt24_latest)
  /\ fst (DownloadTimeseries.get_edition_url Sample.ons "labour-market" "time-series"
            start)
     = Ok (PStr Sample.labour_market_latest)
  /\ fst (BatchDownload.get_edition_url Sample.ons "labour-market" "time-series" start)
     = Ok (PStr Sample.labour_market_latest).
Proof.
  assert (Hnone : no_edition_named "time-series"
                    ([Sample.edition "PWT23" Sample.pwt23_latest]
                       ++ [Sample.edition "PWT24" Sample.pwt24_latest])).
  { repeat constructor; eexists; split; reflexivity. }
  destruct edition_fallback_by_script as (H02 & H03 & H04).
  split; [|split].
  - apply (H02 Sample.ons "labour-market" Sample.labour_market_editions_url start
             Sample.labour_market Sample.labour_market_editions
             (Sample.edition "PWT24" Sample.pwt24_latest)
             [Sample.edition "PWT23" Sample.pwt23_latest]);
      try reflexivity; exact Hnone.
  - apply (H03 Sample.ons "labour-market" "time-series"
             Sample.labour_market_editions_url start
             Sample.labour_market (PStr Sample.labour_market_latest)
             Sample.labour_market_editions
             (Sample.edition "PWT24" Sample.pwt24_latest)
             [Sample.edition "PWT23" Sample.pwt23_latest]);
      try reflexivity; exact Hnone.
  - apply (H04 Sample.ons "labour-market" "time-series" start
             (mkWorld [mkRequest Sample.labour_market_url PNone] [] [])
             (mkWorld [mkRequest Sample.labour_market_url PNone;
                       mkRequest Sample.labour_market_editions_url PNone] [] [])
             Sample.labour_market (PStr Sample.labour_market_latest)
             (PStr Sample.labour_market_editions_url)
             Sample.labour_market_editions
             (Sample.edition "PWT24" Sample.pwt24_latest)
             [Sample.edition "PWT23" Sample.pwt23_latest]);
      try reflexivity; exact Hnone.
Defined.

(* ===================================================================== *)
(** * [sort_values] *)
(* ===================================================================== *)

Section SortFacts.

Context {A K : Type}.
Variable lt : K -> K -> result bool.

Lemma insert_sorted_perm (x : K * A) (l r : list (K * A)) :
  insert_sorted lt x l = Ok r -> Permutation (x :: l) r.
Proof.
  revert r. induction l as [|y l IH]; intros r; cbn [insert_sorted].
  - intros H. injection H as <-. apply Permutation_refl.
  - destruct (lt (fst y) (fst x)) as [[|]|e]; cbn [rbind]; try discriminate.
    + destruct (insert_sorted lt x l) as [r'|e]; cbn [rbind]; [|discriminate].
      intros H. injection H as <-.
      eapply perm_trans; [apply perm_swap|]. apply perm_skip. apply IH. reflexivity.
    + intros H. injection H as <-. apply Permutation_refl.
Qed.

Lemma insertion_sort_perm (l s : list (K * A)) :
  insertion_sort lt l = Ok s -> Permutation l s.
Proof.
  revert s. induction l as [|x l IH]; intros s; cbn [insertion_sort].
  - intros H. injection H as <-. apply perm_nil.
  - destruct (insertion_sort lt l) as [s'|e]; cbn [rbind]; [|discriminate].
    intros H. apply insert_sorted_perm in H.
    eapply perm_trans; [|exact H]. apply perm_skip. apply IH. reflexivity.
Qed.

(** The rows with a key and the rows without one are all the rows. *)
Lemma with_without_key (keys : list (option K)) :
  forall rows : list A,
    List.length keys = List.length rows ->
    Permutation rows (map snd (with_key keys rows) ++ without_key keys rows).
Proof.
  induction keys as [|[k|] keys IH]; intros [|r rows] Hlen; try discriminate;
    cbn [with_key without_key map snd app].
  - apply perm_nil.
  - apply perm_skip, IH. injection Hlen as Hlen. exact Hlen.
  - apply Permutation_cons_app, IH. injection Hlen as Hlen. exact Hlen.
Qed.

(** [sort_values] keeps the rows: what it returns is a rearrangement. *)
Lemma sort_values_perm (keys : list (option K)) (rows out : list A) :
  List.length keys = List.length rows ->
  sort_values lt keys rows = Ok out -> Permutation rows out.
Proof.
  intros Hlen. unfold sort_values.
  destruct (insertion_sort lt (with_key keys rows)) as [s|e] eqn:Hs; cbn [rbind];
    [|discriminate].
  intros H. injection H as <-.
  eapply perm_trans; [apply (with_without_key keys rows Hlen)|].
  apply Permutation_app_tail, Permutation_map, insertion_sort_perm, Hs.
Qed.

(** Where the comparison is a plain asymmetric test on the keys at hand,
    the sort succeeds and its result is in order. *)
Variable ltb : K -> K -> bool.
Variable good : K -> Prop.
Hypothesis lt_good : forall a b, good a -> good b -> lt a b = Ok (ltb a b).
Hypothesis ltb_asym : forall a b, good a -> good b -> ltb a b = true -> ltb b a = false.

Lemma insert_sorted_good (x : K * A) (l : list (K * A)) :
  good (fst x) -> Forall (fun y => good (fst y)) l -> Sorted (in_order ltb) l ->
  exists r, insert_sorted lt x l = Ok r
            /\ Sorted (in_order ltb) r
            /\ Forall (fun y => good (fst y)) r
            /\ (forall z, HdRel (in_order ltb) z l -> (in_order ltb) z x -> HdRel (in_order ltb) z r).
Proof.
  intros Hx Hl Hs. induction l as [|y l IH]; cbn [insert_sorted].
  - exists [x]. repeat split; auto.
  - inversion Hl as [|? ? Hy Hl']; subst. inversion Hs as [|? ? Hs' Hhd]; subst.
    rewrite (lt_good _ _ Hy Hx). cbn [rbind].
    destruct (ltb (fst y) (fst x)) eqn:Hyx.
    + destruct (IH Hl' Hs') as (r & Hr & Hsr & Hgr & Hhdr).
      rewrite Hr. cbn [rbind]. exists (y :: r). repeat split.
      * constructor; [exact Hsr|]. apply Hhdr; [exact Hhd|].
        unfold in_order. apply ltb_asym; assumption.
      * constructor; assumption.
      * intros z Hz _. inversion Hz; subst. constructor. assumption.
    + exists (x :: y :: l). repeat split.
      * constructor; [exact Hs|]. constructor. exact Hyx.
      * constructor; assumption.
      * intros z _ Hzx. constructor. exact Hzx.
Qed.

Lemma insertion_sort_good (l : list (K * A)) :
  Forall (fun y => good (fst y)) l ->
  exists s, insertion_sort lt l = Ok s
            /\ Sorted (in_order ltb) s
            /\ Forall (fun y => good (fst y)) s.
Proof.
  induction l as [|x l IH]; intros Hl; cbn [insertion_sort].
  - exists []. repeat split; constructor.
  - inversion Hl as [|? ? Hx Hl']; subst.
    destruct (IH Hl') as (s & Hs & Hsorted & Hgood).
    rewrite Hs. cbn [rbind].
    destruct (insert_sorted_good x s Hx Hgood Hsorted) as (r & Hr & Hsr & Hgr & _).
    exists r. repeat split; assumption.
Qed.

End SortFacts.

Lemma Sorted_weaken {A : Type} (R R' : A -> A -> Prop) (l : list A) :
  (forall x y, R x y -> R' x y) -> Sorted R l -> Sorted R' l.
Proof.
  intros HR. induction 1 as [|x l _ IH Hhd]; constructor; [exact IH|].
  destruct Hhd; constructor. apply HR. assumption.
Qed.

Lemma Sorted_map_snd {A K : Type} (R : K * A -> K * A -> Prop) (R' : A -> A -> Prop)
    (l : list (K * A)) :
  (forall x y, In x l -> In y l -> R x y -> R' (snd x) (snd y)) ->
  Sorted R l -> Sorted R' (map snd l).
Proof.
  intros HR Hs. induction Hs as [|x l Hs IH Hhd]; cbn [map]; constructor.
  - apply IH. intros a b Ha Hb. apply HR; right; assumption.
  - destruct Hhd as [|y l' Hxy]; cbn [map]; constructor.
    apply HR; [left; reflexivity | right; left; reflexivity | exact Hxy].
Qed.


(** Sorting by the parsed dates always succeeds; the dated rows come out
    first and in date order, the others after them. *)
Lemma sort_by_parsed_spec {V : Type} (parsed : list (option Z)) (df : list (row V)) :
  exists out, sort_by_parsed parsed df = Ok out /\ dated_then_undated parsed df out.
Proof.
  unfold sort_by_parsed, sort_values.
  destruct (insertion_sort_good timestamp_lt Z.ltb (fun _ => True)
              (fun a b _ _ => eq_refl)
              (fun a b _ _ H => proj2 (Z.ltb_ge b a)
                                  (Z.lt_le_incl _ _ (proj1 (Z.ltb_lt a b) H)))
              (with_key parsed df))
    as (s & Hs & Hsorted & _).
  { apply Forall_forall. intros; exact I. }
  rewrite Hs. cbn [rbind]. eexists. split; [reflexivity|].
  exists s. split; [apply (insertion_sort_perm _ _ _ Hs)|]. split; [|reflexivity].
  apply (Sorted_weaken _ _ _ (fun x y H => proj1 (Z.ltb_ge _ _) H) Hsorted).
Qed.






(* ===================================================================== *)
(** * Observations *)
(* ===================================================================== *)

(** C3, as the code has it: when every attempt of the HTTP call fails and
    when the API answers with no observation at all, [get_observations]
    returns one and the same value, the empty frame. *)
Lemma get_observations_failure_is_empty_frame :
  Sample.down 0 (mkRequest (Sample.trade_version ++ "/observations") Sample.trade_filters)
    = None
  /\ Sample.observing [] 0
       (mkRequest (Sample.trade_version ++ "/observations") Sample.trade_filters)
     = Some (obj [("observations", PList [])])
  /\ forall (Num : Type) (to_numeric : pyobj -> Num)
            (to_datetime_mixed : pyobj -> result (option Z)),
       fst (BatchDownload.get_observations Sample.down to_numeric to_datetime_mixed
              (PStr Sample.trade_version) Sample.trade_filters start) = Ok []
       /\ fst (BatchDownload.get_observations (Sample.observing []) to_numeric
                 to_datetime_mixed (PStr Sample.trade_version) Sample.trade_filters
                 start) = Ok [].
Proof.
  split; [reflexivity|]. split; [reflexivity|].
  intros Num to_numeric to_datetime_mixed. split; reflexivity.
Qed.

(** C3, amended: [get_observations] returns the empty frame both when the
    HTTP call fails on all three attempts and when the API answers with no
    observation; the failure shows only in the line [get_json] prints. *)
Theorem get_observations_empty_either_way (net : network) (Num : Type)
    (to_numeric : pyobj -> Num) (to_datetime_mixed : pyobj -> result (option Z))
    (u : string) (dimensions : pyobj) (w : world) :
  (all_attempts_fail net (PStr (u ++ "/observations")) dimensions w ->
   fst (BatchDownload.get_observations net to_numeric to_datetime_mixed (PStr u)
          dimensions w) = Ok []
   /\ stdout (snd (BatchDownload.get_observations net to_numeric to_datetime_mixed
                     (PStr u) dimensions w)) = stdout w ++ [FAILED_after 3])
  /\ (forall (data : pyobj) (w1 : world),
        BatchDownload.get_json net (PStr (u ++ "/observations")) dimensions 3 w
          = (Ok data, w1) ->
        truthy data = true ->
        py_get data "observations" (PList []) = Ok (PList []) ->
        BatchDownload.get_observations net to_numeric to_datetime_mixed (PStr u)
          dimensions w = (Ok [], w1)).
Proof.
  split.
  - intros Hfail. unfold BatchDownload.get_observations.
    rewrite (bind_lift_ok (py_add_str (PStr u) "/observations") _ _ _ eq_refl).
    rewrite (bind_ok _ _ _ _ _ (get_json_all_fail net _ _ w Hfail)).
    split; reflexivity.
  - intros data w1 Hdata Htrue Hobs. unfold BatchDownload.get_observations.
    rewrite (bind_lift_ok (py_add_str (PStr u) "/observations") _ _ _ eq_refl).
    rewrite (bind_ok _ _ _ _ _ Hdata). rewrite Htrue. cbn [negb].
    rewrite (bind_lift_ok _ _ _ _ Hobs). reflexivity.
Qed.

Lemma get_observations_empty_either_way_witness :
  fst (BatchDownload.get_observations Sample.down (fun v => v)
         (fun _ => Raise ValueError) (PStr Sample.trade_version) Sample.trade_filters
         start) = Ok []
  /\ fst (BatchDownload.get_observations (Sample.observing []) (fun v => v)
            (fun _ => Raise ValueError) (PStr Sample.trade_version)
            Sample.trade_filters start) = Ok [].
Proof.
  split.
  - apply (get_observations_empty_either_way Sample.down pyobj (fun v => v)
             (fun _ => Raise ValueError) Sample.trade_version Sample.trade_filters
             start).
    intros k Hk. reflexivity.
  - rewrite (proj2 (get_observations_empty_either_way (Sample.observing []) pyobj
                      (fun v => v) (fun _ => Raise ValueError) Sample.trade_version
                      Sample.trade_filters start)
               (obj [("observations", PList [])])
               (mkWorld [mkRequest (Sample.trade_version ++ "/observations")
                           Sample.trade_filters] [] [])
               eq_refl eq_refl eq_refl).
    reflexivity.
Defined.

(** C4, as the code has it: an observation whose temporal sub-object sits
    under "TIME" is not found, and is dropped, by scripts 03 and 04 alike;
    its neighbours under "Time" and "time" are kept. *)
Lemma upper_case_time_key_is_dropped :
  time_dim_of (Sample.observation "TIME" "2024-01" "Jan-24" "11") = Ok PNone
  /\ forall (Num : Type) (to_numeric : pyobj -> Num)
            (to_datetime_mixed : pyobj -> result (option Z)),
       fst (BatchDownload.get_observations (Sample.observing Sample.three_spellings)
              to_numeric to_datetime_mixed (PStr Sample.trade_version)
              Sample.trade_filters start)
       = Ok [mkRow (PStr "2023-12") (PStr "Dec-23") (to_numeric (PStr "10"));
             mkRow (PStr "2024-02") (PStr "Feb-24") (to_numeric (PStr "12"))]
       /\ fst (DownloadTimeseries.download_observations
                 (Sample.observing Sample.three_spellings)
                 to_numeric to_datetime_mixed (PStr Sample.trade_version)
                 Sample.trade_filters start)
          = Ok [mkRow (PStr "2023-12") (PStr "Dec-23") (to_numeric (PStr "10"));
                mkRow (PStr "2024-02") (PStr "Feb-24") (to_numeric (PStr "12"))].
Proof.
  split; [reflexivity|].
  intros Num to_numeric to_datetime_mixed. split; reflexivity.
Qed.





Lemma column_length {A B : Type} (f : A -> result B) (cells : list A) (out : list B) :
  column f cells = Ok out -> List.length out = List.length cells.
Proof.
  revert out. induction cells as [|c cells IH]; intros out; cbn [column].
  - intros H. injection H as <-. reflexivity.
  - destruct (f c) as [x|e]; cbn [rbind]; [|discriminate].
    destruct (column f cells) as [xs|e]; cbn [rbind]; [|discriminate].
    intros H. injection H as <-. cbn [List.length]. f_equal. apply IH. reflexivity.
Qed.

Lemma sort_by_period_perm {V : Type} (df out : list (row V)) :
  sort_by_period df = Ok out -> Permutation df out.
Proof. apply sort_values_perm. apply length_map. Qed.

(** Whatever key column it picks, the sort of script 04 only rearranges
    the rows. *)
Lemma batch_sort_perm {Num : Type} (mixed : pyobj -> result (option Z))
    (df out : list (row Num)) :
  BatchDownload.sort_chronologically mixed df = Ok out -> Permutation df out.
Proof.
  unfold BatchDownload.sort_chronologically.
  destruct (notna_any _); [|apply sort_by_period_perm].
  apply sort_values_perm. rewrite !length_map. reflexivity.
Qed.

(** So does the sort of script 03. *)
Lemma timeseries_sort_perm {Num : Type} (mixed : pyobj -> result (option Z))
    (df out : list (row Num)) :
  DownloadTimeseries.sort_chronologically mixed df = Ok out -> Permutation df out.
Proof.
  unfold DownloadTimeseries.sort_chronologically.
  destruct (column to_datetime_b_y (map period_label df)) as [parsed|e] eqn:Hprimary.
  - apply sort_values_perm. rewrite (column_length _ _ _ Hprimary). apply length_map.
  - destruct (notna_any _).
    + destruct (sort_by_parsed _ df) as [out'|e'] eqn:Hs.
      * intros H. injection H as <-. revert Hs.
        apply sort_values_perm. rewrite !length_map. reflexivity.
      * apply sort_by_period_perm.
    + destruct (sort_by_period df) as [out'|e'] eqn:Hs.
      * intros H. injection H as <-. apply sort_by_period_perm. exact Hs.
      * discriminate.
Qed.

Lemma numeric_values_nil {Num : Type} (to_numeric : pyobj -> Num) (rows : list (row pyobj)) :
  numeric_values to_numeric rows = [] -> rows = [].
Proof. destruct rows; [reflexivity | discriminate]. Qed.


(* ===================================================================== *)
(** * [explore_dimensions] *)
(* ===================================================================== *)

(** C5, as the code has it: the value [explore_dimensions] returns maps the
    dimension name to its options and to nothing else.  Two APIs that
    differ in the dimension's label and in the declared total (312 against
    2, with two options retrieved) give the same value; label and total
    only reach the console. *)
Lemma explore_dimensions_returns_options_only :
  fst (ExploreDimensions.explore_dimensions (Sample.dimensions_api "Geography" 312)
         (PStr Sample.trade_version) start)
    = Ok (PDict [(PStr "geography",
                  PDict [(PStr "K02000001", PStr "United Kingdom");
                         (PStr "K03000001", PStr "Great Britain")])])
  /\ fst (ExploreDimensions.explore_dimensions (Sample.dimensions_api "Area" 2)
            (PStr Sample.trade_version) start)
     = fst (ExploreDimensions.explore_dimensions (Sample.dimensions_api "Geography" 312)
              (PStr Sample.trade_version) start)
  /\ stdout (snd (ExploreDimensions.explore_dimensions
                    (Sample.dimensions_api "Geography" 312)
                    (PStr Sample.trade_version) start))
     = [Version_URL (PStr Sample.trade_version);
        Dimension (PStr "geography") (PStr "Geography");
        Valid_options (PInt 312);
        Option_line (PStr "K02000001") (PStr "United Kingdom");
        Option_line (PStr "K03000001") (PStr "Great Britain");
        Blank].
Proof. repeat split; vm_compute; reflexivity. Qed.

Lemma requests_get_stdout (net : network) (url params v : pyobj) (w w' : world) :
  requests_get net url params w = (Ok v, w') -> stdout w' = stdout w.
Proof.
  unfold requests_get, http.
  destruct url; try discriminate.
  destruct (net _ _); [|discriminate].
  intros H. injection H as _ <-. reflexivity.
Qed.

Lemma print_inv (l : line) (w w' : world) (r : unit) :
  print l w = (Ok r, w') -> stdout w' = stdout w ++ [l].
Proof. unfold print. intros H. injection H as _ <-. reflexivity. Qed.

Lemma print_options_inv (options : list (pyobj * pyobj)) (total : pyobj) :
  forall (i : nat) (w w' : world) (r : unit),
    ExploreDimensions.print_options i options total w = (Ok r, w') ->
    stdout w' = stdout w ++ option_lines i options total.
Proof.
  induction options as [|[opt_id opt_label] rest IH]; intros i w w' r;
    cbn [ExploreDimensions.print_options option_lines].
  - unfold ret. intros H. injection H as _ <-. rewrite app_nil_r. reflexivity.
  - destruct (10 <=? i)%nat.
    + intros H. apply bind_inv in H as (more & w1 & Hmore & Hprint).
      apply lift_inv in Hmore as [-> ->]. apply print_inv in Hprint. exact Hprint.
    + rewrite bind_print. intros H. apply IH in H. cbn [stdout] in H.
      rewrite H, <- app_assoc. reflexivity.
Qed.

Lemma py_setitem_inv (d d' : list (pyobj * pyobj)) (k v : pyobj) :
  py_setitem d k v = Ok d' -> d' = dict_store d k v.
Proof.
  unfold py_setitem. destruct (hashable k); [|discriminate].
  intros H. injection H as <-. reflexivity.
Qed.

Section Catalog.

Variable net : network.
Variable version_url : pyobj.

(** One turn of the loop over the dimensions. *)
Lemma explore_dimension_inv (all_dimensions all_dimensions' : list (pyobj * pyobj))
    (dim : pyobj) (w w' : world) :
  ExploreDimensions.explore_dimension net version_url all_dimensions dim w
    = (Ok all_dimensions', w') ->
  exists info,
    describes dim info
    /\ all_dimensions' = catalog [info] all_dimensions
    /\ stdout w' = stdout w ++ info_lines info.
Proof.
  unfold ExploreDimensions.explore_dimension. intros H.
  apply bind_inv in H as (name & w1 & Hname & H). apply lift_inv in Hname as [Hname ->].
  apply bind_inv in H as (label & w1 & Hlabel & H).
  apply lift_inv in Hlabel as [Hlabel ->].
  apply bind_inv in H as (dim_id & w1 & Hid & H). apply lift_inv in Hid as [_ ->].
  apply bind_inv in H as (opts_data & w1 & Hget & H).
  apply requests_get_stdout in Hget.
  apply bind_inv in H as (items & w2 & Hitems & H).
  apply lift_inv in Hitems as [Hitems ->].
  apply bind_inv in H as (its & w2 & Hits & H). apply lift_inv in Hits as [Hits ->].
  apply bind_inv in H as (options & w2 & Hoptions & H).
  apply lift_inv in Hoptions as [Hoptions ->].
  apply bind_inv in H as (total & w2 & Htotal & H).
  apply lift_inv in Htotal as [Htotal ->].
  apply bind_inv in H as (stored & w2 & Hstore & H).
  apply lift_inv in Hstore as [Hstore ->]. apply py_setitem_inv in Hstore.
  rewrite !bind_print in H.
  apply bind_inv in H as (r & w2 & Hprint & H).
  apply print_options_inv in Hprint. cbn [stdout] in Hprint.
  rewrite bind_print in H. unfold ret in H. injection H as <- <-.
  exists (mkInfo name label options total). split; [|split].
  - unfold describes. cbn [info_name info_label info_options info_total].
    split; [exact Hname|]. split; [exact Hlabel|].
    exists opts_data, items, its. repeat split; assumption.
  - exact Hstore.
  - cbn [stdout]. rewrite Hprint, Hget. unfold info_lines.
    cbn [info_name info_label info_options info_total].
    rewrite <- !app_assoc. reflexivity.
Qed.

(** The whole loop. *)
Lemma explore_each_inv (dimensions : list pyobj) :
  forall (all_dimensions all_dimensions' : list (pyobj * pyobj)) (w w' : world),
    ExploreDimensions.explore_each net version_url dimensions all_dimensions w
      = (Ok all_dimensions', w') ->
    exists infos,
      Forall2 describes dimensions infos
      /\ all_dimensions' = catalog infos all_dimensions
      /\ stdout w' = stdout w ++ List.concat (map info_lines infos).
Proof.
  induction dimensions as [|dim rest IH]; intros all_dimensions all_dimensions' w w';
    cbn [ExploreDimensions.explore_each].
  - unfold ret. intros H. injection H as <- <-.
    exists []. split; [constructor|]. split; [reflexivity|].
    cbn. rewrite app_nil_r. reflexivity.
  - intros H. apply bind_inv in H as (stored & w1 & Hdim & H).
    apply explore_dimension_inv in Hdim as (info & Hinfo & -> & Hout).
    apply IH in H as (infos & Hinfos & -> & Hout').
    exists (info :: infos). split; [constructor; assumption|]. split; [reflexivity|].
    cbn [map List.concat]. rewrite Hout', Hout, <- app_assoc. reflexivity.
Qed.

End Catalog.


(* ===================================================================== *)
(** * [get_json] for any number of retries *)
(* ===================================================================== *)

Lemma backoff_S (k : nat) : backoff (S k) = backoff k ++ [(2 ^ Z.of_nat k)%Z].
Proof. unfold backoff. rewrite seq_S, map_app. reflexivity. Qed.

Lemma backoff_from (attempt k : nat) :
  map (fun i => (2 ^ Z.of_nat i)%Z) (seq attempt (S k))
  = (2 ^ Z.of_nat attempt)%Z :: map (fun i => (2 ^ Z.of_nat i)%Z) (seq (S attempt) k).
Proof. reflexivity. Qed.

Lemma backoff_sum (k : nat) : fold_right Z.add 0%Z (backoff k) = (2 ^ Z.of_nat k - 1)%Z.
Proof.
  induction k as [|k IH]; [reflexivity|].
  rewrite backoff_S, fold_right_app. cbn [fold_right].
  assert (Hshift : forall (l : list Z) (a : Z),
             fold_right Z.add a l = (fold_right Z.add 0 l + a)%Z).
  { induction l as [|x l IHl]; intros a; cbn [fold_right]; [lia|]. rewrite IHl. lia. }
  rewrite Hshift, IH, Nat2Z.inj_succ, Z.pow_succ_r by lia. lia.
Qed.

Section Retries.

Variable net : network.
Variable u : string.
Variable params : pyobj.

Lemma get_json_from_S (retries remaining attempt : nat) (url : pyobj) (w : world) :
  BatchDownload.get_json_from net retries (S remaining) attempt url params w =
  match http net url params w with
  | (Some v, w') => (Ok v, w')
  | (None, w') =>
      if (Z.of_nat attempt <? Z.of_nat retries - 1)%Z then
        bind (sleep (2 ^ Z.of_nat attempt))
             (fun _ => BatchDownload.get_json_from net retries remaining (S attempt)
                         url params) w'
      else bind (print (FAILED_after retries)) (fun _ => ret PNone) w'
  end.
Proof. reflexivity. Qed.

(** The loop from [attempt] on, when the first [k] of the attempts left
    fail and the next one answers. *)
Lemma get_json_from_success (retries k : nat) (v : pyobj) :
  forall (attempt : nat) (w : world) (remaining : nat),
    k < remaining ->
    attempt + remaining = retries ->
    fails_first net u params (List.length (calls w)) k ->
    net (List.length (calls w) + k) (mkRequest u params) = Some v ->
    BatchDownload.get_json_from net retries remaining attempt (PStr u) params w =
    (Ok v,
     mkWorld (calls w ++ repeat (mkRequest u params) (S k))
             (slept w ++ map (fun i => (2 ^ Z.of_nat i)%Z) (seq attempt k))
             (stdout w)).
Proof.
  induction k as [|k IH]; intros attempt w remaining Hk Hsum Hfail Hok;
    (destruct remaining as [|remaining]; [lia|]);
    rewrite get_json_from_S, http_string.
  - rewrite Nat.add_0_r in Hok. rewrite Hok. cbn [seq map repeat].
    rewrite app_nil_r. reflexivity.
  - pose proof (Hfail 0 ltac:(lia)) as H0. rewrite Nat.add_0_r in H0. rewrite H0.
    assert (Hlt : (Z.of_nat attempt <? Z.of_nat retries - 1)%Z = true).
    { apply Z.ltb_lt. lia. }
    rewrite Hlt. unfold bind at 1, sleep at 1.
    rewrite (IH (S attempt) _ remaining ltac:(lia) ltac:(lia)).
    + cbn [calls slept stdout]. rewrite backoff_from.
      rewrite <- !app_assoc. reflexivity.
    + intros i Hi. cbn [calls]. rewrite length_app. cbn [List.length].
      replace (List.length (calls w) + 1 + i) with (List.length (calls w) + S i) by lia.
      apply Hfail. lia.
    + cbn [calls]. rewrite length_app. cbn [List.length].
      replace (List.length (calls w) + 1 + k) with (List.length (calls w) + S k) by lia.
      exact Hok.
Qed.

(** The loop from [attempt] on, when every attempt left fails. *)
Lemma get_json_from_exhausted (retries : nat) :
  forall (remaining attempt : nat) (w : world),
    attempt + S remaining = retries ->
    fails_first net u params (List.length (calls w)) (S remaining) ->
    BatchDownload.get_json_from net retries (S remaining) attempt (PStr u) params w =
    (Ok PNone,
     mkWorld (calls w ++ repeat (mkRequest u params) (S remaining))
             (slept w ++ map (fun i => (2 ^ Z.of_nat i)%Z) (seq attempt remaining))
             (stdout w ++ [FAILED_after retries])).
Proof.
  induction remaining as [|remaining IH]; intros attempt w Hsum Hfail;
    rewrite get_json_from_S, http_string;
    pose proof (Hfail 0 ltac:(lia)) as H0; rewrite Nat.add_0_r in H0; rewrite H0.
  - assert (Hge : (Z.of_nat attempt <? Z.of_nat retries - 1)%Z = false).
    { apply Z.ltb_ge. lia. }
    rewrite Hge. cbn [seq map repeat]. rewrite app_nil_r. reflexivity.
  - assert (Hlt : (Z.of_nat attempt <? Z.of_nat retries - 1)%Z = true).
    { apply Z.ltb_lt. lia. }
    rewrite Hlt. unfold bind at 1, sleep at 1.
    rewrite (IH (S attempt) _ ltac:(lia)).
    + cbn [calls slept stdout]. rewrite backoff_from.
      rewrite <- !app_assoc. reflexivity.
    + intros i Hi. cbn [calls]. rewrite length_app. cbn [List.length].
      replace (List.length (calls w) + 1 + i) with (List.length (calls w) + S i) by lia.
      apply Hfail. lia.
Qed.

End Retries.

(** X1: whatever the number of retries ([retries] >= 1), a [get_json] call
    whose every attempt fails sends [retries] requests, pauses 1, 2, 4, ...
    seconds between them ([retries] - 1 pauses, 2^([retries]-1) - 1
    seconds in all, none after the last attempt), prints its FAILED line
    once and returns [None]. *)
Theorem get_json_exhausts_retries (net : network) (u : string) (params : pyobj)
    (retries : nat) (w : world) :
  0 < retries ->
  fails_first net u params (List.length (calls w)) retries ->
  BatchDownload.get_json net (PStr u) params retries w =
  (Ok PNone,
   mkWorld (calls w ++ repeat (mkRequest u params) retries)
           (slept w ++ backoff (retries - 1))
           (stdout w ++ [FAILED_after retries]))
  /\ fold_right Z.add 0%Z (backoff (retries - 1)) = (2 ^ Z.of_nat (retries - 1) - 1)%Z.
Proof.
  intros Hpos Hfail. split; [|apply backoff_sum].
  destruct retries as [|r]; [lia|].
  unfold BatchDownload.get_json.
  rewrite (get_json_from_exhausted net u params (S r) r 0 w eq_refl Hfail).
  rewrite Nat.sub_succ, Nat.sub_0_r. reflexivity.
Qed.

Lemma get_json_exhausts_retries_witness :
  BatchDownload.get_json Sample.down (PStr "u") PNone 5 start =
  (Ok PNone,
   mkWorld (calls start ++ repeat (mkRequest "u" PNone) 5)
           (slept start ++ backoff (5 - 1))
           (stdout start ++ [FAILED_after 5]))
  /\ fold_right Z.add 0%Z (backoff (5 - 1)) = (2 ^ Z.of_nat (5 - 1) - 1)%Z.
Proof.
  apply (get_json_exhausts_retries Sample.down "u" PNone 5 start).
  - apply Nat.lt_0_succ.
  - intros i Hi. reflexivity.
Defined.

(** X2: when the first [k] attempts of a [get_json] call fail and the next
    one, still within [retries], answers, the call returns the parsed body
    after [k] + 1 requests and [k] pauses of 1, 2, 4, ... seconds
    (2^[k] - 1 seconds in all), and prints nothing. *)
Theorem get_json_succeeds_after (net : network) (u : string) (params v : pyobj)
    (retries k : nat) (w : world) :
  k < retries ->
  fails_first net u params (List.length (calls w)) k ->
  net (List.length (calls w) + k) (mkRequest u params) = Some v ->
  BatchDownload.get_json net (PStr u) params retries w =
  (Ok v,
   mkWorld (calls w ++ repeat (mkRequest u params) (S k))
           (slept w ++ backoff k)
           (stdout w))
  /\ fold_right Z.add 0%Z (backoff k) = (2 ^ Z.of_nat k - 1)%Z.
Proof.
  intros Hk Hfail Hok. split; [|apply backoff_sum].
  unfold BatchDownload.get_json.
  apply (get_json_from_success net u params retries k v 0 w retries Hk eq_refl Hfail Hok).
Qed.

Lemma get_json_succeeds_after_witness :
  BatchDownload.get_json (Sample.flaky (PInt 7)) (PStr "u") PNone 3 start =
  (Ok (PInt 7),
   mkWorld (calls start ++ repeat (mkRequest "u" PNone) 3)
           (slept start ++ backoff 2)
           (stdout start))
  /\ fold_right Z.add 0%Z (backoff 2) = (2 ^ Z.of_nat 2 - 1)%Z.
Proof.
  apply (get_json_succeeds_after (Sample.flaky (PInt 7)) "u" PNone (PInt 7) 3 2 start).
  - apply Nat.lt_succ_diag_r.
  - intros i Hi. destruct i as [|[|i]]; [reflexivity | reflexivity | lia].
  - reflexivity.
Defined.

(* ===================================================================== *)
(** * More on resolving the edition *)
(* ===================================================================== *)

Lemma first_preferred_match (href : pyobj -> result pyobj) (preferred : string)
    (before after : list pyobj) (item : pyobj) :
  no_edition_named preferred before ->
  py_get item "edition" PNone = Ok (PStr preferred) ->
  first_preferred href preferred (before ++ item :: after)
  = (let? v := href item in Ok (Some v)).
Proof.
  intros Hbefore Hitem.
  induction Hbefore as [|e before (name & Hname & Hneq) _ IH]; cbn [app first_preferred].
  - rewrite Hitem. cbn [rbind py_eqb]. rewrite String.eqb_refl. reflexivity.
  - rewrite Hname. cbn [rbind]. rewrite Hneq. exact IH.
Qed.

Lemma first_time_series_match (before after : list pyobj) (item : pyobj) :
  no_edition_named "time-series" before ->
  py_get item "edition" PNone = Ok (PStr "time-series") ->
  ExploreDimensions.first_time_series (before ++ item :: after)
  = (let? v := latest_version_href item in Ok (Some v)).
Proof.
  intros Hbefore Hitem.
  induction Hbefore as [|e before (name & Hname & Hneq) _ IH];
    cbn [app ExploreDimensions.first_time_series].
  - rewrite Hitem. reflexivity.
  - rewrite Hname. cbn [rbind]. rewrite Hneq. exact IH.
Qed.

Lemma listing_truthy (listing : pyobj) (x : pyobj) (l : list pyobj) :
  py_get listing "items" (PList []) = Ok (PList (x :: l)) -> truthy listing = true.
Proof.
  destruct listing as [| | | | |d]; try discriminate.
  destruct d as [|kv d]; [discriminate|reflexivity].
Qed.

Lemma app_cons_not_nil {A : Type} (before after : list A) (x : A) :
  exists y l, before ++ x :: after = y :: l.
Proof. destruct before as [|b before]; cbn; eauto. Qed.

(** X3: in script 04, the first listed edition that bears the preferred
    name decides the result of [get_edition_url], wherever it stands in
    the listing and whatever follows it: the result is that edition's
    [latest_version] link, or [None] when the edition has none, in which
    case the dataset-level fallback is not used. *)
Theorem batch_get_edition_url_first_match (net : network)
    (dataset_id preferred : string) (w w1 w2 : world)
    (data fallback editions_url editions item : pyobj) (before after : list pyobj) :
  BatchDownload.get_json net (PStr (dataset_url dataset_id)) PNone 3 w = (Ok data, w1) ->
  truthy data = true ->
  link_href data "latest_version" = Ok fallback ->
  link_href data "editions" = Ok editions_url ->
  truthy editions_url = true ->
  BatchDownload.get_json net editions_url PNone 3 w1 = (Ok editions, w2) ->
  py_get editions "items" (PList []) = Ok (PList (before ++ item :: after)) ->
  no_edition_named preferred before ->
  py_get item "edition" PNone = Ok (PStr preferred) ->
  BatchDownload.get_edition_url net dataset_id preferred w
  = (link_href item "latest_version", w2)
  /\ (py_get item "links" (PDict []) = Ok (PDict []) ->
      BatchDownload.get_edition_url net dataset_id preferred w = (Ok PNone, w2)).
Proof.
  intros Hdata Htrue Hfallback Hurl Hurl_true Heditions Hitems Hbefore Hitem.
  assert (Hrun : BatchDownload.get_edition_url net dataset_id preferred w
                 = (link_href item "latest_version", w2)).
  { rewrite (batch_get_edition_url_run net dataset_id preferred w w1 w2 data fallback
               editions_url editions Hdata Htrue Hfallback Hurl Hurl_true Heditions).
    destruct (app_cons_not_nil before after item) as (y & l & Hcons).
    rewrite Hcons in Hitems. rewrite (listing_truthy _ _ _ Hitems). cbn [negb].
    rewrite <- Hcons in Hitems.
    rewrite (bind_lift_ok _ _ _ _ Hitems).
    rewrite (bind_lift_ok (py_iter (PList (before ++ item :: after))) _ _ _ eq_refl).
    unfold bind at 1, lift at 1.
    rewrite (first_preferred_match _ _ _ _ _ Hbefore Hitem).
    unfold BatchDownload.item_href.
    destruct (link_href item "latest_version"); reflexivity. }
  split; [exact Hrun|].
  intros Hlinks. rewrite Hrun. unfold link_href. rewrite Hlinks. reflexivity.
Qed.

Lemma batch_get_edition_url_first_match_witness :
  BatchDownload.get_edition_url Sample.ons "labour-market" "PWT24" start
  = (link_href (Sample.edition "PWT24" Sample.pwt24_latest) "latest_version",
     mkWorld [mkRequest Sample.labour_market_url PNone;
              mkRequest Sample.labour_market_editions_url PNone] [] []).
Proof.
  apply (batch_get_edition_url_first_match Sample.ons "labour-market" "PWT24" start
           (mkWorld [mkRequest Sample.labour_market_url PNone] [] [])
           (mkWorld [mkRequest Sample.labour_market_url PNone;
                     mkRequest Sample.labour_market_editions_url PNone] [] [])
           Sample.labour_market (PStr Sample.labour_market_latest)
           (PStr Sample.labour_market_editions_url) Sample.labour_market_editions
           (Sample.edition "PWT24" Sample.pwt24_latest)
           [Sample.edition "PWT23" Sample.pwt23_latest] []);
    try reflexivity.
  repeat constructor. eexists. split; reflexivity.
Defined.

(** X4: in script 03, the first listed edition that bears the preferred
    name decides the result of [get_edition_url] too, but through
    [item["links"]["latest_version"]["href"]]: when that edition lacks the
    link the call raises (a [KeyError] for a missing "links" key) instead
    of returning the fallback. *)
Theorem timeseries_get_edition_url_first_match (net : network)
    (dataset_id preferred eu : string) (w : world)
    (data fallback ed_data item : pyobj) (before after : list pyobj) :
  net (List.length (calls w)) (mkRequest (dataset_url dataset_id) PNone) = Some data ->
  link_href data "latest_version" = Ok fallback ->
  link_href data "editions" = Ok (PStr eu) ->
  truthy (PStr eu) = true ->
  net (List.length (calls w) + 1) (mkRequest eu PNone) = Some ed_data ->
  py_get ed_data "items" (PList []) = Ok (PList (before ++ item :: after)) ->
  no_edition_named preferred before ->
  py_get item "edition" PNone = Ok (PStr preferred) ->
  fst (DownloadTimeseries.get_edition_url net dataset_id preferred w)
  = latest_version_href item
  /\ (forall d, item = PDict d -> dict_lookup d (PStr "links") = None ->
      fst (DownloadTimeseries.get_edition_url net dataset_id preferred w)
      = Raise KeyError).
Proof.
  intros Hdata Hfallback Hurl Htrue Hed Hitems Hbefore Hitem.
  assert (Hrun : fst (DownloadTimeseries.get_edition_url net dataset_id preferred w)
                 = latest_version_href item).
  { unfold DownloadTimeseries.get_edition_url.
    rewrite (bind_ok _ _ _ _ _ (requests_get_ok net (dataset_url dataset_id) PNone data
                                  w Hdata)).
    rewrite (bind_lift_ok _ _ _ _ Hfallback).
    rewrite (bind_lift_ok _ _ _ _ Hurl). rewrite Htrue. cbn [negb].
    assert (Hed' : net (List.length (calls w ++ [mkRequest (dataset_url dataset_id) PNone]))
                       (mkRequest eu PNone) = Some ed_data).
    { rewrite length_app. exact Hed. }
    rewrite (bind_ok _ _ _ _ _ (requests_get_ok net eu PNone ed_data
                                  (mkWorld _ _ _) Hed')).
    rewrite (bind_lift_ok _ _ _ _ Hitems).
    rewrite (bind_lift_ok (py_iter (PList (before ++ item :: after))) _ _ _ eq_refl).
    unfold bind at 1, lift at 1.
    rewrite (first_preferred_match _ _ _ _ _ Hbefore Hitem).
    destruct (latest_version_href item); reflexivity. }
  split; [exact Hrun|].
  intros d -> Hlinks. rewrite Hrun.
  unfold latest_version_href, py_getitem. rewrite Hlinks. reflexivity.
Qed.

Lemma timeseries_get_edition_url_first_match_witness :
  fst (DownloadTimeseries.get_edition_url Sample.ons "labour-market" "PWT24" start)
  = latest_version_href (Sample.edition "PWT24" Sample.pwt24_latest).
Proof.
  apply (timeseries_get_edition_url_first_match Sample.ons "labour-market" "PWT24"
           Sample.labour_market_editions_url start
           Sample.labour_market (PStr Sample.labour_market_latest)
           Sample.labour_market_editions
           (Sample.edition "PWT24" Sample.pwt24_latest)
           [Sample.edition "PWT23" Sample.pwt23_latest] []);
    try reflexivity.
  repeat constructor. eexists. split; reflexivity.
Defined.

(** X5: in script 02, the first listed edition named "time-series" decides
    the result of [get_latest_version_url], wherever it stands in a
    listing of well-formed editions: the result is what
    [edition["links"]["latest_version"]["href"]] gives for it, and the
    last edition listed is not consulted. *)
Theorem get_latest_version_url_prefers_time_series (net : network)
    (dataset_id eu : string) (w : world) (data ed_data item : pyobj)
    (before after names : list pyobj) :
  net (List.length (calls w)) (mkRequest (dataset_url dataset_id) PNone) = Some data ->
  link_href data "editions" = Ok (PStr eu) ->
  truthy (PStr eu) = true ->
  net (List.length (calls w) + 1) (mkRequest eu PNone) = Some ed_data ->
  py_get ed_data "items" (PList []) = Ok (PList (before ++ item :: after)) ->
  comprehension (fun e => py_get e "edition" PNone) (before ++ item :: after) = Ok names ->
  no_edition_named "time-series" before ->
  py_get item "edition" PNone = Ok (PStr "time-series") ->
  fst (ExploreDimensions.get_latest_version_url net dataset_id w)
  = latest_version_href item.
Proof.
  intros Hdata Hurl Htrue Hed Hitems Hnames Hbefore Hitem.
  unfold ExploreDimensions.get_latest_version_url.
  rewrite bind_print.
  rewrite (bind_ok _ _ _ _ _ (requests_get_ok net (dataset_url dataset_id) PNone data
                                (mkWorld _ _ _) Hdata)).
  destruct (link_href_dict _ _ _ Hurl) as [d ->].
  rewrite (bind_lift_ok (py_get (PDict d) "title" (PStr "?")) _ _ _ eq_refl).
  rewrite bind_print.
  rewrite (bind_lift_ok _ _ _ _ Hurl). rewrite Htrue.
  assert (Hed' : net (List.length (calls w ++ [mkRequest (dataset_url dataset_id) PNone]))
                     (mkRequest eu PNone) = Some ed_data).
  { rewrite length_app. exact Hed. }
  rewrite (bind_ok _ _ _ _ _ (requests_get_ok net eu PNone ed_data (mkWorld _ _ _) Hed')).
  rewrite (bind_lift_ok _ _ _ _ Hitems).
  rewrite (bind_lift_ok (py_iter (PList (before ++ item :: after))) _ _ _ eq_refl).
  rewrite (bind_lift_ok _ _ _ _ Hnames).
  rewrite bind_print.
  unfold bind at 1, lift at 1.
  rewrite (first_time_series_match _ _ _ Hbefore Hitem).
  destruct (latest_version_href item); reflexivity.
Qed.

Lemma get_latest_version_url_prefers_time_series_witness :
  fst (ExploreDimensions.get_latest_version_url
         (Sample.serving
            [(Sample.labour_market_url, Sample.labour_market);
             (Sample.labour_market_editions_url,
              obj [("items", PList [Sample.edition "PWT23" Sample.pwt23_latest;
                                    Sample.edition "time-series" Sample.pwt24_latest;
                                    Sample.edition "PWT24" Sample.pwt23_latest])])])
         "labour-market" start)
  = latest_version_href (Sample.edition "time-series" Sample.pwt24_latest).
Proof.
  apply (get_latest_version_url_prefers_time_series _ "labour-market"
           Sample.labour_market_editions_url start Sample.labour_market
           (obj [("items", PList [Sample.edition "PWT23" Sample.pwt23_latest;
                                  Sample.edition "time-series" Sample.pwt24_latest;
                                  Sample.edition "PWT24" Sample.pwt23_latest])])
           (Sample.edition "time-series" Sample.pwt24_latest)
           [Sample.edition "PWT23" Sample.pwt23_latest]
           [Sample.edition "PWT24" Sample.pwt23_latest]
           [PStr "PWT23"; PStr "time-series"; PStr "PWT24"]);
    try reflexivity.
  repeat constructor. eexists. split; reflexivity.
Defined.

(** X6: a dataset without an editions link (none, or a falsy one) is
    resolved from the dataset reply alone.  The three resolvers return the
    dataset-level [latest_version] link, [None] when the dataset has none
    either, and send no request beyond the one for the dataset. *)
Theorem no_editions_link_single_request :
  (forall (net : network) (dataset_id : string) (w : world)
          (data fallback editions_url : pyobj),
      net (List.length (calls w)) (mkRequest (dataset_url dataset_id) PNone) = Some data ->
      link_href data "latest_version" = Ok fallback ->
      link_href data "editions" = Ok editions_url ->
      truthy editions_url = false ->
      fst (ExploreDimensions.get_latest_version_url net dataset_id w) = Ok fallback
      /\ calls (snd (ExploreDimensions.get_latest_version_url net dataset_id w))
         = calls w ++ [mkRequest (dataset_url dataset_id) PNone])
  /\ (forall (net : network) (dataset_id preferred : string) (w : world)
             (data fallback editions_url : pyobj),
      net (List.length (calls w)) (mkRequest (dataset_url dataset_id) PNone) = Some data ->
      link_href data "latest_version" = Ok fallback ->
      link_href data "editions" = Ok editions_url ->
      truthy editions_url = false ->
      DownloadTimeseries.get_edition_url net dataset_id preferred w
      = (Ok fallback,
         mkWorld (calls w ++ [mkRequest (dataset_url dataset_id) PNone])
                 (slept w) (stdout w)))
  /\ (forall (net : network) (dataset_id preferred : string) (w : world)
             (data fallback editions_url : pyobj),
      net (List.length (calls w)) (mkRequest (dataset_url dataset_id) PNone) = Some data ->
      truthy data = true ->
      link_href data "latest_version" = Ok fallback ->
      link_href data "editions" = Ok editions_url ->
      truthy editions_url = false ->
      BatchDownload.get_edition_url net dataset_id preferred w
      = (Ok fallback,
         mkWorld (calls w ++ [mkRequest (dataset_url dataset_id) PNone])
                 (slept w) (stdout w)))
  /\ (forall data : list (pyobj * pyobj),
      dict_lookup data (PStr "links") = None ->
      link_href (PDict data) "latest_version" = Ok PNone
      /\ link_href (PDict data) "editions" = Ok PNone).
Proof.
  split; [|split; [|split]].
  - intros net dataset_id w data fallback editions_url Hdata Hfallback Hurl Hfalse.
    unfold ExploreDimensions.get_latest_version_url.
    rewrite bind_print.
    rewrite (bind_ok _ _ _ _ _ (requests_get_ok net (dataset_url dataset_id) PNone data
                                  (mkWorld _ _ _) Hdata)).
    destruct (link_href_dict _ _ _ Hurl) as [d ->].
    rewrite (bind_lift_ok (py_get (PDict d) "title" (PStr "?")) _ _ _ eq_refl).
    rewrite bind_print.
    rewrite (bind_lift_ok _ _ _ _ Hurl). rewrite Hfalse.
    unfold lift. rewrite Hfallback. split; reflexivity.
  - intros net dataset_id preferred w data fallback editions_url
      Hdata Hfallback Hurl Hfalse.
    unfold DownloadTimeseries.get_edition_url.
    rewrite (bind_ok _ _ _ _ _ (requests_get_ok net (dataset_url dataset_id) PNone data
                                  w Hdata)).
    rewrite (bind_lift_ok _ _ _ _ Hfallback).
    rewrite (bind_lift_ok _ _ _ _ Hurl). rewrite Hfalse. reflexivity.
  - intros net dataset_id preferred w data fallback editions_url
      Hdata Htrue Hfallback Hurl Hfalse.
    unfold BatchDownload.get_edition_url.
    rewrite (bind_ok _ _ _ _ _ (get_json_first_try net (dataset_url dataset_id) PNone
                                  data w Hdata)).
    rewrite Htrue. cbn [negb].
    rewrite (bind_lift_ok _ _ _ _ Hfallback).
    rewrite (bind_lift_ok _ _ _ _ Hurl). rewrite Hfalse. reflexivity.
  - intros data Hlinks. unfold link_href. cbn [py_get]. rewrite Hlinks.
    split; reflexivity.
Qed.

Lemma no_editions_link_single_request_witness :
  BatchDownload.get_edition_url
    (Sample.serving [(dataset_url "cpih01", obj [("title", PStr "CPIH")])])
    "cpih01" "time-series" start
  = (Ok PNone, mkWorld (calls start ++ [mkRequest (dataset_url "cpih01") PNone])
                       (slept start) (stdout start)).
Proof.
  destruct no_editions_link_single_request as (_ & _ & H04 & _).
  apply (H04 _ "cpih01" "time-series" start (obj [("title", PStr "CPIH")]) PNone PNone);
    reflexivity.
Defined.

(* ===================================================================== *)
(** * What a call can cost *)
(* ===================================================================== *)

Lemma costs_ret {A : Type} (a : A) : costs_at_most 0 0 (ret a).
Proof. intros w. cbn. lia. Qed.

Lemma costs_lift {A : Type} (r : result A) : costs_at_most 0 0 (lift r).
Proof. intros w. cbn. lia. Qed.

Lemma costs_weaken {A : Type} (n n' : nat) (s s' : Z) (m : M A) :
  n <= n' -> (s <= s')%Z -> costs_at_most n s m -> costs_at_most n' s' m.
Proof. intros Hn Hs H w. specialize (H w). lia. Qed.

Lemma costs_bind {A B : Type} (n n' : nat) (s s' : Z) (m : M A) (f : A -> M B) :
  (0 <= s')%Z ->
  costs_at_most n s m -> (forall a, costs_at_most n' s' (f a)) ->
  costs_at_most (n + n') (s + s') (bind m f).
Proof.
  intros Hs' Hm Hf w. specialize (Hm w). unfold bind.
  destruct (m w) as [[a|e] w1]; cbn [snd] in *.
  - specialize (Hf a w1). lia.
  - lia.
Qed.

Lemma total_sleep_snoc (c : list request) (s : list Z) (o : list line) (x : Z) :
  total_sleep (mkWorld c (s ++ [x]) o) = (total_sleep (mkWorld c s o) + x)%Z.
Proof. rewrite (total_sleep_app c c s [x] o o). cbn. lia. Qed.

Lemma total_sleep_same (c c' : list request) (s : list Z) (o o' : list line) :
  total_sleep (mkWorld c' s o') = total_sleep (mkWorld c s o).
Proof. reflexivity. Qed.

(** One [get_json] call with the default three attempts. *)
Lemma costs_get_json (net : network) (url params : pyobj) :
  costs_at_most 3 3 (BatchDownload.get_json net url params 3).
Proof.
  intros [c s o].
  assert (Hfailed : all_attempts_fail net url params (mkWorld c s o) ->
            List.length (calls (snd (BatchDownload.get_json net url params 3
                                       (mkWorld c s o))))
            <= List.length (calls (mkWorld c s o)) + 3
            /\ (total_sleep (mkWorld c s o)
                <= total_sleep (snd (BatchDownload.get_json net url params 3
                                       (mkWorld c s o)))
                <= total_sleep (mkWorld c s o) + 3)%Z).
  { intros Hfail. rewrite (get_json_all_fail net url params _ Hfail).
    cbn [snd calls slept stdout]. rewrite (total_sleep_app c _ s _ o).
    rewrite length_app. split; [destruct url; cbn; lia | cbn; lia]. }
  destruct url as [| b | n | u | l | d]; try (apply Hfailed; exact I).
  assert (Hsome : forall k v, k < 3 ->
            fails_first net u params (List.length c) k ->
            net (List.length c + k) (mkRequest u params) = Some v ->
            List.length (calls (snd (BatchDownload.get_json net (PStr u) params 3
                                       (mkWorld c s o))))
            <= List.length (calls (mkWorld c s o)) + 3
            /\ (total_sleep (mkWorld c s o)
                <= total_sleep (snd (BatchDownload.get_json net (PStr u) params 3
                                       (mkWorld c s o)))
                <= total_sleep (mkWorld c s o) + 3)%Z).
  { intros k v Hk Hfail Hok. unfold BatchDownload.get_json.
    rewrite (get_json_from_success net u params 3 k v 0 (mkWorld c s o) 3 Hk eq_refl
               Hfail Hok).
    cbn [snd calls slept stdout]. rewrite (total_sleep_app c _ s _ o).
    rewrite length_app, repeat_length.
    destruct k as [|[|[|k]]]; cbn; lia. }
  destruct (net (List.length c + 0) (mkRequest u params)) as [v0|] eqn:H0.
  { apply (Hsome 0 v0); [lia | intros i Hi; lia | exact H0]. }
  destruct (net (List.length c + 1) (mkRequest u params)) as [v1|] eqn:H1.
  { apply (Hsome 1 v1); [lia | | exact H1].
    intros i Hi. replace i with 0 by lia. exact H0. }
  destruct (net (List.length c + 2) (mkRequest u params)) as [v2|] eqn:H2.
  { apply (Hsome 2 v2); [lia | | exact H2].
    intros i Hi. destruct i as [|[|i]]; [exact H0 | exact H1 | lia]. }
  apply Hfailed. intros k Hk. cbn [calls].
  destruct k as [|[|[|k]]]; [exact H0 | exact H1 | exact H2 | lia].
Qed.

(** X7: whatever the network does, one [get_edition_url] of script 04
    sends at most six requests and sleeps at most six seconds in backoff,
    and one [get_observations] at most three requests and three seconds;
    neither ever takes time back. *)
Theorem batch_calls_are_bounded (net : network) :
  (forall dataset_id preferred : string,
      costs_at_most 6 6 (BatchDownload.get_edition_url net dataset_id preferred))
  /\ (forall (Num : Type) (to_numeric : pyobj -> Num)
             (to_datetime_mixed : pyobj -> result (option Z))
             (edition_url dimensions : pyobj),
        costs_at_most 3 3 (BatchDownload.get_observations net to_numeric
                             to_datetime_mixed edition_url dimensions)).
Proof.
  split.
  - intros dataset_id preferred. unfold BatchDownload.get_edition_url.
    apply (costs_bind 3 3 3 3); [lia | apply costs_get_json|].
    intros data. destruct (negb (truthy data)).
    { apply (costs_weaken 0 3 0 3); [lia | lia | apply costs_ret]. }
    apply (costs_bind 0 3 0 3); [lia | apply costs_lift|]. intros fallback.
    apply (costs_bind 0 3 0 3); [lia | apply costs_lift|]. intros editions_url.
    destruct (negb (truthy editions_url)).
    { apply (costs_weaken 0 3 0 3); [lia | lia | apply costs_ret]. }
    apply (costs_bind 3 0 3 0); [lia | apply costs_get_json|]. intros editions.
    destruct (negb (truthy editions)); [apply costs_ret|].
    apply (costs_bind 0 0 0 0); [lia | apply costs_lift|]. intros items.
    apply (costs_bind 0 0 0 0); [lia | apply costs_lift|]. intros its.
    apply (costs_bind 0 0 0 0); [lia | apply costs_lift|]. intros found.
    destruct found; apply costs_ret.
  - intros Num to_numeric mixed edition_url dimensions.
    unfold BatchDownload.get_observations.
    apply (costs_bind 0 3 0 3); [lia | apply costs_lift|]. intros u.
    apply (costs_bind 3 0 3 0); [lia | apply costs_get_json|]. intros data.
    destruct (negb (truthy data)); [apply costs_ret|].
    apply (costs_bind 0 0 0 0); [lia | apply costs_lift|]. intros observations.
    apply (costs_bind 0 0 0 0); [lia | apply costs_lift|]. intros obs.
    apply (costs_bind 0 0 0 0); [lia | apply costs_lift|]. intros rows.
    destruct rows; [apply costs_ret | apply costs_lift].
Qed.

(* ===================================================================== *)
(** * [get_all_datasets] over pages of any size *)
(* ===================================================================== *)

Lemma turn_reply (net : network) (datasets page : list pyobj) (offset : nat) (w : world) :
  net (List.length (calls w)) (page_request offset) = Some (page_reply page) ->
  ListDatasets.turn net datasets offset w =
  (Ok match page with
      | [] => None
      | x :: rest => Some (datasets ++ x :: rest, offset + List.length (x :: rest))
      end,
   mkWorld (calls w ++ [page_request offset]) (slept w) (stdout w)).
Proof.
  intros H. unfold ListDatasets.turn, requests_get, bind.
  rewrite http_string. fold (page_request offset). rewrite H.
  destruct page; reflexivity.
Qed.

Lemma turn_failure (net : network) (datasets : list pyobj) (offset : nat) (w : world) :
  net (List.length (calls w)) (page_request offset) = None ->
  ListDatasets.turn net datasets offset w =
  (Raise RequestException,
   mkWorld (calls w ++ [page_request offset]) (slept w) (stdout w)).
Proof.
  intros H. unfold ListDatasets.turn, requests_get, bind.
  rewrite http_string. fold (page_request offset). rewrite H. reflexivity.
Qed.

Lemma offset_before_app (done rest : list (list pyobj)) :
  offset_before (done ++ rest) (List.length done) = List.length (List.concat done).
Proof.
  unfold offset_before. rewrite firstn_app, Nat.sub_diag, firstn_all.
  cbn [firstn]. rewrite app_nil_r. reflexivity.
Qed.

Lemma offset_before_all (pages : list (list pyobj)) :
  offset_before pages (List.length pages) = List.length (List.concat pages).
Proof. unfold offset_before. rewrite firstn_all. reflexivity. Qed.

(** The loop runs through the pages it is served, one turn each. *)
Lemma loop_through_pages (net : network) (n0 : nat) (pages : list (list pyobj)) :
  answers_pages net n0 pages ->
  forall (rest done : list (list pyobj)) (fuel : nat) (w : world),
    pages = done ++ rest ->
    Forall (fun page => page <> []) rest ->
    List.length (calls w) = n0 + List.length done ->
    ListDatasets.loop net (List.length rest + fuel) (List.concat done)
      (List.length (List.concat done)) w =
    ListDatasets.loop net fuel (List.concat pages)
      (List.length (List.concat pages))
      (mkWorld (calls w ++ map (fun i => page_request (offset_before pages i))
                               (seq (List.length done) (List.length rest)))
               (slept w) (stdout w)).
Proof.
  intros Hnet. induction rest as [|page rest IH]; intros done fuel w Hpages Hne Hcalls.
  - rewrite app_nil_r in Hpages. subst done. cbn [List.length seq map Nat.add].
    rewrite app_nil_r. destruct w; reflexivity.
  - inversion Hne as [|? ? Hpage Hrest]; subst.
    cbn [List.length Nat.add ListDatasets.loop].
    assert (Hreply : net (List.length (calls w))
                         (page_request (List.length (List.concat done)))
                     = Some (page_reply page)).
    { rewrite Hcalls, <- (offset_before_app done (page :: rest)).
      apply Hnet. rewrite nth_error_app2, Nat.sub_diag by lia. reflexivity. }
    rewrite (turn_reply net _ page _ w Hreply).
    destruct page as [|x page]; [contradiction|].
    replace (List.concat done ++ x :: page) with (List.concat (done ++ [x :: page]))
      by (rewrite concat_app; cbn [List.concat]; rewrite app_nil_r; reflexivity).
    replace (List.length (List.concat done) + List.length (x :: page))
      with (List.length (List.concat (done ++ [x :: page])))
      by (rewrite concat_app, length_app; cbn [List.concat]; rewrite app_nil_r;
          reflexivity).
    rewrite (IH (done ++ [x :: page]) fuel _).
    + cbn [calls slept stdout]. rewrite length_app. cbn [List.length].
      rewrite Nat.add_1_r. cbn [seq map].
      rewrite <- !app_assoc. cbn [app].
      rewrite <- (offset_before_app done ((x :: page) :: rest)). reflexivity.
    + rewrite <- app_assoc. reflexivity.
    + exact Hrest.
    + cbn [calls]. rewrite !length_app. cbn [List.length]. lia.
Qed.

(** X8: whatever the sizes of the pages, as long as each page served is
    non-empty and the request after the last one gets an empty page,
    [get_all_datasets] returns the items of all pages, in page order, after
    one request per page and one more; each request starts at the number
    of items received before it. *)
Theorem get_all_datasets_concatenates (net : network) (pages : list (list pyobj))
    (fuel : nat) (w : world) :
  Forall (fun page => page <> []) pages ->
  answers_pages net (List.length (calls w)) pages ->
  net (List.length (calls w) + List.length pages)
      (page_request (offset_before pages (List.length pages)))
    = Some (page_reply []) ->
  List.length pages < fuel ->
  ListDatasets.get_all_datasets net fuel w =
  Some (Ok (List.concat pages),
        mkWorld (calls w ++ page_requests pages) (slept w)
                (stdout w ++ [Fetching_catalogue;
                              Found_datasets (List.length (List.concat pages))])).
Proof.
  intros Hne Hnet Hlast Hfuel.
  unfold ListDatasets.get_all_datasets. cbn [print].
  replace fuel with (List.length pages + (fuel - List.length pages)) by lia.
  pose proof (loop_through_pages net (List.length (calls w)) pages Hnet pages []
                (fuel - List.length pages)
                (mkWorld (calls w) (slept w) (stdout w ++ [Fetching_catalogue]))
                eq_refl Hne) as Hloop.
  cbn [List.concat List.length calls slept stdout] in Hloop.
  rewrite Hloop by lia.
  destruct (fuel - List.length pages) as [|f] eqn:Hf; [lia|].
  cbn [ListDatasets.loop].
  rewrite (turn_reply net _ [] _ _).
  - cbn [snd print calls slept stdout]. unfold page_requests.
    rewrite seq_S, map_app. cbn [map Nat.add].
    rewrite (offset_before_all pages), <- !app_assoc. reflexivity.
  - cbn [calls]. rewrite length_app, length_map, length_seq.
    rewrite (offset_before_all pages) in Hlast. exact Hlast.
Qed.

Lemma get_all_datasets_concatenates_witness :
  ListDatasets.get_all_datasets MoreSamples.uneven 4 start =
  Some (Ok (List.concat MoreSamples.uneven_pages),
        mkWorld (calls start ++ page_requests MoreSamples.uneven_pages) (slept start)
                (stdout start
                   ++ [Fetching_catalogue;
                       Found_datasets (List.length (List.concat MoreSamples.uneven_pages))])).
Proof.
  apply (get_all_datasets_concatenates MoreSamples.uneven MoreSamples.uneven_pages 4 start).
  - repeat constructor; discriminate.
  - intros i page Hi. destruct i as [|[|[|i]]]; cbn in Hi;
      [injection Hi as <-; reflexivity | injection Hi as <-; reflexivity
       | injection Hi as <-; reflexivity | destruct i; discriminate].
  - reflexivity.
  - apply Nat.lt_succ_diag_r.
Defined.

(** X9: when the request after some pages fails, [get_all_datasets] raises
    and the pages already received are not returned: the call has no
    partial result. *)
Theorem get_all_datasets_failure_loses_pages (net : network)
    (pages : list (list pyobj)) (fuel : nat) (w : world) :
  Forall (fun page => page <> []) pages ->
  answers_pages net (List.length (calls w)) pages ->
  net (List.length (calls w) + List.length pages)
      (page_request (offset_before pages (List.length pages)))
    = None ->
  List.length pages < fuel ->
  ListDatasets.get_all_datasets net fuel w =
  Some (Raise RequestException,
        mkWorld (calls w ++ page_requests pages) (slept w)
                (stdout w ++ [Fetching_catalogue])).
Proof.
  intros Hne Hnet Hlast Hfuel.
  unfold ListDatasets.get_all_datasets. cbn [print].
  replace fuel with (List.length pages + (fuel - List.length pages)) by lia.
  pose proof (loop_through_pages net (List.length (calls w)) pages Hnet pages []
                (fuel - List.length pages)
                (mkWorld (calls w) (slept w) (stdout w ++ [Fetching_catalogue]))
                eq_refl Hne) as Hloop.
  cbn [List.concat List.length calls slept stdout] in Hloop.
  rewrite Hloop by lia.
  destruct (fuel - List.length pages) as [|f] eqn:Hf; [lia|].
  cbn [ListDatasets.loop].
  rewrite turn_failure.
  - cbn [calls slept stdout]. unfold page_requests.
    rewrite seq_S, map_app. cbn [map Nat.add].
    rewrite (offset_before_all pages), <- !app_assoc. reflexivity.
  - cbn [calls]. rewrite length_app, length_map, length_seq.
    rewrite (offset_before_all pages) in Hlast. exact Hlast.
Qed.

Lemma get_all_datasets_failure_loses_pages_witness :
  ListDatasets.get_all_datasets MoreSamples.uneven_then_down 3 start =
  Some (Raise RequestException,
        mkWorld (calls start ++ page_requests [[PInt 1; PInt 2]; [PInt 3]])
                (slept start) (stdout start ++ [Fetching_catalogue])).
Proof.
  apply (get_all_datasets_failure_loses_pages MoreSamples.uneven_then_down
           [[PInt 1; PInt 2]; [PInt 3]] 3 start).
  - repeat constructor; discriminate.
  - intros i page Hi. destruct i as [|[|i]]; cbn in Hi;
      [injection Hi as <-; reflexivity | injection Hi as <-; reflexivity
       | destruct i; discriminate].
  - reflexivity.
  - apply Nat.lt_succ_diag_r.
Defined.

(** X10: against an API that answers every page request with a non-empty
    page (one that ignores the offset, say), the [while True] loop of
    [get_all_datasets] has no exit: no number of turns brings it to its
    [break]. *)
Theorem get_all_datasets_never_ends (net : network) :
  (forall k offset, exists x page,
      net k (page_request offset) = Some (page_reply (x :: page))) ->
  forall (fuel : nat) (w : world), ListDatasets.get_all_datasets net fuel w = None.
Proof.
  intros Hnet.
  assert (Hloop : forall fuel datasets offset w,
             ListDatasets.loop net fuel datasets offset w = None).
  { induction fuel as [|fuel IH]; intros datasets offset w; [reflexivity|].
    cbn [ListDatasets.loop].
    destruct (Hnet (List.length (calls w)) offset) as (x & page & Hreply).
    rewrite (turn_reply net _ _ _ w Hreply). apply IH. }
  intros fuel w. unfold ListDatasets.get_all_datasets. cbn [print].
  rewrite Hloop. reflexivity.
Qed.

Lemma get_all_datasets_never_ends_witness :
  ListDatasets.get_all_datasets MoreSamples.endless 1000 start = None.
Proof.
  apply (get_all_datasets_never_ends MoreSamples.endless).
  intros k offset. exists (PStr "cpih01"), []. reflexivity.
Defined.

(* ===================================================================== *)
(** * More on [label_to_filename] *)
(* ===================================================================== *)

Lemma filename_char_cases (c : ascii) :
  filename_char c = true ->
  lower_char c = c
  /\ Ascii.eqb c "%" = false /\ Ascii.eqb c "&" = false /\ Ascii.eqb c "/" = false
  /\ (alnum_lower c = true \/ c = "_"%char).
Proof.
  destruct c as [[] [] [] [] [] [] [] []]; vm_compute; intros H;
    try discriminate; repeat split; auto.
Qed.

Lemma underscore_not_alnum : alnum_lower "_" = false.
Proof. reflexivity. Qed.

(** What [re.sub] leaves: file-name characters, no two underscores in a
    row, and no underscore in front when the run was already open. *)
Lemma sub_non_alnum_shape (s : string) :
  forall in_run,
    no_double_underscore (sub_non_alnum in_run s) = true
    /\ (in_run = true -> first_char (sub_non_alnum in_run s) <> Some "_"%char).
Proof.
  induction s as [|c s IH]; intros in_run; cbn [sub_non_alnum].
  - split; [reflexivity | discriminate].
  - destruct (alnum_lower c) eqn:Hc.
    + destruct (IH false) as [Hnd _]. split.
      * cbn [no_double_underscore].
        destruct (sub_non_alnum false s) as [|d t] eqn:Ht; [reflexivity|].
        rewrite Hnd.
        assert (Hne : Ascii.eqb c "_" = false).
        { destruct (Ascii.eqb_spec c "_"%char) as [->|]; [|reflexivity].
          rewrite underscore_not_alnum in Hc. discriminate. }
        rewrite Hne. reflexivity.
      * intros _. cbn [first_char]. intros H. injection H as ->.
        rewrite underscore_not_alnum in Hc. discriminate.
    + destruct (IH true) as [Hnd Hfirst]. destruct in_run.
      * split; [exact Hnd | intros _; apply Hfirst; reflexivity].
      * split; [|discriminate].
        cbn [no_double_underscore].
        destruct (sub_non_alnum true s) as [|d t] eqn:Ht; [reflexivity|].
        rewrite Hnd.
        destruct (Ascii.eqb_spec d "_"%char) as [->|]; [|rewrite andb_false_r; reflexivity].
        exfalso. apply Hfirst; reflexivity.
Qed.

Lemma no_double_cons (c d : ascii) (s : string) :
  no_double_underscore (String c (String d s))
  = negb (Ascii.eqb c "_" && Ascii.eqb d "_") && no_double_underscore (String d s).
Proof. reflexivity. Qed.

Lemma no_double_tail (c : ascii) (s : string) :
  no_double_underscore (String c s) = true -> no_double_underscore s = true.
Proof.
  destruct s as [|d t]; [reflexivity|]. cbn [no_double_underscore].
  intros H. apply andb_true_iff in H as [_ H]. exact H.
Qed.

Lemma no_double_lstrip (x : ascii) (s : string) :
  no_double_underscore s = true -> no_double_underscore (lstrip x s) = true.
Proof.
  induction s as [|c s IH]; intros H; [reflexivity|].
  cbn [lstrip]. destruct (Ascii.eqb c x); [|exact H].
  apply IH, (no_double_tail c), H.
Qed.

Lemma no_double_rstrip (x : ascii) (s : string) :
  no_double_underscore s = true -> no_double_underscore (rstrip x s) = true.
Proof.
  induction s as [|c s IH]; intros H; [reflexivity|].
  rewrite rstrip_cons. pose proof (IH (no_double_tail c s H)) as IH'.
  destruct (rstrip x s) as [|d r] eqn:Hr.
  - destruct (Ascii.eqb c x); reflexivity.
  - rewrite no_double_cons, IH'.
    destruct s as [|d' s']; [discriminate|].
    assert (Hd : d = d').
    { rewrite rstrip_cons in Hr.
      destruct (rstrip x s'); [destruct (Ascii.eqb d' x)|];
        try discriminate; injection Hr as -> _; reflexivity. }
    subst d'. rewrite no_double_cons in H.
    apply andb_true_iff in H as [H _]. rewrite H. reflexivity.
Qed.

Lemma lower_fixed (s : string) : all_chars filename_char s = true -> lower s = s.
Proof.
  induction s as [|c s IH]; intros H; [reflexivity|].
  cbn [all_chars] in H. apply andb_true_iff in H as [Hc Hs].
  cbn [lower]. rewrite (IH Hs).
  destruct (filename_char_cases c Hc) as (-> & _). reflexivity.
Qed.

Lemma replace_char_absent (old : ascii) (new s : string) :
  (forall c, filename_char c = true -> Ascii.eqb c old = false) ->
  all_chars filename_char s = true -> replace_char old new s = s.
Proof.
  intros Hold. induction s as [|c s IH]; intros H; [reflexivity|].
  cbn [all_chars] in H. apply andb_true_iff in H as [Hc Hs].
  cbn [replace_char]. rewrite (Hold c Hc), (IH Hs). reflexivity.
Qed.

Lemma sub_non_alnum_fixed (s : string) :
  forall in_run,
    all_chars filename_char s = true ->
    no_double_underscore s = true ->
    (in_run = true -> first_char s <> Some "_"%char) ->
    sub_non_alnum in_run s = s.
Proof.
  induction s as [|c s IH]; intros in_run Hall Hnd Hfirst; [reflexivity|].
  cbn [all_chars] in Hall. apply andb_true_iff in Hall as [Hc Hs].
  cbn [sub_non_alnum].
  destruct (filename_char_cases c Hc) as (_ & _ & _ & _ & [Halnum | ->]).
  - rewrite Halnum. f_equal.
    apply IH; [exact Hs | apply (no_double_tail c), Hnd | discriminate].
  - rewrite underscore_not_alnum.
    destruct in_run; [exfalso; apply Hfirst; reflexivity|].
    f_equal. apply IH; [exact Hs | apply (no_double_tail "_"), Hnd|].
    intros _. destruct s as [|d t]; [discriminate|].
    cbn [no_double_underscore] in Hnd. apply andb_true_iff in Hnd as [Hnd _].
    cbn [first_char]. intros H. injection H as ->. discriminate.
Qed.

Lemma lstrip_fixed (x : ascii) (s : string) :
  first_char s <> Some x -> lstrip x s = s.
Proof.
  destruct s as [|c s]; intros H; [reflexivity|]. cbn [lstrip].
  destruct (Ascii.eqb_spec c x) as [->|]; [exfalso; apply H|]; reflexivity.
Qed.

Lemma rstrip_fixed (x : ascii) (s : string) :
  last_char s <> Some x -> rstrip x s = s.
Proof.
  induction s as [|c s IH]; intros H; [reflexivity|].
  rewrite rstrip_cons. destruct s as [|d t].
  - cbn [rstrip]. destruct (Ascii.eqb_spec c x) as [->|]; [exfalso; apply H|]; reflexivity.
  - rewrite (IH H). reflexivity.
Qed.

(** X11: the name [label_to_filename] gives never has two underscores in
    a row, and it is a fixed point: turning a label into a file name twice
    gives the same name as doing it once. *)
Theorem label_to_filename_idempotent (label : string) :
  no_double_underscore (BatchDownload.label_to_filename label) = true
  /\ BatchDownload.label_to_filename (BatchDownload.label_to_filename label)
     = BatchDownload.label_to_filename label.
Proof.
  assert (Hshape : forall l,
             all_chars filename_char (BatchDownload.label_to_filename l) = true
             /\ no_double_underscore (BatchDownload.label_to_filename l) = true
             /\ first_char (BatchDownload.label_to_filename l) <> Some "_"%char
             /\ last_char (BatchDownload.label_to_filename l) <> Some "_"%char).
  { intros l. unfold BatchDownload.label_to_filename, strip. repeat split.
    - apply all_chars_rstrip, all_chars_lstrip, all_chars_sub_non_alnum.
    - apply no_double_rstrip, no_double_lstrip, sub_non_alnum_shape.
    - apply first_char_rstrip, first_char_lstrip.
    - apply last_char_rstrip. }
  destruct (Hshape label) as (Hall & Hnd & Hfirst & Hlast).
  split; [exact Hnd|].
  set (f := BatchDownload.label_to_filename label) in *.
  unfold BatchDownload.label_to_filename at 1, strip.
  rewrite (lower_fixed f Hall).
  rewrite (replace_char_absent "%" "pct" f) by
    (exact Hall || (intros c Hc; apply (filename_char_cases c Hc))).
  rewrite (replace_char_absent "&" "and" f) by
    (exact Hall || (intros c Hc; apply (filename_char_cases c Hc))).
  rewrite (replace_char_absent "/" "_" f) by
    (exact Hall || (intros c Hc; apply (filename_char_cases c Hc))).
  rewrite (sub_non_alnum_fixed f false Hall Hnd) by discriminate.
  rewrite (lstrip_fixed "_" f Hfirst). apply (rstrip_fixed "_" f Hlast).
Qed.

(* ===================================================================== *)
(** * Series with Mon-YY labels *)
(* ===================================================================== *)

Lemma strptime_not_nat_string (s : string) (t : Z) :
  strptime_b_y s = Some t -> nat_string s = false.
Proof.
  destruct s as [|c1 [|c2 [|c3 [|c4 [|c5 [|c6 [|c7 s]]]]]]]; try discriminate.
  intros _. unfold nat_string. cbn.
  repeat match goal with
         | |- context [Ascii.eqb ?a ?b] => destruct (Ascii.eqb a b)
         end; reflexivity.
Qed.

Lemma to_datetime_of_label {V : Type} (r : row V) (t : Z) :
  label_date r = Some t -> to_datetime_b_y (period_label r) = Ok (Some t).
Proof.
  unfold label_date. destruct (period_label r) as [| | |s| |]; try discriminate.
  intros H. cbn [to_datetime_b_y]. rewrite (strptime_not_nat_string s t H), H.
  reflexivity.
Qed.

Lemma primary_column_of_labels {V : Type} (df : list (row V)) :
  all_mon_yy df ->
  column to_datetime_b_y (map period_label df) = Ok (map label_date df).
Proof.
  induction 1 as [|r df (t & Ht) _ IH]; [reflexivity|].
  cbn [map column]. rewrite (to_datetime_of_label r t Ht). cbn [rbind].
  rewrite IH. cbn [rbind]. rewrite Ht. reflexivity.
Qed.

Lemma parse_period_of_labels {V : Type} (mixed : pyobj -> result (option Z))
    (df : list (row V)) :
  all_mon_yy df ->
  map (BatchDownload.parse_period mixed) (map period_label df) = map label_date df.
Proof.
  induction 1 as [|r df (t & Ht) _ IH]; [reflexivity|].
  cbn [map]. rewrite IH. unfold BatchDownload.parse_period at 1.
  rewrite (to_datetime_of_label r t Ht), Ht. reflexivity.
Qed.

Lemma with_key_label_date {V : Type} (df : list (row V)) :
  Forall (fun p => label_date (snd p) = Some (fst p)) (with_key (map label_date df) df)
  /\ (all_mon_yy df -> without_key (map label_date df) df = []).
Proof.
  induction df as [|r df [IH1 IH2]]; [split; [constructor | reflexivity]|].
  cbn [map with_key without_key].
  destruct (label_date r) as [t|] eqn:Ht.
  - split; [constructor; [exact Ht | exact IH1]|].
    intros H. inversion H; subst. apply IH2. assumption.
  - split; [exact IH1|]. intros H. inversion H as [|? ? (t & Hr) _]; subst.
    congruence.
Qed.

(** Sorting on the dates of Mon-YY labels puts the whole frame in their
    order. *)
Lemma sort_by_label_date {V : Type} (df : list (row V)) :
  all_mon_yy df ->
  exists out, sort_by_parsed (map label_date df) df = Ok out
              /\ Permutation df out /\ chronological out.
Proof.
  intros Hall.
  destruct (sort_by_parsed_spec (map label_date df) df) as (out & Hout & dated & Hperm
                                                            & Hsorted & ->).
  exists (map snd dated ++ without_key (map label_date df) df).
  split; [exact Hout|]. split.
  - apply (sort_values_perm timestamp_lt (map label_date df) df _ (length_map _ _) Hout).
  - destruct (with_key_label_date df) as [Hkeys Hnone].
    rewrite (Hnone Hall), app_nil_r.
    apply (Sorted_map_snd (fun a b => (fst a <= fst b)%Z)); [|exact Hsorted].
    intros x y Hx Hy Hxy.
    pose proof (proj1 (Forall_forall _ _)
                  (Permutation_Forall Hperm Hkeys)) as Hdated.
    exists (fst x), (fst y). repeat split; [apply Hdated, Hx | apply Hdated, Hy | exact Hxy].
Qed.

Lemma all_mon_yy_numeric {Num : Type} (to_numeric : pyobj -> Num)
    (rows : list (row pyobj)) :
  all_mon_yy rows -> all_mon_yy (numeric_values to_numeric rows).
Proof.
  induction 1 as [|r rows Hr _ IH]; [constructor|].
  cbn [numeric_values map]. constructor; [exact Hr | exact IH].
Qed.

Lemma notna_any_dated {V : Type} (df : list (row V)) :
  all_mon_yy df -> df <> [] -> notna_any (map label_date df) = true.
Proof.
  intros H Hne. destruct H as [|r df (t & Ht) _]; [contradiction|].
  cbn [map notna_any existsb]. rewrite Ht. reflexivity.
Qed.

(** X12: when every label of the observations collected is a Mon-YY
    string ("Jan-24", years 69-99 read as 1969-1999 and 00-68 as
    2000-2068), [get_observations] (04) and [download_observations] (03)
    return all the rows, none lost or doubled, in chronological order from
    the first row to the last. *)
Theorem mon_yy_series_is_chronological :
  (forall (net : network) (Num : Type) (to_numeric : pyobj -> Num)
          (to_datetime_mixed : pyobj -> result (option Z))
          (u : string) (dimensions data observations : pyobj) (w w1 : world)
          (obs : list pyobj) (r : row pyobj) (rows : list (row pyobj)),
      BatchDownload.get_json net (PStr (u ++ "/observations")) dimensions 3 w
        = (Ok data, w1) ->
      truthy data = true ->
      py_get data "observations" (PList []) = Ok observations ->
      py_iter observations = Ok obs ->
      collect_rows obs = Ok (r :: rows) ->
      all_mon_yy (r :: rows) ->
      exists out,
        BatchDownload.get_observations net to_numeric to_datetime_mixed (PStr u)
          dimensions w = (Ok out, w1)
        /\ Permutation (numeric_values to_numeric (r :: rows)) out
        /\ chronological out)
  /\ (forall (net : network) (Num : Type) (to_numeric : pyobj -> Num)
             (to_datetime_mixed : pyobj -> result (option Z))
             (u : string) (dimensions data observations : pyobj) (w w1 : world)
             (obs : list pyobj) (r : row pyobj) (rows : list (row pyobj)),
      requests_get net (PStr (u ++ "/observations")) dimensions w = (Ok data, w1) ->
      py_get data "observations" (PList []) = Ok observations ->
      py_iter observations = Ok obs ->
      collect_rows obs = Ok (r :: rows) ->
      all_mon_yy (r :: rows) ->
      exists out,
        DownloadTimeseries.download_observations net to_numeric to_datetime_mixed
          (PStr u) dimensions w = (Ok out, w1)
        /\ Permutation (numeric_values to_numeric (r :: rows)) out
        /\ chronological out).
Proof.
  split.
  - intros net Num to_numeric mixed u dimensions data observations w w1 obs r rows
      Hdata Htrue Hobs Hiter Hrows Hall.
    apply (all_mon_yy_numeric to_numeric) in Hall.
    destruct (sort_by_label_date _ Hall) as (out & Hout & Hperm & Hchron).
    exists out. split; [|split; assumption].
    unfold BatchDownload.get_observations.
    rewrite (bind_lift_ok (py_add_str (PStr u) "/observations") _ _ _ eq_refl).
    rewrite (bind_ok _ _ _ _ _ Hdata). rewrite Htrue. cbn [negb].
    rewrite (bind_lift_ok _ _ _ _ Hobs), (bind_lift_ok _ _ _ _ Hiter),
      (bind_lift_ok _ _ _ _ Hrows).
    unfold lift, BatchDownload.sort_chronologically.
    rewrite (parse_period_of_labels mixed _ Hall).
    rewrite (notna_any_dated _ Hall) by (cbn; discriminate).
    rewrite Hout. reflexivity.
  - intros net Num to_numeric mixed u dimensions data observations w w1 obs r rows
      Hdata Hobs Hiter Hrows Hall.
    apply (all_mon_yy_numeric to_numeric) in Hall.
    destruct (sort_by_label_date _ Hall) as (out & Hout & Hperm & Hchron).
    exists out. split; [|split; assumption].
    unfold DownloadTimeseries.download_observations.
    rewrite (bind_lift_ok (py_add_str (PStr u) "/observations") _ _ _ eq_refl).
    rewrite (bind_ok _ _ _ _ _ Hdata).
    rewrite (bind_lift_ok _ _ _ _ Hobs), (bind_lift_ok _ _ _ _ Hiter),
      (bind_lift_ok _ _ _ _ Hrows).
    unfold lift, DownloadTimeseries.sort_chronologically.
    rewrite (primary_column_of_labels _ Hall).
    rewrite Hout. reflexivity.
Qed.

Lemma mon_yy_series_is_chronological_witness :
  exists out,
    BatchDownload.get_observations (Sample.observing MoreSamples.century)
      (fun v => v) (fun _ => Raise ValueError) (PStr Sample.trade_version)
      Sample.trade_filters start
    = (Ok out, mkWorld [mkRequest (Sample.trade_version ++ "/observations")
                          Sample.trade_filters] [] [])
    /\ Permutation (numeric_values (fun v => v) MoreSamples.century_rows) out
    /\ chronological out.
Proof.
  destruct mon_yy_series_is_chronological as (H04 & _).
  apply (H04 (Sample.observing MoreSamples.century) pyobj (fun v => v)
           (fun _ => Raise ValueError) Sample.trade_version Sample.trade_filters
           (obj [("observations", PList MoreSamples.century)])
           (PList MoreSamples.century) start
           (mkWorld [mkRequest (Sample.trade_version ++ "/observations")
                       Sample.trade_filters] [] [])
           MoreSamples.century
           (mkRow (PStr "2000-01") (PStr "Jan-00") (PStr "3"))
           [mkRow (PStr "1999-12") (PStr "Dec-99") (PStr "2");
            mkRow (PStr "2068-06") (PStr "Jun-68") (PStr "4");
            mkRow (PStr "1969-06") (PStr "Jun-69") (PStr "1")]);
    try reflexivity.
  repeat constructor; eexists; reflexivity.
Defined.

(** X13: an entry of the observations list that is no JSON object is not
    skipped: [rows] is never built, and [get_observations] (04) and
    [download_observations] (03) raise instead of returning the other
    observations. *)
Theorem malformed_observation_aborts :
  (forall (observations : list pyobj) (o : pyobj),
      In o observations -> (forall d, o <> PDict d) ->
      exists e, collect_rows observations = Raise e)
  /\ (forall (net : network) (Num : Type) (to_numeric : pyobj -> Num)
             (to_datetime_mixed : pyobj -> result (option Z))
             (u : string) (dimensions data observations o : pyobj) (w w1 : world)
             (obs : list pyobj),
      BatchDownload.get_json net (PStr (u ++ "/observations")) dimensions 3 w
        = (Ok data, w1) ->
      truthy data = true ->
      py_get data "observations" (PList []) = Ok observations ->
      py_iter observations = Ok obs ->
      In o obs -> (forall d, o <> PDict d) ->
      exists e,
        BatchDownload.get_observations net to_numeric to_datetime_mixed (PStr u)
          dimensions w = (Raise e, w1))
  /\ (forall (net : network) (Num : Type) (to_numeric : pyobj -> Num)
             (to_datetime_mixed : pyobj -> result (option Z))
             (u : string) (dimensions data observations o : pyobj) (w w1 : world)
             (obs : list pyobj),
      requests_get net (PStr (u ++ "/observations")) dimensions w = (Ok data, w1) ->
      py_get data "observations" (PList []) = Ok observations ->
      py_iter observations = Ok obs ->
      In o obs -> (forall d, o <> PDict d) ->
      exists e,
        DownloadTimeseries.download_observations net to_numeric to_datetime_mixed
          (PStr u) dimensions w = (Raise e, w1)).
Proof.
  assert (Hrows : forall (observations : list pyobj) (o : pyobj),
             In o observations -> (forall d, o <> PDict d) ->
             exists e, collect_rows observations = Raise e).
  { induction observations as [|obs rest IH]; intros o Hin Hbad; [contradiction|].
    cbn [collect_rows].
    destruct (time_dim_of obs) as [time_dim|e] eqn:Htime; [|exists e; reflexivity].
    cbn [rbind].
    assert (Hrest : exists e, collect_rows rest = Raise e).
    { destruct Hin as [<-|Hin]; [|apply (IH o Hin Hbad)].
      exfalso. destruct obs; try discriminate. apply (Hbad entries). reflexivity. }
    destruct Hrest as (e & Hrest).
    destruct (negb (truthy time_dim)); [exists e; exact Hrest|].
    destruct (py_get time_dim "id" (PStr "")) as [id|e1]; [|exists e1; reflexivity].
    cbn [rbind].
    destruct (py_get time_dim "label" (PStr "")) as [label|e2]; [|exists e2; reflexivity].
    cbn [rbind].
    destruct (py_get obs "observation" PNone) as [v|e3]; [|exists e3; reflexivity].
    cbn [rbind]. rewrite Hrest. exists e. reflexivity. }
  split; [exact Hrows|]. split.
  - intros net Num to_numeric mixed u dimensions data observations o w w1 obs
      Hdata Htrue Hobs Hiter Hin Hbad.
    destruct (Hrows obs o Hin Hbad) as (e & He). exists e.
    unfold BatchDownload.get_observations.
    rewrite (bind_lift_ok (py_add_str (PStr u) "/observations") _ _ _ eq_refl).
    rewrite (bind_ok _ _ _ _ _ Hdata). rewrite Htrue. cbn [negb].
    rewrite (bind_lift_ok _ _ _ _ Hobs), (bind_lift_ok _ _ _ _ Hiter).
    unfold bind, lift. rewrite He. reflexivity.
  - intros net Num to_numeric mixed u dimensions data observations o w w1 obs
      Hdata Hobs Hiter Hin Hbad.
    destruct (Hrows obs o Hin Hbad) as (e & He). exists e.
    unfold DownloadTimeseries.download_observations.
    rewrite (bind_lift_ok (py_add_str (PStr u) "/observations") _ _ _ eq_refl).
    rewrite (bind_ok _ _ _ _ _ Hdata).
    rewrite (bind_lift_ok _ _ _ _ Hobs), (bind_lift_ok _ _ _ _ Hiter).
    unfold bind, lift. rewrite He. reflexivity.
Qed.

Lemma malformed_observation_aborts_witness :
  exists e,
    collect_rows [Sample.observation "time" "2024-01" "Jan-24" "1"; PNone;
                  Sample.observation "time" "2024-02" "Feb-24" "2"] = Raise e.
Proof.
  destruct malformed_observation_aborts as (Hrows & _).
  apply (Hrows _ PNone); [right; left; reflexivity | discriminate].
Defined.

(* ===================================================================== *)
(** * [summarise] *)
(* ===================================================================== *)

Lemma string_take_length (n : nat) (s : string) : String.length (string_take n s) <= n.
Proof.
  revert s. induction n as [|n IH]; intros [|c s]; cbn; try lia.
  specialize (IH s). lia.
Qed.

Lemma strings_of_strings (words : list string) : strings_of (map PStr words) = Ok words.
Proof.
  induction words as [|s words IH]; [reflexivity|].
  cbn [map strings_of]. rewrite IH. reflexivity.
Qed.

Lemma summarise_one_ok (ds : pyobj) :
  summarisable ds -> exists r, Summary.summarise_one ds = Ok r /\ row_of ds r.
Proof.
  intros (d & text & publisher & words & -> & Htext & Hpub & Hwords).
  unfold Summary.summarise_one. cbn [py_get rbind].
  fold (entry d "id" (PStr "")). fold (entry d "title" (PStr "")).
  fold (entry d "description" (PStr "")). fold (entry d "publisher" (PDict [])).
  fold (entry d "keywords" (PList [])).
  rewrite Htext, Hpub, Hwords. cbn [py_slice_to py_get rbind].
  unfold py_join. cbn [py_iter rbind]. rewrite strings_of_strings. cbn [rbind].
  eexists. split; [reflexivity|].
  exists d, text, publisher, words. cbn [Summary.ds_id Summary.ds_title
    Summary.ds_description Summary.ds_publisher Summary.ds_keywords].
  repeat split; try assumption. apply string_take_length.
Qed.

(** X14: on datasets of the expected shape, [summarise] gives exactly one
    row per dataset, in the order of the datasets; each row carries the
    dataset's id, title and publisher name (empty strings for missing
    ones), its keywords joined by comma and space, and its description cut
    to the first 200 characters. *)
Theorem summarise_one_row_per_dataset (datasets : list pyobj) :
  Forall summarisable datasets ->
  exists rows,
    Summary.summarise datasets = Ok rows
    /\ Forall2 row_of datasets rows
    /\ List.length rows = List.length datasets.
Proof.
  induction 1 as [|ds datasets Hds _ (rows & Hrows & Hall & Hlen)].
  - exists []. repeat split. constructor.
  - destruct (summarise_one_ok ds Hds) as (r & Hr & Hrow).
    exists (r :: rows). cbn [Summary.summarise]. rewrite Hr. cbn [rbind].
    rewrite Hrows. cbn [rbind]. repeat split.
    + constructor; assumption.
    + cbn [List.length]. rewrite Hlen. reflexivity.
Qed.

Lemma summarise_one_row_per_dataset_witness :
  exists rows,
    Summary.summarise
      [obj [("id", PStr "trade"); ("title", PStr "UK trade");
            ("description", PStr "Trade in goods"); ("keywords", PList [PStr "trade"; PStr "goods"]);
            ("publisher", obj [("name", PStr "ONS")])];
       obj [("id", PStr "cpih01")]] = Ok rows
    /\ Forall2 row_of
         [obj [("id", PStr "trade"); ("title", PStr "UK trade");
               ("description", PStr "Trade in goods");
               ("keywords", PList [PStr "trade"; PStr "goods"]);
               ("publisher", obj [("name", PStr "ONS")])];
          obj [("id", PStr "cpih01")]] rows
    /\ List.length rows = 2.
Proof.
  apply (summarise_one_row_per_dataset
           [obj [("id", PStr "trade"); ("title", PStr "UK trade");
                 ("description", PStr "Trade in goods");
                 ("keywords", PList [PStr "trade"; PStr "goods"]);
                 ("publisher", obj [("name", PStr "ONS")])];
            obj [("id", PStr "cpih01")]]).
  constructor; [|constructor; [|constructor]].
  - eexists _, "Trade in goods", _, ["trade"; "goods"]. repeat split; reflexivity.
  - eexists _, "", [], []. repeat split; reflexivity.
Defined.

(** X15: the defaults of [.get] do not cover a field that is present and
    null.  One dataset whose "description", "publisher" or "keywords" is
    JSON null makes [summarise] raise, whatever the other datasets are, and
    no table is built. *)
Theorem summarise_raises_on_null_field (datasets : list pyobj) (ds : pyobj)
    (d : list (pyobj * pyobj)) :
  In ds datasets ->
  ds = PDict d ->
  dict_lookup d (PStr "description") = Some PNone
  \/ dict_lookup d (PStr "publisher") = Some PNone
  \/ dict_lookup d (PStr "keywords") = Some PNone ->
  exists e, Summary.summarise datasets = Raise e.
Proof.
  intros Hin -> Hnull.
  assert (Hone : exists e, Summary.summarise_one (PDict d) = Raise e).
  { unfold Summary.summarise_one. cbn [py_get rbind].
    destruct Hnull as [Hnull | [Hnull | Hnull]].
    - rewrite Hnull. cbn [py_slice_to rbind]. eexists. reflexivity.
    - destruct (py_slice_to _ 200) as [description|e]; cbn [rbind];
        [|eexists; reflexivity].
      rewrite Hnull. cbn [py_get rbind]. eexists. reflexivity.
    - destruct (py_slice_to _ 200) as [description|e]; cbn [rbind];
        [|eexists; reflexivity].
      destruct (py_get _ "name" (PStr "")) as [name|e]; cbn [rbind];
        [|eexists; reflexivity].
      rewrite Hnull. unfold py_join. cbn [py_iter rbind]. eexists. reflexivity. }
  induction datasets as [|x rest IH]; [contradiction|].
  cbn [Summary.summarise].
  destruct (Summary.summarise_one x) as [r|e] eqn:Hx; [|exists e; reflexivity].
  cbn [rbind].
  destruct Hin as [->|Hin].
  - destruct Hone as (e & He). congruence.
  - destruct (IH Hin) as (e & He). rewrite He. exists e. reflexivity.
Qed.

Lemma summarise_raises_on_null_field_witness :
  exists e,
    Summary.summarise [obj [("id", PStr "trade")];
                       obj [("id", PStr "cpih01"); ("description", PNone)]] = Raise e.
Proof.
  apply (summarise_raises_on_null_field _
           (obj [("id", PStr "cpih01"); ("description", PNone)])
           [(PStr "id", PStr "cpih01"); (PStr "description", PNone)]).
  - right; left; reflexivity.
  - reflexivity.
  - left. reflexivity.
Defined.

(* ===================================================================== *)
(** * [main] of script 04 *)
(* ===================================================================== *)

Section BatchRun.

Context {Num : Type}.
Variable net : network.
Variable to_numeric : pyobj -> Num.
Variable to_datetime_mixed : pyobj -> result (option Z).
Variable writable : string -> bool.

#[local] Abbreviation state := (BatchMain.state (Num := Num)).
#[local] Abbreviation turn := (BatchMain.turn net to_numeric to_datetime_mixed writable).
#[local] Abbreviation turns := (BatchMain.turns net to_numeric to_datetime_mixed writable).
#[local] Abbreviation attempt :=
  (BatchMain.attempt net to_numeric to_datetime_mixed writable).
#[local] Abbreviation resolve := (BatchMain.resolve (Num := Num) net).

Lemma call_keeps {A : Type} (m : M A) (st : state) :
  BatchMain.st_files (snd (BatchMain.call m st)) = BatchMain.st_files st
  /\ BatchMain.metadata (snd (BatchMain.call m st)) = BatchMain.metadata st
  /\ BatchMain.errors (snd (BatchMain.call m st)) = BatchMain.errors st
  /\ BatchMain.edition_cache (snd (BatchMain.call m st)) = BatchMain.edition_cache st
  /\ BatchMain.st_world (snd (BatchMain.call m st)) = snd (m (BatchMain.st_world st)).
Proof.
  unfold BatchMain.call. destruct (m (BatchMain.st_world st)) as [r w'].
  repeat split.
Qed.

Lemma resolve_keeps (s : BatchMain.series) (st : state) :
  BatchMain.st_files (snd (resolve s st)) = BatchMain.st_files st
  /\ BatchMain.metadata (snd (resolve s st)) = BatchMain.metadata st
  /\ BatchMain.errors (snd (resolve s st)) = BatchMain.errors st.
Proof.
  unfold BatchMain.resolve.
  destruct (BatchMain.cache_find _ _ _); [repeat split|].
  pose proof (call_keeps (BatchDownload.get_edition_url net (BatchMain.s_dataset_id s)
                            (BatchMain.edition_name s)) st) as (Hf & Hm & He & _).
  destruct (BatchMain.call _ st) as [[url|e] st1]; cbn [snd] in *.
  - destruct (negb (truthy url)); cbn [snd]; repeat split; assumption.
  - repeat split; assumption.
Qed.

(** What one attempt leaves behind: on success one more file, the one the
    metadata row describes; on failure no file. *)
Lemma attempt_outcome (s : BatchMain.series) (st : state) :
  BatchMain.metadata (snd (attempt s st)) = BatchMain.metadata st
  /\ BatchMain.errors (snd (attempt s st)) = BatchMain.errors st
  /\ match fst (attempt s st) with
     | inr m =>
         exists df,
           BatchMain.st_files (snd (attempt s st))
           = BatchMain.st_files st ++ [(BatchMain.m_filename m, BatchMain.Series_csv df)]
           /\ BatchMain.m_obs_count m = List.length df
           /\ 0 < List.length df
           /\ BatchMain.m_filename m
              = (BatchDownload.label_to_filename (BatchMain.m_label m) ++ ".csv")%string
     | inl _ => BatchMain.st_files (snd (attempt s st)) = BatchMain.st_files st
     end.
Proof.
  unfold BatchMain.attempt.
  pose proof (resolve_keeps s st) as (Hf & Hm & He).
  destruct (resolve s st) as [[f|edition_url] st1]; cbn [fst snd] in *.
  - repeat split; assumption.
  - match goal with
    | |- context [BatchMain.call ?m st1] =>
        pose proof (call_keeps m st1) as (Hf2 & Hm2 & He2 & _);
        destruct (BatchMain.call m st1) as [[df|e] st2]
    end; cbn [fst snd] in *.
    + destruct df as [|r df]; cbn [fst snd].
      * repeat split; congruence.
      * destruct (writable _); cbn [fst snd BatchMain.say BatchMain.metadata
                                      BatchMain.errors BatchMain.st_files].
        -- split; [congruence|]. split; [congruence|].
           exists (r :: df). cbn [BatchMain.m_filename BatchMain.m_obs_count
                                   BatchMain.m_label List.length].
           repeat split; [congruence | lia].
        -- repeat split; congruence.
    + repeat split; congruence.
Qed.

(** One turn of the loop books the series as saved or as failed. *)
Lemma turn_books (i n : nat) (s : BatchMain.series) (st : state) :
  List.length (BatchMain.metadata (turn i n s st))
  + List.length (BatchMain.errors (turn i n s st))
  = S (List.length (BatchMain.metadata st) + List.length (BatchMain.errors st))
  /\ (Forall (saved (BatchMain.st_files st)) (BatchMain.metadata st) ->
      Forall (saved (BatchMain.st_files (turn i n s st)))
             (BatchMain.metadata (turn i n s st))).
Proof.
  unfold BatchMain.turn.
  pose proof (attempt_outcome s (BatchMain.say (BatchMain.Progress i n (BatchMain.s_label s))
                                   st)) as (Hm & He & Hout).
  destruct (attempt s _) as [[f|m] st1]; cbn [fst snd] in *;
    cbn [BatchMain.say BatchMain.metadata BatchMain.errors BatchMain.st_files] in *.
  - rewrite Hm, He, length_app. cbn [List.length]. split; [lia|].
    rewrite Hout. auto.
  - rewrite Hm, He, length_app. cbn [List.length]. split; [lia|].
    destruct Hout as (df & Hfiles & Hcount & Hpos & Hname).
    intros Hsaved. apply Forall_app. split.
    + eapply Forall_impl; [|exact Hsaved].
      intros m' (df' & Hin & Hrest). exists df'. split; [|exact Hrest].
      rewrite Hfiles. apply in_or_app. left. exact Hin.
    + constructor; [|constructor]. exists df. split; [|repeat split; assumption].
      rewrite Hfiles. apply in_or_app. right. left. reflexivity.
Qed.

Lemma turns_book (todo : list BatchMain.series) :
  forall (i n : nat) (st : state),
    List.length (BatchMain.metadata (turns i n todo st))
    + List.length (BatchMain.errors (turns i n todo st))
    = List.length (BatchMain.metadata st) + List.length (BatchMain.errors st)
      + List.length todo
    /\ (Forall (saved (BatchMain.st_files st)) (BatchMain.metadata st) ->
        Forall (saved (BatchMain.st_files (turns i n todo st)))
               (BatchMain.metadata (turns i n todo st))).
Proof.
  induction todo as [|s rest IH]; intros i n st; cbn [BatchMain.turns List.length].
  - split; [lia | auto].
  - destruct (IH (S i) n (turn i n s st)) as [Hcount Hsaved].
    destruct (turn_books i n s st) as [Hcount1 Hsaved1].
    split; [lia | auto].
Qed.

Lemma summary_keeps (st : state) :
  BatchMain.metadata (BatchMain.summary st) = BatchMain.metadata st
  /\ BatchMain.errors (BatchMain.summary st) = BatchMain.errors st
  /\ BatchMain.st_files (BatchMain.summary st) = BatchMain.st_files st.
Proof.
  unfold BatchMain.summary. destruct (BatchMain.errors st) as [|e es] eqn:He.
  - cbn. rewrite He. repeat split.
  - assert (Hfold : forall (l : list (string * string * BatchMain.failure)) (acc : state),
               BatchMain.metadata
                 (fold_left (fun a x => BatchMain.say
                                          (BatchMain.Failed_series (fst (fst x))
                                             (snd (fst x)) (snd x)) a) l acc)
               = BatchMain.metadata acc
               /\ BatchMain.errors
                    (fold_left (fun a x => BatchMain.say
                                             (BatchMain.Failed_series (fst (fst x))
                                                (snd (fst x)) (snd x)) a) l acc)
                  = BatchMain.errors acc
               /\ BatchMain.st_files
                    (fold_left (fun a x => BatchMain.say
                                             (BatchMain.Failed_series (fst (fst x))
                                                (snd (fst x)) (snd x)) a) l acc)
                  = BatchMain.st_files acc).
    { induction l as [|x l IHl]; intros acc; [repeat split|].
      cbn [fold_left]. destruct (IHl (BatchMain.say
                                        (BatchMain.Failed_series (fst (fst x))
                                           (snd (fst x)) (snd x)) acc))
        as (H1 & H2 & H3).
      rewrite H1, H2, H3. repeat split. }
    destruct (Hfold (e :: es)
                (BatchMain.say (BatchMain.Series_failed (List.length (e :: es)))
                   (BatchMain.say (BatchMain.Done (List.length (BatchMain.metadata st)))
                      st))) as (H1 & H2 & H3).
    rewrite H1, H2, H3. cbn. rewrite He. repeat split.
Qed.

End BatchRun.

(** X16: the loop of [main] (script 04) books every series exactly once,
    as saved or as failed: the metadata rows and the errors together are
    as many as the series.  Every metadata row stands for a CSV that was
    written under the file name of its label and holds as many rows as
    the row counts, at least one: no empty CSV is ever saved.  Once the
    output directory exists, [main] can only crash on writing
    "_metadata.csv". *)
Theorem main_books_every_series (Num : Type) (net : network)
    (to_numeric : pyobj -> Num) (to_datetime_mixed : pyobj -> result (option Z))
    (writable : string -> bool) (all_series : list BatchMain.series) (w : world) :
  let run := BatchMain.main_over net to_numeric to_datetime_mixed writable
               all_series true w in
  List.length (BatchMain.metadata (snd run)) + List.length (BatchMain.errors (snd run))
  = List.length all_series
  /\ Forall (saved (BatchMain.st_files (snd run))) (BatchMain.metadata (snd run))
  /\ (fst run = BatchMain.Crashed ->
      BatchMain.metadata (snd run) <> [] /\ writable "_metadata.csv" = false).
Proof.
  cbv zeta. unfold BatchMain.main_over. cbn [negb].
  destruct (turns_book net to_numeric to_datetime_mixed writable all_series 1
              (List.length all_series)
              (BatchMain.say (BatchMain.Downloading (List.length all_series))
                 (BatchMain.initial w))) as [Hcount Hsaved].
  cbn [BatchMain.say BatchMain.initial BatchMain.metadata BatchMain.errors
         BatchMain.st_files List.length Nat.add] in Hcount, Hsaved.
  specialize (Hsaved (Forall_nil _)).
  set (st := BatchMain.turns _ _ _ _ _ _ _ _) in *.
  destruct (BatchMain.metadata st) as [|m ms] eqn:Hm.
  - cbn [fst snd]. destruct (summary_keeps st) as (H1 & H2 & H3).
    rewrite H1, H2, H3, Hm.
    split; [exact Hcount|]. split; [constructor | discriminate].
  - destruct (writable "_metadata.csv") eqn:Hw; cbn [fst snd].
    + match goal with
      | |- context [BatchMain.summary ?s] =>
          destruct (summary_keeps s) as (H1 & H2 & H3)
      end.
      rewrite H1, H2, H3.
      cbn [BatchMain.metadata BatchMain.errors BatchMain.st_files].
      rewrite ?Hm. split; [exact Hcount|]. split; [|discriminate].
      eapply Forall_impl; [|exact Hsaved].
      intros m' (df & Hin & Hrest). exists df. split; [|exact Hrest].
      apply in_or_app. left. exact Hin.
    + rewrite ?Hm. split; [exact Hcount|].
      split; [exact Hsaved|]. intros _. split; [discriminate | reflexivity].
Qed.

(** The requests of one [get_json] call all go to the same place. *)
Lemma get_json_same_request (net : network) (u : string) (params : pyobj) (w : world) :
  exists k, k <= 3
    /\ calls (snd (BatchDownload.get_json net (PStr u) params 3 w))
       = calls w ++ repeat (mkRequest u params) k.
Proof.
  assert (Hsome : forall k v, k < 3 ->
            fails_first net u params (List.length (calls w)) k ->
            net (List.length (calls w) + k) (mkRequest u params) = Some v ->
            exists k', k' <= 3
              /\ calls (snd (BatchDownload.get_json net (PStr u) params 3 w))
                 = calls w ++ repeat (mkRequest u params) k').
  { intros k v Hk Hfail Hok. exists (S k). split; [lia|].
    unfold BatchDownload.get_json.
    rewrite (get_json_from_success net u params 3 k v 0 w 3 Hk eq_refl Hfail Hok).
    reflexivity. }
  destruct (net (List.length (calls w) + 0) (mkRequest u params)) as [v0|] eqn:H0.
  { apply (Hsome 0 v0); [lia | intros i Hi; lia | exact H0]. }
  destruct (net (List.length (calls w) + 1) (mkRequest u params)) as [v1|] eqn:H1.
  { apply (Hsome 1 v1); [lia | | exact H1].
    intros i Hi. replace i with 0 by lia. exact H0. }
  destruct (net (List.length (calls w) + 2) (mkRequest u params)) as [v2|] eqn:H2.
  { apply (Hsome 2 v2); [lia | | exact H2].
    intros i Hi. destruct i as [|[|i]]; [exact H0 | exact H1 | lia]. }
  exists 3. split; [lia|].
  rewrite (get_json_all_fail net (PStr u) params w); [reflexivity|].
  intros k Hk. destruct k as [|[|[|k]]]; [exact H0 | exact H1 | exact H2 | lia].
Qed.

(** [get_observations] touches the world through its one [get_json] call
    only. *)
Lemma get_observations_world (net : network) (Num : Type) (to_numeric : pyobj -> Num)
    (mixed : pyobj -> result (option Z)) (u : string) (dimensions : pyobj) (w : world) :
  snd (BatchDownload.get_observations net to_numeric mixed (PStr u) dimensions w)
  = snd (BatchDownload.get_json net (PStr (u ++ "/observations")) dimensions 3 w).
Proof.
  unfold BatchDownload.get_observations.
  rewrite (bind_lift_ok (py_add_str (PStr u) "/observations") _ _ _ eq_refl).
  unfold bind at 1.
  destruct (BatchDownload.get_json _ _ _ _ w) as [[data|e] w1]; [|reflexivity].
  cbn [snd]. destruct (negb (truthy data)); [reflexivity|].
  unfold bind, lift.
  destruct (py_get data "observations" (PList [])) as [observations|e]; [|reflexivity].
  destruct (py_iter observations) as [obs|e]; [|reflexivity].
  destruct (collect_rows obs) as [[|r rows]|e]; reflexivity.
Qed.

Lemma cache_find_added (cache : list (string * string * pyobj))
    (dataset_id name : string) (url : pyobj) :
  BatchMain.cache_find cache dataset_id name = None ->
  BatchMain.cache_find (cache ++ [(dataset_id, name, url)]) dataset_id name = Some url.
Proof.
  induction cache as [|[[d n] v] cache IH]; cbn [app BatchMain.cache_find].
  - intros _. rewrite !String.eqb_refl. reflexivity.
  - destruct ((d =? dataset_id) && (n =? name))%bool; [discriminate | exact IH].
Qed.

Section BatchCache.

Context {Num : Type}.
Variable net : network.
Variable to_numeric : pyobj -> Num.
Variable to_datetime_mixed : pyobj -> result (option Z).
Variable writable : string -> bool.

#[local] Abbreviation state := (BatchMain.state (Num := Num)).
#[local] Abbreviation turn := (BatchMain.turn net to_numeric to_datetime_mixed writable).
#[local] Abbreviation fetch :=
  (BatchDownload.get_observations net to_numeric to_datetime_mixed).

(** Whatever comes of the download, the world and the cache after a turn
    are those after the download. *)
Lemma turn_after_download (i n : nat) (s : BatchMain.series) (st : state)
    (edition_url : pyobj) (st1 : state) :
  BatchMain.resolve net s (BatchMain.say (BatchMain.Progress i n (BatchMain.s_label s)) st)
    = (inr edition_url, st1) ->
  BatchMain.st_world (turn i n s st)
    = snd (fetch edition_url (series_query s) (BatchMain.st_world st1))
  /\ BatchMain.edition_cache (turn i n s st) = BatchMain.edition_cache st1.
Proof.
  intros Hres. unfold BatchMain.turn, BatchMain.attempt. rewrite Hres.
  fold (series_query s).
  pose proof (call_keeps (fetch edition_url (series_query s)) st1)
    as (_ & _ & _ & Hcache & Hworld).
  destruct (BatchMain.call _ st1) as [[[|r df]|e] st2]; cbn [snd] in *;
    try destruct (writable _);
    cbn [BatchMain.say BatchMain.st_world BatchMain.edition_cache];
    split; assumption.
Qed.

End BatchCache.

(** X17: the edition cache of [main] (script 04).  A series whose
    (dataset, edition) pair is in the cache sends no request to resolve the
    edition: its turn sends at most three requests, all of them the
    observations query of the cached URL, and leaves the cache as it was.
    A series whose pair is not in the cache and whose resolution gives a
    truthy URL leaves that URL in the cache, whatever then comes of its
    download. *)
Theorem main_cache_saves_resolution (Num : Type) (net : network)
    (to_numeric : pyobj -> Num) (to_datetime_mixed : pyobj -> result (option Z))
    (writable : string -> bool) (i n : nat) (s : BatchMain.series)
    (st : BatchMain.state (Num := Num)) :
  (forall u : string,
      BatchMain.cache_find (BatchMain.edition_cache st) (BatchMain.s_dataset_id s)
        (BatchMain.edition_name s) = Some (PStr u) ->
      BatchMain.edition_cache
        (BatchMain.turn net to_numeric to_datetime_mixed writable i n s st)
      = BatchMain.edition_cache st
      /\ exists k, k <= 3
           /\ calls (BatchMain.st_world
                       (BatchMain.turn net to_numeric to_datetime_mixed writable i n s st))
              = calls (BatchMain.st_world st)
                  ++ repeat (mkRequest (u ++ "/observations") (series_query s)) k)
  /\ (forall (url : pyobj) (w1 : world),
      BatchMain.cache_find (BatchMain.edition_cache st) (BatchMain.s_dataset_id s)
        (BatchMain.edition_name s) = None ->
      BatchDownload.get_edition_url net (BatchMain.s_dataset_id s)
        (BatchMain.edition_name s) (BatchMain.st_world st) = (Ok url, w1) ->
      truthy url = true ->
      BatchMain.cache_find
        (BatchMain.edition_cache
           (BatchMain.turn net to_numeric to_datetime_mixed writable i n s st))
        (BatchMain.s_dataset_id s) (BatchMain.edition_name s) = Some url).
Proof.
  split.
  - intros u Hhit.
    destruct (turn_after_download net to_numeric to_datetime_mixed writable i n s st
                (PStr u)
                (BatchMain.say (BatchMain.Progress i n (BatchMain.s_label s)) st))
      as [Hworld Hcache].
    { unfold BatchMain.resolve. cbn [BatchMain.say BatchMain.edition_cache].
      rewrite Hhit. reflexivity. }
    split; [exact Hcache|].
    rewrite Hworld. cbn [BatchMain.say BatchMain.st_world].
    rewrite get_observations_world. apply get_json_same_request.
  - intros url w1 Hmiss Hresolved Htrue.
    assert (exists st1,
              BatchMain.resolve net s
                (BatchMain.say (BatchMain.Progress i n (BatchMain.s_label s)) st)
              = (inr url, st1)
              /\ BatchMain.edition_cache st1
                 = BatchMain.edition_cache st
                     ++ [(BatchMain.s_dataset_id s, BatchMain.edition_name s, url)])
      as (st1 & Hres & Hadded).
    { unfold BatchMain.resolve, BatchMain.call.
      cbn [BatchMain.say BatchMain.edition_cache BatchMain.st_world].
      rewrite Hmiss, Hresolved, Htrue. cbn [negb].
      eexists. split; reflexivity. }
    destruct (turn_after_download net to_numeric to_datetime_mixed writable i n s st url
                st1 Hres) as [_ Hcache].
    rewrite Hcache, Hadded.
    apply cache_find_added, Hmiss.
Qed.

Lemma main_cache_saves_resolution_witness :
  BatchMain.edition_cache
    (BatchMain.turn Sample.down (fun v => v) (fun _ => Raise ValueError) (fun _ => true)
       2 9 (nth 1 BatchMain.SERIES (BatchMain.mkSeries "" "" [] None))
       (BatchMain.mkState start [] []
          [("gdp-to-four-decimal-places", "time-series", PStr Sample.trade_version)]
          [] []))
  = [("gdp-to-four-decimal-places", "time-series", PStr Sample.trade_version)]
  /\ exists k, k <= 3
       /\ calls (BatchMain.st_world
                   (BatchMain.turn Sample.down (fun v => v) (fun _ => Raise ValueError)
                      (fun _ => true) 2 9
                      (nth 1 BatchMain.SERIES (BatchMain.mkSeries "" "" [] None))
                      (BatchMain.mkState start [] []
                         [("gdp-to-four-decimal-places", "time-series",
                           PStr Sample.trade_version)]
                         [] [])))
          = calls start
              ++ repeat (mkRequest (Sample.trade_version ++ "/observations")
                           (series_query
                              (nth 1 BatchMain.SERIES (BatchMain.mkSeries "" "" [] None))))
                        k.
Proof.
  apply (proj1 (main_cache_saves_resolution pyobj Sample.down (fun v => v)
                  (fun _ => Raise ValueError) (fun _ => true) 2 9
                  (nth 1 BatchMain.SERIES (BatchMain.mkSeries "" "" [] None))
                  (BatchMain.mkState start [] []
                     [("gdp-to-four-decimal-places", "time-series",
                       PStr Sample.trade_version)]
                     [] []))
           Sample.trade_version).
  reflexivity.
Defined.

Section BatchOffline.

Context {Num : Type}.
Variable net : network.
Variable to_numeric : pyobj -> Num.
Variable to_datetime_mixed : pyobj -> result (option Z).
Variable writable : string -> bool.

#[local] Abbreviation state := (BatchMain.state (Num := Num)).
#[local] Abbreviation turn := (BatchMain.turn net to_numeric to_datetime_mixed writable).
#[local] Abbreviation turns := (BatchMain.turns net to_numeric to_datetime_mixed writable).

Lemma summary_world (st : state) :
  BatchMain.st_world (BatchMain.summary st) = BatchMain.st_world st
  /\ BatchMain.edition_cache (BatchMain.summary st) = BatchMain.edition_cache st.
Proof.
  unfold BatchMain.summary.
  assert (Hfold : forall (l : list (string * string * BatchMain.failure)) (acc : state),
             BatchMain.st_world
               (fold_left (fun a x => BatchMain.say
                                        (BatchMain.Failed_series (fst (fst x))
                                           (snd (fst x)) (snd x)) a) l acc)
             = BatchMain.st_world acc
             /\ BatchMain.edition_cache
                  (fold_left (fun a x => BatchMain.say
                                           (BatchMain.Failed_series (fst (fst x))
                                              (snd (fst x)) (snd x)) a) l acc)
                = BatchMain.edition_cache acc).
  { induction l as [|x l IH]; intros acc; cbn [fold_left]; [split; reflexivity|].
    destruct (IH (BatchMain.say (BatchMain.Failed_series (fst (fst x)) (snd (fst x)) (snd x))
                    acc)) as [H1 H2].
    rewrite H1, H2. split; reflexivity. }
  destruct (BatchMain.errors st) as [|e es]; [split; reflexivity|].
  destruct (Hfold (e :: es)
              (BatchMain.say (BatchMain.Series_failed (List.length (e :: es)))
                 (BatchMain.say (BatchMain.Done (List.length (BatchMain.metadata st))) st)))
    as [H1 H2].
  rewrite H1, H2. split; reflexivity.
Qed.

(** With nothing answering, a turn ends at the lookup of the dataset. *)
Lemma turn_unreachable (i n : nat) (s : BatchMain.series) (st : state) :
  unreachable net ->
  BatchMain.edition_cache st = [] ->
  turn i n s st
  = BatchMain.mkState
      (mkWorld (calls (BatchMain.st_world st)
                  ++ repeat (mkRequest (dataset_url (BatchMain.s_dataset_id s)) PNone) 3)
               (slept (BatchMain.st_world st) ++ [1; 2]%Z)
               (stdout (BatchMain.st_world st) ++ [FAILED_after 3]))
      (BatchMain.st_console st
         ++ [BatchMain.Progress i n (BatchMain.s_label s);
             BatchMain.Helper (FAILED_after 3);
             BatchMain.FAILED (BatchMain.Could_not_resolve (BatchMain.s_dataset_id s))])
      (BatchMain.st_files st) []
      (BatchMain.metadata st)
      (BatchMain.errors st
         ++ [(BatchMain.s_dataset_id s, BatchMain.s_label s,
              BatchMain.Could_not_resolve (BatchMain.s_dataset_id s))]).
Proof.
  intros Hdead Hcache.
  unfold BatchMain.turn, BatchMain.attempt, BatchMain.resolve, BatchMain.call.
  cbn [BatchMain.say BatchMain.edition_cache BatchMain.st_world].
  rewrite Hcache. cbn [BatchMain.cache_find].
  unfold BatchDownload.get_edition_url.
  rewrite (bind_ok _ _ _ _ _
             (get_json_all_fail net (PStr (ROOT_URL ++ "datasets/" ++ BatchMain.s_dataset_id s))
                PNone (BatchMain.st_world st) (fun k _ => Hdead _ _))).
  cbn [truthy negb ret failed_calls stdout].
  rewrite skipn_app, skipn_all, Nat.sub_diag.
  cbn [skipn app map BatchMain.say BatchMain.st_world BatchMain.st_console
         BatchMain.st_files BatchMain.edition_cache BatchMain.metadata BatchMain.errors].
  unfold BatchMain.say.
  cbn [BatchMain.st_world BatchMain.st_console
         BatchMain.st_files BatchMain.edition_cache BatchMain.metadata BatchMain.errors].
  rewrite <- ?app_assoc. reflexivity.
Qed.

Lemma turns_unreachable (todo : list BatchMain.series) :
  unreachable net ->
  forall (i n : nat) (st : state),
    BatchMain.edition_cache st = [] ->
    BatchMain.edition_cache (turns i n todo st) = []
    /\ BatchMain.metadata (turns i n todo st) = BatchMain.metadata st
    /\ BatchMain.st_files (turns i n todo st) = BatchMain.st_files st
    /\ BatchMain.errors (turns i n todo st)
       = BatchMain.errors st
           ++ map (fun s => (BatchMain.s_dataset_id s, BatchMain.s_label s,
                             BatchMain.Could_not_resolve (BatchMain.s_dataset_id s))) todo
    /\ calls (BatchMain.st_world (turns i n todo st))
       = calls (BatchMain.st_world st)
           ++ flat_map (fun s => repeat (mkRequest (dataset_url (BatchMain.s_dataset_id s))
                                           PNone) 3) todo
    /\ total_sleep (BatchMain.st_world (turns i n todo st))
       = (total_sleep (BatchMain.st_world st) + 3 * Z.of_nat (List.length todo))%Z.
Proof.
  intros Hdead. induction todo as [|s rest IH]; intros i n st Hcache;
    cbn [BatchMain.turns map flat_map List.length].
  - rewrite !app_nil_r. repeat split; try assumption. lia.
  - rewrite (turn_unreachable i n s st Hdead Hcache).
    destruct (IH (S i) n
                (BatchMain.mkState
                   (mkWorld (calls (BatchMain.st_world st)
                               ++ repeat (mkRequest
                                            (dataset_url (BatchMain.s_dataset_id s)) PNone) 3)
                            (slept (BatchMain.st_world st) ++ [1; 2]%Z)
                            (stdout (BatchMain.st_world st) ++ [FAILED_after 3]))
                   (BatchMain.st_console st
                      ++ [BatchMain.Progress i n (BatchMain.s_label s);
                          BatchMain.Helper (FAILED_after 3);
                          BatchMain.FAILED
                            (BatchMain.Could_not_resolve (BatchMain.s_dataset_id s))])
                   (BatchMain.st_files st) []
                   (BatchMain.metadata st)
                   (BatchMain.errors st
                      ++ [(BatchMain.s_dataset_id s, BatchMain.s_label s,
                           BatchMain.Could_not_resolve (BatchMain.s_dataset_id s))]))
                eq_refl) as (H1 & H2 & H3 & H4 & H5 & H6).
    rewrite H1, H2, H3, H4, H5, H6.
    cbn [BatchMain.metadata BatchMain.st_files BatchMain.errors BatchMain.st_world calls].
    rewrite <- !app_assoc.
    rewrite (total_sleep_app (calls (BatchMain.st_world st)) _
               (slept (BatchMain.st_world st)) [1; 2]%Z (stdout (BatchMain.st_world st)) _).
    cbn [fold_right app].
    replace (mkWorld (calls (BatchMain.st_world st)) (slept (BatchMain.st_world st))
               (stdout (BatchMain.st_world st))) with (BatchMain.st_world st)
      by (destruct (BatchMain.st_world st); reflexivity).
    repeat split. lia.
Qed.

End BatchOffline.

(** X18: [main] (script 04) with nothing answering on the network.  The
    run still returns normally: every series is booked as failed with
    "Could not resolve edition", in the order of the list; no file is
    written, not even "_metadata.csv"; and since a failed lookup is never
    cached, the dataset is asked for again for every series, three requests
    and three seconds of sleep each. *)
Theorem main_offline (Num : Type) (net : network)
    (to_numeric : pyobj -> Num) (to_datetime_mixed : pyobj -> result (option Z))
    (writable : string -> bool) (all_series : list BatchMain.series) (w : world) :
  unreachable net ->
  let run := BatchMain.main_over net to_numeric to_datetime_mixed writable
               all_series true w in
  fst run = BatchMain.Returned
  /\ BatchMain.metadata (snd run) = []
  /\ BatchMain.st_files (snd run) = []
  /\ BatchMain.edition_cache (snd run) = []
  /\ BatchMain.errors (snd run)
     = map (fun s => (BatchMain.s_dataset_id s, BatchMain.s_label s,
                      BatchMain.Could_not_resolve (BatchMain.s_dataset_id s))) all_series
  /\ calls (BatchMain.st_world (snd run))
     = calls w
         ++ flat_map (fun s => repeat (mkRequest (dataset_url (BatchMain.s_dataset_id s))
                                         PNone) 3) all_series
  /\ total_sleep (BatchMain.st_world (snd run))
     = (total_sleep w + 3 * Z.of_nat (List.length all_series))%Z.
Proof.
  intros Hdead. cbv zeta. unfold BatchMain.main_over. cbn [negb].
  destruct (turns_unreachable net to_numeric to_datetime_mixed writable all_series Hdead 1
              (List.length all_series)
              (BatchMain.say (BatchMain.Downloading (List.length all_series))
                 (BatchMain.initial w)) eq_refl) as (H1 & H2 & H3 & H4 & H5 & H6).
  cbn [BatchMain.say BatchMain.initial BatchMain.metadata BatchMain.errors
         BatchMain.st_files BatchMain.st_world app] in H2, H3, H4, H5, H6.
  set (st := BatchMain.turns _ _ _ _ _ _ _ _) in *.
  rewrite H2. cbn [fst snd].
  destruct (summary_keeps st) as (K1 & K2 & K3).
  destruct (summary_world st) as (K4 & K5).
  rewrite K1, K2, K3, K4, K5.
  repeat split; assumption.
Qed.

Lemma main_offline_witness :
  let run := BatchMain.main Sample.down (fun v => v) (fun _ => Raise ValueError)
               (fun _ => true) true start in
  fst run = BatchMain.Returned
  /\ BatchMain.metadata (snd run) = []
  /\ BatchMain.st_files (snd run) = []
  /\ BatchMain.edition_cache (snd run) = []
  /\ BatchMain.errors (snd run)
     = map (fun s => (BatchMain.s_dataset_id s, BatchMain.s_label s,
                      BatchMain.Could_not_resolve (BatchMain.s_dataset_id s)))
           BatchMain.SERIES
  /\ calls (BatchMain.st_world (snd run))
     = calls start
         ++ flat_map (fun s => repeat (mkRequest (dataset_url (BatchMain.s_dataset_id s))
                                         PNone) 3) BatchMain.SERIES
  /\ total_sleep (BatchMain.st_world (snd run))
     = (total_sleep start + 3 * Z.of_nat (List.length BatchMain.SERIES))%Z.
Proof.
  apply (main_offline pyobj Sample.down (fun v => v) (fun _ => Raise ValueError)
           (fun _ => true) BatchMain.SERIES start).
  intros k rq. reflexivity.
Defined.

Section BatchEmpty.

Context {Num : Type}.
Variable net : network.
Variable to_numeric : pyobj -> Num.
Variable to_datetime_mixed : pyobj -> result (option Z).
Variable writable : string -> bool.

#[local] Abbreviation state := (BatchMain.state (Num := Num)).
#[local] Abbreviation turn := (BatchMain.turn net to_numeric to_datetime_mixed writable).
#[local] Abbreviation fetch :=
  (BatchDownload.get_observations net to_numeric to_datetime_mixed).

(** A cached series whose download gives an empty frame. *)
Lemma turn_empty_frame (i n : nat) (s : BatchMain.series) (st : state)
    (edition_url : pyobj) (w2 : world) :
  BatchMain.cache_find (BatchMain.edition_cache st) (BatchMain.s_dataset_id s)
    (BatchMain.edition_name s) = Some edition_url ->
  fetch edition_url (series_query s) (BatchMain.st_world st) = (Ok [], w2) ->
  BatchMain.errors (turn i n s st)
  = BatchMain.errors st
      ++ [(BatchMain.s_dataset_id s, BatchMain.s_label s, BatchMain.No_observations_returned)]
  /\ BatchMain.metadata (turn i n s st) = BatchMain.metadata st
  /\ BatchMain.st_files (turn i n s st) = BatchMain.st_files st.
Proof.
  intros Hhit Hfetch. unfold series_query in Hfetch.
  unfold BatchMain.turn, BatchMain.attempt, BatchMain.resolve, BatchMain.call.
  remember (BatchMain.say (BatchMain.Progress i n (BatchMain.s_label s)) st) as st0 eqn:E.
  assert (Hc : BatchMain.edition_cache st0 = BatchMain.edition_cache st)
    by (subst st0; reflexivity).
  assert (Hw : BatchMain.st_world st0 = BatchMain.st_world st) by (subst st0; reflexivity).
  assert (He : BatchMain.errors st0 = BatchMain.errors st) by (subst st0; reflexivity).
  assert (Hm : BatchMain.metadata st0 = BatchMain.metadata st) by (subst st0; reflexivity).
  assert (Hf : BatchMain.st_files st0 = BatchMain.st_files st) by (subst st0; reflexivity).
  clear E. rewrite Hc, Hhit, Hw, Hfetch.
  cbn [BatchMain.say BatchMain.errors BatchMain.metadata BatchMain.st_files].
  rewrite He, Hm, Hf. repeat split.
Qed.

Lemma get_observations_all_fail (u : string) (dimensions : pyobj) (w : world) :
  all_attempts_fail net (PStr (u ++ "/observations")) dimensions w ->
  fetch (PStr u) dimensions w
  = (Ok [], mkWorld (calls w ++ repeat (mkRequest (u ++ "/observations") dimensions) 3)
                    (slept w ++ [1; 2]%Z) (stdout w ++ [FAILED_after 3])).
Proof.
  intros Hfail. unfold BatchDownload.get_observations.
  rewrite (bind_lift_ok (py_add_str (PStr u) "/observations") _ _ _ eq_refl).
  rewrite (bind_ok _ _ _ _ _ (get_json_all_fail net _ dimensions w Hfail)).
  reflexivity.
Qed.

Lemma get_observations_no_rows (u : string) (dimensions data : pyobj) (w : world) :
  net (List.length (calls w)) (mkRequest (u ++ "/observations") dimensions) = Some data ->
  py_get data "observations" (PList []) = Ok (PList []) ->
  fetch (PStr u) dimensions w
  = (Ok [], mkWorld (calls w ++ [mkRequest (u ++ "/observations") dimensions])
                    (slept w) (stdout w)).
Proof.
  intros Hreply Hnone. unfold BatchDownload.get_observations.
  rewrite (bind_lift_ok (py_add_str (PStr u) "/observations") _ _ _ eq_refl).
  rewrite (bind_ok _ _ _ _ _ (get_json_first_try net _ dimensions data w Hreply)).
  destruct (negb (truthy data)); [reflexivity|].
  rewrite (bind_lift_ok _ _ _ _ Hnone). reflexivity.
Qed.

End BatchEmpty.

(** X19: in [main] (script 04) a series whose observations could not be
    fetched at all (each of the three attempts failed) is booked exactly as
    a series the API answered with no observations: the error recorded is
    "No observations returned" in both cases, no CSV is written and no
    metadata row is added.  The error list does not tell a network failure
    from an empty series. *)
Theorem main_failed_download_reads_as_empty (Num : Type) (net : network)
    (to_numeric : pyobj -> Num) (to_datetime_mixed : pyobj -> result (option Z))
    (writable : string -> bool) (i n : nat) (s : BatchMain.series)
    (st : BatchMain.state (Num := Num)) (u : string) :
  BatchMain.cache_find (BatchMain.edition_cache st) (BatchMain.s_dataset_id s)
    (BatchMain.edition_name s) = Some (PStr u) ->
  all_attempts_fail net (PStr (u ++ "/observations")) (series_query s)
    (BatchMain.st_world st)
  \/ (exists data,
        net (List.length (calls (BatchMain.st_world st)))
            (mkRequest (u ++ "/observations") (series_query s)) = Some data
        /\ py_get data "observations" (PList []) = Ok (PList [])) ->
  let st' := BatchMain.turn net to_numeric to_datetime_mixed writable i n s st in
  BatchMain.errors st'
  = BatchMain.errors st
      ++ [(BatchMain.s_dataset_id s, BatchMain.s_label s, BatchMain.No_observations_returned)]
  /\ BatchMain.metadata st' = BatchMain.metadata st
  /\ BatchMain.st_files st' = BatchMain.st_files st.
Proof.
  intros Hhit [Hfail | (data & Hreply & Hnone)]; cbv zeta.
  - apply (turn_empty_frame net to_numeric to_datetime_mixed writable i n s st (PStr u) _
             Hhit (get_observations_all_fail net to_numeric to_datetime_mixed u _ _ Hfail)).
  - apply (turn_empty_frame net to_numeric to_datetime_mixed writable i n s st (PStr u) _
             Hhit (get_observations_no_rows net to_numeric to_datetime_mixed u _ data _
                     Hreply Hnone)).
Qed.

Lemma main_failed_download_reads_as_empty_witness :
  let s := nth 3 BatchMain.SERIES (BatchMain.mkSeries "" "" [] None) in
  let st := BatchMain.mkState start [] []
              [("trade", "time-series", PStr Sample.trade_version)] [] [] in
  (let st' := BatchMain.turn Sample.down (fun v => v) (fun _ => Raise ValueError)
                (fun _ => true) 4 9 s st in
   BatchMain.errors st' = [("trade", "UK total exports", BatchMain.No_observations_returned)]
   /\ BatchMain.metadata st' = []
   /\ BatchMain.st_files st' = [])
  /\ (let st' := BatchMain.turn
                   (Sample.serving [((Sample.trade_version ++ "/observations")%string,
                                      obj [("observations", PList [])])])
                   (fun v => v) (fun _ => Raise ValueError) (fun _ => true) 4 9 s st in
      BatchMain.errors st' = [("trade", "UK total exports", BatchMain.No_observations_returned)]
      /\ BatchMain.metadata st' = []
      /\ BatchMain.st_files st' = []).
Proof.
  split.
  - apply (main_failed_download_reads_as_empty pyobj Sample.down (fun v => v)
             (fun _ => Raise ValueError) (fun _ => true) 4 9
             (nth 3 BatchMain.SERIES (BatchMain.mkSeries "" "" [] None))
             (BatchMain.mkState start [] []
                [("trade", "time-series", PStr Sample.trade_version)] [] [])
             Sample.trade_version eq_refl).
    left. intros k Hk. reflexivity.
  - apply (main_failed_download_reads_as_empty pyobj
             (Sample.serving [((Sample.trade_version ++ "/observations")%string,
                                obj [("observations", PList [])])])
             (fun v => v) (fun _ => Raise ValueError) (fun _ => true) 4 9
             (nth 3 BatchMain.SERIES (BatchMain.mkSeries "" "" [] None))
             (BatchMain.mkState start [] []
                [("trade", "time-series", PStr Sample.trade_version)] [] [])
             Sample.trade_version eq_refl).
    right. eexists. split; reflexivity.
Defined.

(* ===================================================================== *)
(** * Script 02: the summary of the options and the requests sent *)
(* ===================================================================== *)

Lemma world_eta (w : world) : mkWorld (calls w) (slept w) (stdout w) = w.
Proof. destruct w; reflexivity. Qed.

(** The summary loop in closed form, from index [i] on. *)
Lemma print_options_from (options : list (pyobj * pyobj)) (total : pyobj) :
  forall (i : nat) (w : world),
    i <= 10 ->
    ExploreDimensions.print_options i options total w
    = (if (10 - i <? List.length options)%nat
       then match py_sub_int total 10 with
            | Ok _ => Ok tt
            | Raise e => Raise e
            end
       else Ok tt,
       mkWorld (calls w) (slept w)
         (stdout w ++ map option_line (firstn (10 - i) options)
            ++ (if (10 - i <? List.length options)%nat
                then match py_sub_int total 10 with
                     | Ok more => [And_more more]
                     | Raise _ => []
                     end
                else []))).
Proof.
  induction options as [|[opt_id opt_label] rest IH]; intros i w Hi;
    cbn [ExploreDimensions.print_options].
  - rewrite firstn_nil. cbn [List.length map app].
    replace (10 - i <? 0)%nat with false by (symmetry; apply Nat.ltb_ge; lia).
    rewrite app_nil_r, world_eta. reflexivity.
  - destruct (10 <=? i)%nat eqn:Hten.
    + apply Nat.leb_le in Hten. replace i with 10 by lia.
      cbn [Nat.sub firstn map app List.length Nat.ltb Nat.leb].
      unfold bind, lift. destruct (py_sub_int total 10) as [more|e].
      * reflexivity.
      * rewrite app_nil_r, world_eta. reflexivity.
    + apply Nat.leb_gt in Hten. rewrite bind_print.
      rewrite (IH (S i) _ ltac:(lia)). cbn [calls slept stdout List.length].
      replace (10 - i) with (S (10 - S i)) by lia.
      cbn [firstn map]. rewrite <- app_assoc.
      change (S (10 - S i) <? S (List.length rest))%nat
        with (10 - S i <? List.length rest)%nat.
      reflexivity.
Qed.

(** X20: the options summary of [explore_dimensions] (script 02).  With an
    integer total, the loop prints the first ten options in order and then,
    only when there are more than ten, one line "... and N more" where N
    is the total minus ten: N comes from the total the API declares, not
    from the number of options retrieved.  With more than ten options and
    a total that is no number, the ten option lines are printed and the
    subtraction raises TypeError. *)
Theorem print_options_first_ten (options : list (pyobj * pyobj)) (w : world) :
  (forall t : Z,
      ExploreDimensions.print_options 0 options (PInt t) w
      = (Ok tt,
         mkWorld (calls w) (slept w)
           (stdout w ++ map option_line (firstn 10 options)
              ++ (if (10 <? List.length options)%nat then [And_more (PInt (t - 10))]
                  else []))))
  /\ (forall total : pyobj,
        10 < List.length options ->
        py_sub_int total 10 = Raise TypeError ->
        ExploreDimensions.print_options 0 options total w
        = (Raise TypeError,
           mkWorld (calls w) (slept w)
             (stdout w ++ map option_line (firstn 10 options)))).
Proof.
  split.
  - intros t. rewrite (print_options_from options (PInt t) 0 w ltac:(lia)).
    cbn [Nat.sub py_sub_int]. destruct (10 <? List.length options)%nat; reflexivity.
  - intros total Hlong Hbad.
    rewrite (print_options_from options total 0 w ltac:(lia)).
    cbn [Nat.sub]. rewrite Hbad.
    replace (10 <? List.length options)%nat with true
      by (symmetry; apply Nat.ltb_lt; exact Hlong).
    rewrite app_nil_r. reflexivity.
Qed.

Lemma print_options_first_ten_witness :
  ExploreDimensions.print_options 0
    (map (fun i => (PInt (Z.of_nat i), PStr "x")) (seq 0 12)) (PStr "312") start
  = (Raise TypeError,
     mkWorld (calls start) (slept start)
       (stdout start
          ++ map option_line
               (firstn 10 (map (fun i => (PInt (Z.of_nat i), PStr "x")) (seq 0 12))))).
Proof.
  apply (proj2 (print_options_first_ten
                  (map (fun i => (PInt (Z.of_nat i), PStr "x")) (seq 0 12)) start)
           (PStr "312")).
  - cbn. lia.
  - reflexivity.
Defined.

Lemma requests_get_calls (net : network) (u : string) (params v : pyobj) (w w' : world) :
  requests_get net (PStr u) params w = (Ok v, w') ->
  calls w' = calls w ++ [mkRequest u params] /\ slept w' = slept w.
Proof.
  unfold requests_get. rewrite http_string.
  destruct (net _ _); [|discriminate].
  intros H. injection H as _ <-. split; reflexivity.
Qed.

Lemma print_options_calls (options : list (pyobj * pyobj)) (total : pyobj)
    (w w' : world) (r : result unit) :
  ExploreDimensions.print_options 0 options total w = (r, w') ->
  calls w' = calls w /\ slept w' = slept w.
Proof.
  rewrite (print_options_from options total 0 w ltac:(lia)).
  intros H. injection H as _ <-. split; reflexivity.
Qed.

Section Requests02.

Variable net : network.
Variable version_url : pyobj.

Lemma explore_dimension_calls (all_dimensions all_dimensions' : list (pyobj * pyobj))
    (dim : pyobj) (w w' : world) :
  ExploreDimensions.explore_dimension net version_url all_dimensions dim w
    = (Ok all_dimensions', w') ->
  exists dim_id,
    options_id dim = Ok dim_id
    /\ calls w' = calls w ++ [options_request version_url dim_id]
    /\ slept w' = slept w.
Proof.
  unfold ExploreDimensions.explore_dimension. intros H.
  apply bind_inv in H as (name & w1 & Hname & H). apply lift_inv in Hname as [Hname ->].
  apply bind_inv in H as (label & w1 & Hlabel & H). apply lift_inv in Hlabel as [_ ->].
  apply bind_inv in H as (dim_id & w1 & Hid & H). apply lift_inv in Hid as [Hid ->].
  apply bind_inv in H as (opts_data & w1 & Hget & H).
  apply requests_get_calls in Hget as [Hcalls Hslept].
  apply bind_inv in H as (items & w2 & Hitems & H). apply lift_inv in Hitems as [_ ->].
  apply bind_inv in H as (its & w2 & Hits & H). apply lift_inv in Hits as [_ ->].
  apply bind_inv in H as (options & w2 & Hopts & H). apply lift_inv in Hopts as [_ ->].
  apply bind_inv in H as (total & w2 & Htotal & H). apply lift_inv in Htotal as [_ ->].
  apply bind_inv in H as (stored & w2 & Hstored & H). apply lift_inv in Hstored as [_ ->].
  rewrite !bind_print in H.
  apply bind_inv in H as ([] & w2 & Hprinted & H).
  apply print_options_calls in Hprinted as [Hc Hs]. cbn [calls slept] in Hc, Hs.
  rewrite bind_print in H. unfold ret in H. injection H as _ <-.
  exists dim_id. cbn [calls slept]. split.
  - unfold options_id. rewrite Hname. cbn [rbind]. exact Hid.
  - rewrite Hc, Hs. split; assumption.
Qed.

Lemma explore_each_calls (dimensions : list pyobj) :
  forall (all_dimensions all_dimensions' : list (pyobj * pyobj)) (w w' : world),
    ExploreDimensions.explore_each net version_url dimensions all_dimensions w
      = (Ok all_dimensions', w') ->
    exists ids,
      Forall2 (fun dim dim_id => options_id dim = Ok dim_id) dimensions ids
      /\ calls w' = calls w ++ map (options_request version_url) ids
      /\ slept w' = slept w.
Proof.
  induction dimensions as [|dim rest IH]; intros all_dimensions all_dimensions' w w';
    cbn [ExploreDimensions.explore_each].
  - unfold ret. intros H. injection H as _ <-. exists [].
    cbn [map]. rewrite app_nil_r. repeat split. constructor.
  - intros H. apply bind_inv in H as (d1 & w1 & Hone & H).
    apply explore_dimension_calls in Hone as (dim_id & Hid & Hc1 & Hs1).
    apply IH in H as (ids & Hids & Hc & Hs).
    exists (dim_id :: ids). split; [constructor; assumption|].
    rewrite Hc, Hc1, Hs, Hs1, <- app_assoc. split; reflexivity.
Qed.

End Requests02.


(* ===================================================================== *)
(** * Script 02: the template of [main] *)
(* ===================================================================== *)

Lemma py_eqb_hashable_refl (k : pyobj) : hashable k = true -> py_eqb k k = true.
Proof.
  destruct k as [| b | n | s | l | d]; cbn; try discriminate; intros _.
  - reflexivity.
  - destruct b; reflexivity.
  - apply Z.eqb_refl.
  - apply String.eqb_refl.
Qed.

Lemma dict_store_keys (P : pyobj -> Prop) (k v : pyobj) (d : list (pyobj * pyobj)) :
  Forall (fun kv => P (fst kv)) d -> P k ->
  Forall (fun kv => P (fst kv)) (dict_store d k v).
Proof.
  intros Hd Hk. induction d as [|[k' v'] d IH]; cbn [dict_store].
  - constructor; [exact Hk | constructor].
  - inversion Hd as [|x l Hx Hl]; subst.
    destruct (py_eqb k' k); constructor; auto.
Qed.

Lemma dict_store_values (Q : pyobj -> Prop) (k v : pyobj) (d : list (pyobj * pyobj)) :
  Forall (fun kv => Q (snd kv)) d -> Q v ->
  Forall (fun kv => Q (snd kv)) (dict_store d k v).
Proof.
  intros Hd Hv. induction d as [|[k' v'] d IH]; cbn [dict_store].
  - constructor; [exact Hv | constructor].
  - inversion Hd as [|x l Hx Hl]; subst.
    destruct (py_eqb k' k); constructor; auto.
Qed.

Lemma collect_options_hashable (items : list pyobj) :
  forall options options' : list (pyobj * pyobj),
    ExploreDimensions.collect_options items options = Ok options' ->
    Forall (fun kv => hashable (fst kv) = true) options ->
    Forall (fun kv => hashable (fst kv) = true) options'.
Proof.
  induction items as [|item rest IH]; intros options options';
    cbn [ExploreDimensions.collect_options].
  - intros H. injection H as <-. auto.
  - destruct (py_get item "label" (PStr "")) as [label|e]; [|discriminate].
    destruct (py_get item "option" PNone) as [opt|e]; [|discriminate].
    cbn [rbind]. unfold py_setitem.
    destruct (hashable opt) eqn:Hopt; [|discriminate].
    cbn [rbind]. intros H Hopts. apply (IH _ _ H).
    apply (dict_store_keys (fun k => hashable k = true)); assumption.
Qed.

Lemma catalog_values (infos : list dim_info) :
  forall all_dimensions : list (pyobj * pyobj),
    Forall (fun i => Forall (fun kv => hashable (fst kv) = true) (info_options i)) infos ->
    Forall (fun kv => options_dict (snd kv)) all_dimensions ->
    Forall (fun kv => options_dict (snd kv)) (catalog infos all_dimensions).
Proof.
  unfold catalog.
  induction infos as [|i infos IH]; intros all_dimensions Hinfos Hall; cbn [fold_left].
  - exact Hall.
  - inversion Hinfos as [|x l Hi Hrest]; subst.
    apply IH; [exact Hrest|].
    apply (dict_store_values options_dict); [exact Hall|].
    exists (info_options i). split; [reflexivity | exact Hi].
Qed.

Lemma describes_hashable (dimensions : list pyobj) (infos : list dim_info) :
  Forall2 describes dimensions infos ->
  Forall (fun i => Forall (fun kv => hashable (fst kv) = true) (info_options i)) infos.
Proof.
  induction 1 as [|dim info dims infos Hd _ IH]; constructor; [|exact IH].
  destruct Hd as (_ & _ & opts_data & items & its & _ & _ & Hcollect & _).
  apply (collect_options_hashable _ _ _ Hcollect). constructor.
Qed.

(** The values of the dict [explore_dimensions] returns are options
    dicts. *)
Lemma explore_dimensions_values (net : network) (version_url v : pyobj) (w w' : world) :
  ExploreDimensions.explore_dimensions net version_url w = (Ok v, w') ->
  exists d, v = PDict d /\ Forall (fun kv => options_dict (snd kv)) d.
Proof.
  unfold ExploreDimensions.explore_dimensions. rewrite bind_print. intros H.
  apply bind_inv in H as (u & w1 & _ & H).
  apply bind_inv in H as (response & w2 & _ & H).
  apply bind_inv in H as (listing & w3 & _ & H).
  apply bind_inv in H as (dims & w4 & _ & H).
  apply bind_inv in H as (all_dimensions & w5 & Heach & H).
  apply explore_each_inv in Heach as (infos & Hinfos & -> & _).
  unfold ret in H. injection H as <- _.
  eexists. split; [reflexivity|].
  apply catalog_values; [|constructor].
  apply (describes_hashable _ _ Hinfos).
Qed.

Lemma template_entry_of_catalogue (n : string) (v : pyobj) :
  options_dict v ->
  ExploreMain.template_entry (PStr n) v
  = inr (match template_line (PStr n, v) with
         | l :: _ => Some l
         | [] => None
         end).
Proof.
  intros (options & -> & Hkeys). unfold ExploreMain.template_entry, template_line.
  destruct (lower n =? "time")%string; [reflexivity|].
  destruct options as [|[first_key first_label] options]; [reflexivity|].
  cbn [truthy py_iter map fst py_index dict_lookup].
  inversion Hkeys as [|x l Hk _]; subst. cbn [fst] in Hk.
  rewrite Hk, (py_eqb_hashable_refl _ Hk). reflexivity.
Qed.

Lemma template_line_short (kv : pyobj * pyobj) :
  template_line kv = match template_line kv with
                     | l :: _ => [l]
                     | [] => []
                     end.
Proof.
  destruct kv as [[| b | z | n | l | d] [| b' | z' | n' | l' | d']]; try reflexivity.
  cbn [template_line]. destruct (lower n =? "time")%string; [reflexivity|].
  destruct d' as [|[k v] d']; reflexivity.
Qed.

Lemma template_loop_of_catalogue (d : list (pyobj * pyobj)) :
  Forall named_by_string d ->
  Forall (fun kv => options_dict (snd kv)) d ->
  ExploreMain.template_loop d = (flat_map template_line d, None).
Proof.
  induction d as [|[name options] d IH]; intros Hnames Hvalues;
    cbn [ExploreMain.template_loop flat_map]; [reflexivity|].
  inversion Hnames as [|x l [n Hn] Hrest]; subst. cbn [fst] in Hn. subst name.
  inversion Hvalues as [|x l Hv Hvs]; subst. cbn [snd] in Hv.
  rewrite (template_entry_of_catalogue n options Hv), (IH Hrest Hvs).
  rewrite (template_line_short (PStr n, options)).
  destruct (template_line (PStr n, options)); reflexivity.
Qed.

Lemma template_loop_stops (pre post : list (pyobj * pyobj)) (name options : pyobj) :
  Forall named_by_string pre ->
  Forall (fun kv => options_dict (snd kv)) pre ->
  (forall n, name <> PStr n) ->
  ExploreMain.template_loop (pre ++ (name, options) :: post)
  = (flat_map template_line pre, Some (ExploreMain.Raised AttributeError)).
Proof.
  intros Hnames Hvalues Hname.
  induction pre as [|[name' options'] pre IH]; cbn [app ExploreMain.template_loop flat_map].
  - destruct name; try reflexivity. exfalso. apply (Hname s). reflexivity.
  - inversion Hnames as [|x l [n Hn] Hrest]; subst. cbn [fst] in Hn. subst name'.
    inversion Hvalues as [|x l Hv Hvs]; subst. cbn [snd] in Hv.
    rewrite (template_entry_of_catalogue n options' Hv), (IH Hrest Hvs).
    rewrite (template_line_short (PStr n, options')).
    destruct (template_line (PStr n, options')); reflexivity.
Qed.

(** X22: the template printed by [main] of script 02.  When the lookup
    gives a version URL and [explore_dimensions] returns a catalogue whose
    dimension names are all strings, [main] returns normally and prints,
    between "params = {" and "}", one line per dimension in the order of
    the catalogue: the wildcard "*" for a dimension named "time" in any
    case, else the first option the API listed; a dimension for which no
    option was retrieved gets no line, so the template lacks it. *)
Theorem main_template_follows_catalogue (net : network) (w w1 w2 : world)
    (version_url : pyobj) (d : list (pyobj * pyobj)) :
  ExploreDimensions.get_latest_version_url net ExploreMain.DATASET_ID w
    = (Ok version_url, w1) ->
  truthy version_url = true ->
  ExploreDimensions.explore_dimensions net version_url w1 = (Ok (PDict d), w2) ->
  Forall named_by_string d ->
  ExploreMain.main net w
  = (ExploreMain.Returned,
     (w2, ExploreMain.helper_lines w w2
            ++ [ExploreMain.Rule; ExploreMain.Template_intro; ExploreMain.Params_open]
            ++ flat_map template_line d ++ [ExploreMain.Params_close])).
Proof.
  intros Hurl Htrue Hexplore Hnames.
  destruct (explore_dimensions_values _ _ _ _ _ Hexplore) as (d' & Hd & Hvalues).
  injection Hd as <-.
  unfold ExploreMain.main. rewrite Hurl, Htrue. cbn [negb]. rewrite Hexplore.
  unfold ExploreMain.template.
  rewrite (template_loop_of_catalogue d Hnames Hvalues). reflexivity.
Qed.

Lemma main_template_follows_catalogue_witness :
  ExploreMain.main Sample02.api start
  = (ExploreMain.Returned,
     (Sample02.explored,
      ExploreMain.helper_lines start Sample02.explored
        ++ [ExploreMain.Rule; ExploreMain.Template_intro; ExploreMain.Params_open]
        ++ flat_map template_line
             [(PStr "Time", PDict [(PStr "Jan-24", PStr "Jan-24")]);
              (PStr "geography", PDict [(PStr "K02000001", PStr "United Kingdom");
                                        (PStr "K03000001", PStr "Great Britain")]);
              (PStr "direction", PDict [])]
        ++ [ExploreMain.Params_close])).
Proof.
  apply (main_template_follows_catalogue Sample02.api start Sample02.looked_up
           Sample02.explored (PStr Sample.trade_version)).
  - vm_compute. reflexivity.
  - reflexivity.
  - vm_compute. reflexivity.
  - repeat constructor; eexists; reflexivity.
Defined.

(** X23: a dimension whose name is no string stops [main] of script 02.
    [explore_dimensions] accepts such a dimension (a name the API gives as
    null becomes the key [None] of the catalogue), but the template loop
    calls [name.lower()] on it: [main] ends with AttributeError after the
    template lines of the dimensions before it, and the closing "}" is
    never printed. *)
Theorem main_stops_at_unnamed_dimension (net : network) (w w1 w2 : world)
    (version_url name options : pyobj) (pre post : list (pyobj * pyobj)) :
  ExploreDimensions.get_latest_version_url net ExploreMain.DATASET_ID w
    = (Ok version_url, w1) ->
  truthy version_url = true ->
  ExploreDimensions.explore_dimensions net version_url w1
    = (Ok (PDict (pre ++ (name, options) :: post)), w2) ->
  Forall named_by_string pre ->
  (forall n, name <> PStr n) ->
  ExploreMain.main net w
  = (ExploreMain.Crashed (ExploreMain.Raised AttributeError),
     (w2, ExploreMain.helper_lines w w2
            ++ [ExploreMain.Rule; ExploreMain.Template_intro; ExploreMain.Params_open]
            ++ flat_map template_line pre)).
Proof.
  intros Hurl Htrue Hexplore Hnames Hname.
  destruct (explore_dimensions_values _ _ _ _ _ Hexplore) as (d' & Hd & Hvalues).
  injection Hd as <-. apply Forall_app in Hvalues as [Hvalues _].
  unfold ExploreMain.main. rewrite Hurl, Htrue. cbn [negb]. rewrite Hexplore.
  unfold ExploreMain.template.
  rewrite (template_loop_stops pre post name options Hnames Hvalues Hname). reflexivity.
Qed.

Lemma main_stops_at_unnamed_dimension_witness :
  ExploreMain.main Sample02.nameless_api start
  = (ExploreMain.Crashed (ExploreMain.Raised AttributeError),
     (Sample02.explored_nameless,
      ExploreMain.helper_lines start Sample02.explored_nameless
        ++ [ExploreMain.Rule; ExploreMain.Template_intro; ExploreMain.Params_open]
        ++ flat_map template_line
             [(PStr "Time", PDict [(PStr "Jan-24", PStr "Jan-24")])])).
Proof.
  apply (main_stops_at_unnamed_dimension Sample02.nameless_api start Sample02.looked_up
           Sample02.explored_nameless (PStr Sample.trade_version) PNone
           (PDict [(PStr "K02000001", PStr "United Kingdom")])
           [(PStr "Time", PDict [(PStr "Jan-24", PStr "Jan-24")])]
           [(PStr "direction", PDict [])]).
  - vm_compute. reflexivity.
  - reflexivity.
  - vm_compute. reflexivity.
  - repeat constructor; eexists; reflexivity.
  - intros n. discriminate.
Defined.

(* ===================================================================== *)
(** * The temporal sub-object: which observations of a reply are kept *)
(* ===================================================================== *)

Lemma time_dim_of_entry (o : pyobj) (dims : list (pyobj * pyobj)) :
  py_get o "dimensions" (PDict []) = Ok (PDict dims) ->
  time_dim_of o = Ok (time_entry dims).
Proof.
  intros Hdims. unfold time_dim_of. rewrite Hdims. cbn [rbind py_get].
  unfold time_entry, py_or, entry.
  destruct (truthy match dict_lookup dims (PStr "Time") with
                   | Some v => v
                   | None => PNone
                   end); reflexivity.
Qed.

Lemma dimensions_of_get (o : pyobj) (dims : list (pyobj * pyobj)) :
  py_get o "dimensions" (PDict []) = Ok (PDict dims) -> dimensions_of o = dims.
Proof.
  destruct o as [| | | | |d]; try discriminate.
  cbn [py_get dimensions_of]. unfold entry. intros H. injection H as H.
  rewrite H. reflexivity.
Qed.

(** Where [time_dim_of] answers, it answers with the entry under the two
    spellings. *)
Lemma time_dim_of_inv (o time_dim : pyobj) :
  time_dim_of o = Ok time_dim ->
  time_dim = time_entry (dimensions_of o)
  /\ exists d, o = PDict d.
Proof.
  intros H.
  destruct o as [| | | | |d]; try discriminate.
  split; [|eexists; reflexivity].
  destruct (py_get (PDict d) "dimensions" (PDict [])) as [dimsv|e] eqn:Hd;
    [|discriminate].
  destruct dimsv as [| | | | |dims];
    try (unfold time_dim_of in H; rewrite Hd in H; discriminate).
  rewrite (time_dim_of_entry _ _ Hd) in H. injection H as <-.
  rewrite (dimensions_of_get _ _ Hd). reflexivity.
Qed.

(** The rows collected are the rows of the observations that have a
    temporal sub-object under "Time" or "time", in the order of the
    reply. *)
Lemma collect_rows_kept (obs : list pyobj) :
  forall rows : list (row pyobj),
    collect_rows obs = Ok rows ->
    Forall2 row_from (filter has_time obs) rows.
Proof.
  induction obs as [|o rest IH]; intros rows; cbn [collect_rows filter].
  - intros H. injection H as <-. constructor.
  - destruct (time_dim_of o) as [time_dim|e] eqn:Htime; [|discriminate].
    apply time_dim_of_inv in Htime as [-> [d ->]].
    cbn [rbind]. unfold has_time.
    destruct (truthy (time_entry (dimensions_of (PDict d)))) eqn:Htruthy; cbn [negb].
    + destruct (time_entry (dimensions_of (PDict d))) as [| | | | |td] eqn:Htd;
        try discriminate.
      cbn [py_get rbind].
      destruct (collect_rows rest) as [rows'|e]; [|discriminate].
      cbn [rbind]. intros H. injection H as <-.
      constructor; [|apply IH; reflexivity].
      exists td. eexists. split; [exact Htd|]. split; reflexivity.
    + apply IH.
Qed.

Lemma collect_rows_shaped (obs : list pyobj) :
  Forall shaped obs -> exists rows, collect_rows obs = Ok rows.
Proof.
  induction 1 as [|o rest (d & dims & -> & Hdims & Htd) _ [rows IH]];
    cbn [collect_rows].
  - eexists. reflexivity.
  - assert (Hget : py_get (PDict d) "dimensions" (PDict []) = Ok (PDict dims)).
    { cbn [py_get]. unfold entry in Hdims. rewrite Hdims. reflexivity. }
    rewrite (time_dim_of_entry _ _ Hget). cbn [rbind].
    destruct (truthy (time_entry dims)) eqn:Htruthy; cbn [negb].
    + destruct (Htd eq_refl) as [td ->]. cbn [py_get rbind].
      rewrite IH. cbn [rbind]. eexists. reflexivity.
    + exists rows. exact IH.
Qed.

Lemma numeric_values_length {Num : Type} (to_numeric : pyobj -> Num)
    (rows : list (row pyobj)) :
  List.length (numeric_values to_numeric rows) = List.length rows.
Proof. unfold numeric_values. apply length_map. Qed.

(** What both fetchers do with the rows collected, given as a sort. *)
Lemma kept_rows_returned {Num : Type} (to_numeric : pyobj -> Num)
    (sort : list (row Num) -> result (list (row Num)))
    (obs : list pyobj) (rows : list (row pyobj)) (df : list (row Num)) :
  (forall df df', sort df = Ok df' -> Permutation df df') ->
  collect_rows obs = Ok rows ->
  match rows with
  | [] => Ok []
  | _ :: _ => sort (numeric_values to_numeric rows)
  end = Ok df ->
  exists rows',
    Forall2 row_from (filter has_time obs) rows'
    /\ Permutation (numeric_values to_numeric rows') df
    /\ List.length df = List.length (filter has_time obs).
Proof.
  intros Hsort Hrows Hdf. exists rows.
  pose proof (collect_rows_kept obs rows Hrows) as Hkept.
  assert (Hperm : Permutation (numeric_values to_numeric rows) df).
  { destruct rows as [|r rows'].
    - injection Hdf as <-. constructor.
    - apply Hsort. exact Hdf. }
  split; [exact Hkept|]. split; [exact Hperm|].
  rewrite <- (Permutation_length Hperm), numeric_values_length.
  symmetry. apply (Forall2_length Hkept).
Qed.

(** Both fetchers on a reply: the rows collected from its observations,
    sorted. *)
Lemma batch_fetch_of_reply (net : network) (Num : Type) (to_numeric : pyobj -> Num)
    (to_datetime_mixed : pyobj -> result (option Z)) (u : string)
    (dimensions data observations : pyobj) (w w1 : world) (obs : list pyobj) :
  BatchDownload.get_json net (PStr (u ++ "/observations")) dimensions 3 w
    = (Ok data, w1) ->
  truthy data = true ->
  py_get data "observations" (PList []) = Ok observations ->
  py_iter observations = Ok obs ->
  BatchDownload.get_observations net to_numeric to_datetime_mixed (PStr u) dimensions w
  = (match collect_rows obs with
     | Ok [] => Ok []
     | Ok (r :: rows) =>
         BatchDownload.sort_chronologically to_datetime_mixed
           (numeric_values to_numeric (r :: rows))
     | Raise e => Raise e
     end, w1).
Proof.
  intros Hdata Htrue Hobs Hiter. unfold BatchDownload.get_observations.
  rewrite (bind_lift_ok (py_add_str (PStr u) "/observations") _ _ _ eq_refl).
  rewrite (bind_ok _ _ _ _ _ Hdata). rewrite Htrue. cbn [negb].
  rewrite (bind_lift_ok _ _ _ _ Hobs), (bind_lift_ok _ _ _ _ Hiter).
  unfold bind, lift. destruct (collect_rows obs) as [[|r rows]|e]; reflexivity.
Qed.

Lemma timeseries_fetch_of_reply (net : network) (Num : Type) (to_numeric : pyobj -> Num)
    (to_datetime_mixed : pyobj -> result (option Z)) (u : string)
    (dimensions data observations : pyobj) (w w1 : world) (obs : list pyobj) :
  requests_get net (PStr (u ++ "/observations")) dimensions w = (Ok data, w1) ->
  py_get data "observations" (PList []) = Ok observations ->
  py_iter observations = Ok obs ->
  DownloadTimeseries.download_observations net to_numeric to_datetime_mixed (PStr u)
    dimensions w
  = (match collect_rows obs with
     | Ok [] => Ok []
     | Ok (r :: rows) =>
         DownloadTimeseries.sort_chronologically to_datetime_mixed
           (numeric_values to_numeric (r :: rows))
     | Raise e => Raise e
     end, w1).
Proof.
  intros Hdata Hobs Hiter. unfold DownloadTimeseries.download_observations.
  rewrite (bind_lift_ok (py_add_str (PStr u) "/observations") _ _ _ eq_refl).
  rewrite (bind_ok _ _ _ _ _ Hdata).
  rewrite (bind_lift_ok _ _ _ _ Hobs), (bind_lift_ok _ _ _ _ Hiter).
  unfold bind, lift. destruct (collect_rows obs) as [[|r rows]|e]; reflexivity.
Qed.

(** C4, amended: on the observations of the reply, scripts 03 and 04 look
    the temporal sub-object up under the two spellings "Time" and "time"
    only, the first truthy one winning: an observation with no entry
    under either, whatever other keys (such as "TIME") it has, has no
    temporal sub-object for them.  The series a fetcher returns holds, up
    to its sort, exactly the rows of the observations of the reply that
    have one, each with the id and label of that sub-object: the other
    observations are dropped, and the series is as long as the
    observations kept are many.  On a reply whose observations have the
    documented shape, the rows are collected without error and the
    fetcher returns what its sort gives on them. *)
Theorem time_key_two_spellings :
  (forall (o : pyobj) (dims : list (pyobj * pyobj)),
      py_get o "dimensions" (PDict []) = Ok (PDict dims) ->
      time_dim_of o = Ok (time_entry dims)
      /\ (dict_lookup dims (PStr "Time") = None ->
          dict_lookup dims (PStr "time") = None ->
          has_time o = false))
  /\ (forall (net : network) (Num : Type) (to_numeric : pyobj -> Num)
             (to_datetime_mixed : pyobj -> result (option Z))
             (u : string) (dimensions data observations : pyobj) (w w1 : world)
             (obs : list pyobj),
        BatchDownload.get_json net (PStr (u ++ "/observations")) dimensions 3 w
          = (Ok data, w1) ->
        truthy data = true ->
        py_get data "observations" (PList []) = Ok observations ->
        py_iter observations = Ok obs ->
        (forall df : list (row Num),
            fst (BatchDownload.get_observations net to_numeric to_datetime_mixed
                   (PStr u) dimensions w) = Ok df ->
            exists rows,
              Forall2 row_from (filter has_time obs) rows
              /\ Permutation (numeric_values to_numeric rows) df
              /\ List.length df = List.length (filter has_time obs))
        /\ (Forall shaped obs ->
            exists rows,
              Forall2 row_from (filter has_time obs) rows
              /\ BatchDownload.get_observations net to_numeric to_datetime_mixed
                   (PStr u) dimensions w
                 = (match rows with
                    | [] => Ok []
                    | _ :: _ =>
                        BatchDownload.sort_chronologically to_datetime_mixed
                          (numeric_values to_numeric rows)
                    end, w1)))
  /\ (forall (net : network) (Num : Type) (to_numeric : pyobj -> Num)
             (to_datetime_mixed : pyobj -> result (option Z))
             (u : string) (dimensions data observations : pyobj) (w w1 : world)
             (obs : list pyobj),
        requests_get net (PStr (u ++ "/observations")) dimensions w = (Ok data, w1) ->
        py_get data "observations" (PList []) = Ok observations ->
        py_iter observations = Ok obs ->
        (forall df : list (row Num),
            fst (DownloadTimeseries.download_observations net to_numeric
                   to_datetime_mixed (PStr u) dimensions w) = Ok df ->
            exists rows,
              Forall2 row_from (filter has_time obs) rows
              /\ Permutation (numeric_values to_numeric rows) df
              /\ List.length df = List.length (filter has_time obs))
        /\ (Forall shaped obs ->
            exists rows,
              Forall2 row_from (filter has_time obs) rows
              /\ DownloadTimeseries.download_observations net to_numeric
                   to_datetime_mixed (PStr u) dimensions w
                 = (match rows with
                    | [] => Ok []
                    | _ :: _ =>
                        DownloadTimeseries.sort_chronologically to_datetime_mixed
                          (numeric_values to_numeric rows)
                    end, w1))).
Proof.
  split; [|split].
  - intros o dims Hdims. split; [apply time_dim_of_entry; exact Hdims|].
    intros Hupper Hlower. unfold has_time.
    rewrite (dimensions_of_get _ _ Hdims).
    unfold time_entry, entry. rewrite Hupper, Hlower. reflexivity.
  - intros net Num to_numeric mixed u dimensions data observations w w1 obs
      Hdata Htrue Hobs Hiter.
    pose proof (batch_fetch_of_reply net Num to_numeric mixed u dimensions data
                  observations w w1 obs Hdata Htrue Hobs Hiter) as Hrun.
    split.
    + intros df Hdf. rewrite Hrun in Hdf. cbn [fst] in Hdf.
      destruct (collect_rows obs) as [rows|e] eqn:Hrows; [|discriminate].
      apply (kept_rows_returned to_numeric
               (BatchDownload.sort_chronologically mixed) obs rows df);
        [apply batch_sort_perm | exact Hrows |].
      destruct rows; exact Hdf.
    + intros Hshaped. destruct (collect_rows_shaped obs Hshaped) as [rows Hrows].
      exists rows. split; [apply collect_rows_kept; exact Hrows|].
      rewrite Hrun, Hrows. destruct rows; reflexivity.
  - intros net Num to_numeric mixed u dimensions data observations w w1 obs
      Hdata Hobs Hiter.
    pose proof (timeseries_fetch_of_reply net Num to_numeric mixed u dimensions data
                  observations w w1 obs Hdata Hobs Hiter) as Hrun.
    split.
    + intros df Hdf. rewrite Hrun in Hdf. cbn [fst] in Hdf.
      destruct (collect_rows obs) as [rows|e] eqn:Hrows; [|discriminate].
      apply (kept_rows_returned to_numeric
               (DownloadTimeseries.sort_chronologically mixed) obs rows df);
        [apply timeseries_sort_perm | exact Hrows |].
      destruct rows; exact Hdf.
    + intros Hshaped. destruct (collect_rows_shaped obs Hshaped) as [rows Hrows].
      exists rows. split; [apply collect_rows_kept; exact Hrows|].
      rewrite Hrun, Hrows. destruct rows; reflexivity.
Qed.

Lemma time_key_two_spellings_witness :
  has_time (Sample.observation "TIME" "2024-01" "Jan-24" "11") = false
  /\ exists rows,
       Forall2 row_from (filter has_time Sample.three_spellings) rows
       /\ Permutation (numeric_values (fun v => v) rows)
            [mkRow (PStr "2023-12") (PStr "Dec-23") (PStr "10");
             mkRow (PStr "2024-02") (PStr "Feb-24") (PStr "12")]
       /\ List.length [mkRow (PStr "2023-12") (PStr "Dec-23") (PStr "10");
                       mkRow (PStr "2024-02") (PStr "Feb-24") (PStr "12")]
          = List.length (filter has_time Sample.three_spellings).
Proof.
  destruct time_key_two_spellings as (Hlookup & Hbatch & _).
  split.
  - apply (Hlookup (Sample.observation "TIME" "2024-01" "Jan-24" "11")
             [(PStr "TIME", obj [("id", PStr "2024-01"); ("label", PStr "Jan-24")])]
             eq_refl); reflexivity.
  - apply (proj1 (Hbatch (Sample.observing Sample.three_spellings) pyobj (fun v => v)
                    (fun _ => Raise ValueError) Sample.trade_version
                    Sample.trade_filters
                    (obj [("observations", PList Sample.three_spellings)])
                    (PList Sample.three_spellings) start
                    (mkWorld [mkRequest (Sample.trade_version ++ "/observations")
                                Sample.trade_filters] [] [])
                    Sample.three_spellings eq_refl eq_refl eq_refl eq_refl)).
    vm_compute. reflexivity.
Defined.

(* ===================================================================== *)
(** * The dimension catalogue, bound to the replies *)
(* ===================================================================== *)

Lemma dict_store_keeps (d : list (pyobj * pyobj)) (k v k' : pyobj) :
  dict_lookup d k' <> None -> dict_lookup (dict_store d k v) k' <> None.
Proof.
  induction d as [|[k0 v0] d IH]; cbn [dict_lookup dict_store]; [congruence|].
  destruct (py_eqb k0 k); cbn [dict_lookup]; destruct (py_eqb k0 k'); auto; discriminate.
Qed.

Lemma dict_store_has (d : list (pyobj * pyobj)) (k v : pyobj) :
  hashable k = true -> dict_lookup (dict_store d k v) k <> None.
Proof.
  intros Hk. induction d as [|[k0 v0] d IH]; cbn [dict_lookup dict_store].
  - rewrite (py_eqb_hashable_refl k Hk). discriminate.
  - destruct (py_eqb k0 k) eqn:E; cbn [dict_lookup]; rewrite E; [discriminate | exact IH].
Qed.

Lemma dict_store_in (d : list (pyobj * pyobj)) (k v k' v' : pyobj) :
  In (k', v') (dict_store d k v) -> (exists v'', In (k', v'') d) \/ k' = k.
Proof.
  induction d as [|[k0 v0] d IH]; cbn [dict_store].
  - intros [H|[]]. injection H as <- _. right. reflexivity.
  - destruct (py_eqb k0 k).
    + intros [H|H].
      * injection H as <- _. left. exists v0. left. reflexivity.
      * left. exists v'. right. exact H.
    + intros [H|H].
      * injection H as <- _. left. exists v0. left. reflexivity.
      * destruct (IH H) as [[v'' Hin]|Heq]; [|right; exact Heq].
        left. exists v''. right. exact Hin.
Qed.

Lemma dict_store_distinct (d : list (pyobj * pyobj)) (k v : pyobj) :
  distinct_keys d -> distinct_keys (dict_store d k v).
Proof.
  induction d as [|[k0 v0] d IH]; cbn [dict_store distinct_keys].
  - intros _. split; [constructor | exact I].
  - intros [Hfresh Hd]. destruct (py_eqb k0 k) eqn:E; cbn [distinct_keys].
    + split; assumption.
    + split; [|apply IH; exact Hd].
      apply (dict_store_keys (fun x => py_eqb k0 x = false)); assumption.
Qed.

Lemma dict_store_length (d : list (pyobj * pyobj)) (k v : pyobj) :
  List.length (dict_store d k v) <= S (List.length d).
Proof.
  induction d as [|[k0 v0] d IH]; cbn [dict_store List.length]; [lia|].
  destruct (py_eqb k0 k); cbn [List.length]; lia.
Qed.

(** The loop that fills [options], with what it started from. *)
Lemma collect_options_entries (its : list pyobj) :
  forall options options' : list (pyobj * pyobj),
    ExploreDimensions.collect_options its options = Ok options' ->
    (forall k, dict_lookup options k <> None -> dict_lookup options' k <> None)
    /\ (forall item, In item its ->
          exists opt, py_get item "option" PNone = Ok opt
                      /\ dict_lookup options' opt <> None)
    /\ (forall k v, In (k, v) options' ->
          (exists v', In (k, v') options)
          \/ exists item, In item its /\ py_get item "option" PNone = Ok k)
    /\ (distinct_keys options -> distinct_keys options')
    /\ List.length options' <= List.length options + List.length its.
Proof.
  induction its as [|item rest IH]; intros options options';
    cbn [ExploreDimensions.collect_options].
  - intros H. injection H as <-. repeat split; auto.
    + intros item [].
    + intros k v Hin. left. exists v. exact Hin.
    + cbn [List.length]. lia.
  - destruct (py_get item "label" (PStr "")) as [label|e]; [|discriminate].
    destruct (py_get item "option" PNone) as [opt|e] eqn:Hopt; [|discriminate].
    cbn [rbind]. unfold py_setitem.
    destruct (hashable opt) eqn:Hhash; [|discriminate].
    cbn [rbind]. intros H.
    destruct (IH _ _ H) as (Hkeep & Hitems & Hentries & Hdistinct & Hlength).
    split; [|split; [|split; [|split]]].
    + intros k Hk. apply Hkeep, dict_store_keeps, Hk.
    + intros item' [<-|Hin].
      * exists opt. split; [exact Hopt|]. apply Hkeep, dict_store_has, Hhash.
      * destruct (Hitems item' Hin) as (opt' & Hopt' & Hlook).
        exists opt'. split; assumption.
    + intros k v Hin. destruct (Hentries k v Hin) as [[v' Hstored]|(item' & Hin' & Hk)].
      * destruct (dict_store_in _ _ _ _ _ Hstored) as [Hold| ->].
        -- left. exact Hold.
        -- right. exists item. split; [left; reflexivity | exact Hopt].
      * right. exists item'. split; [right; exact Hin' | exact Hk].
    + intros Hd. apply Hdistinct, dict_store_distinct, Hd.
    + pose proof (dict_store_length options opt label). cbn [List.length]. lia.
Qed.

Lemma collect_options_one_entry_per_id (its : list pyobj) (options : list (pyobj * pyobj)) :
  ExploreDimensions.collect_options its [] = Ok options ->
  one_entry_per_id its options.
Proof.
  intros H.
  destruct (collect_options_entries its [] options H)
    as (_ & Hitems & Hentries & Hdistinct & Hlength).
  split; [|split; [|split]].
  - intros item Hin. destruct (Hitems item Hin) as (opt & Hopt & Hlook).
    destruct (dict_lookup options opt) as [label|] eqn:E; [|contradiction].
    exists opt, label. split; [exact Hopt | exact E].
  - intros k v Hin. destruct (Hentries k v Hin) as [[v' []]|Hitem]. exact Hitem.
  - apply Hdistinct. exact I.
  - exact Hlength.
Qed.

(** The value returned holds the names and the options, not the labels
    and not the totals. *)
Lemma catalog_names_options (infos : list dim_info) :
  forall (infos' : list dim_info) (all_dimensions : list (pyobj * pyobj)),
    map info_name infos = map info_name infos' ->
    map info_options infos = map info_options infos' ->
    catalog infos all_dimensions = catalog infos' all_dimensions.
Proof.
  unfold catalog.
  induction infos as [|i infos IH]; intros [|i' infos'] all_dimensions Hn Ho;
    try discriminate; cbn [fold_left]; [reflexivity|].
  cbn [map] in Hn, Ho. injection Hn as Hn1 Hn. injection Ho as Ho1 Ho.
  rewrite Hn1, Ho1. apply IH; assumption.
Qed.

Lemma catalog_app (infos infos' : list dim_info) (all_dimensions : list (pyobj * pyobj)) :
  catalog (infos ++ infos') all_dimensions = catalog infos' (catalog infos all_dimensions).
Proof. unfold catalog. apply fold_left_app. Qed.

(** The summary loop prints the lines of [option_lines] when it can
    subtract from the total where it has to. *)
Lemma print_options_lines (options : list (pyobj * pyobj)) (total : pyobj) (w : world) :
  List.length options <= 10 \/ (exists more, py_sub_int total 10 = Ok more) ->
  ExploreDimensions.print_options 0 options total w
  = (Ok tt, mkWorld (calls w) (slept w) (stdout w ++ option_lines 0 options total)).
Proof.
  intros Hcan.
  assert (Hfrom : forall (opts : list (pyobj * pyobj)) (i : nat) (w0 : world),
             List.length opts + i <= 10 \/ (exists more, py_sub_int total 10 = Ok more) ->
             ExploreDimensions.print_options i opts total w0
             = (Ok tt, mkWorld (calls w0) (slept w0)
                         (stdout w0 ++ option_lines i opts total))).
  { induction opts as [|[opt_id opt_label] rest IH]; intros i w0 Hok;
      cbn [ExploreDimensions.print_options option_lines].
    - rewrite app_nil_r, world_eta. reflexivity.
    - destruct (10 <=? i)%nat eqn:Hten.
      + apply Nat.leb_le in Hten.
        destruct Hok as [Hshort|[more Hmore]]; [cbn [List.length] in Hshort; lia|].
        unfold bind, lift. rewrite Hmore. reflexivity.
      + rewrite bind_print, IH.
        * cbn [calls slept stdout]. rewrite <- app_assoc. reflexivity.
        * destruct Hok as [Hshort|Hmore]; [left; cbn [List.length] in Hshort; lia|].
          right. exact Hmore. }
  apply Hfrom. destruct Hcan as [Hshort|Hmore]; [left; lia | right; exact Hmore].
Qed.

Lemma requests_get_inv (net : network) (u : string) (params v : pyobj) (w w' : world) :
  requests_get net (PStr u) params w = (Ok v, w') ->
  net (List.length (calls w)) (mkRequest u params) = Some v
  /\ w' = mkWorld (calls w ++ [mkRequest u params]) (slept w) (stdout w).
Proof.
  unfold requests_get. rewrite http_string.
  destruct (net _ _) as [v'|]; [|discriminate].
  intros H. injection H as <- <-. split; reflexivity.
Qed.

Section Bound.

Variable net : network.
Variable version_url : pyobj.

(** One turn of the loop, from the replies to the result. *)
Lemma explore_dimension_run (all_dimensions : list (pyobj * pyobj))
    (dim : pyobj) (info : dim_info) (w : world) :
  answered net version_url (List.length (calls w)) dim info ->
  presentable info ->
  exists dim_id,
    options_id dim = Ok dim_id
    /\ ExploreDimensions.explore_dimension net version_url all_dimensions dim w
       = (Ok (catalog [info] all_dimensions),
          mkWorld (calls w ++ [options_request version_url dim_id]) (slept w)
                  (stdout w ++ info_lines info)).
Proof.
  intros (dim_id & opts_data & Hid & Hnet & Hname & Hlabel & items & its
            & Hitems & Hits & Hoptions & Htotal) [Hhash Hcan].
  exists dim_id. split; [exact Hid|].
  unfold options_id in Hid. rewrite Hname in Hid. cbn [rbind] in Hid.
  unfold ExploreDimensions.explore_dimension.
  rewrite (bind_lift_ok _ _ _ _ Hname), (bind_lift_ok _ _ _ _ Hlabel),
    (bind_lift_ok _ _ _ _ Hid).
  rewrite (bind_ok _ _ _ _ _ (requests_get_ok net _ _ _ w Hnet)).
  rewrite (bind_lift_ok _ _ _ _ Hitems), (bind_lift_ok _ _ _ _ Hits),
    (bind_lift_ok _ _ _ _ Hoptions), (bind_lift_ok _ _ _ _ Htotal).
  unfold py_setitem. rewrite Hhash.
  rewrite (bind_lift_ok (Ok (dict_store all_dimensions (info_name info)
                               (PDict (info_options info)))) _ _ _ eq_refl).
  rewrite !bind_print.
  rewrite (bind_ok _ _ _ _ _ (print_options_lines _ _ _ Hcan)).
  rewrite bind_print. unfold ret, info_lines, options_request.
  cbn [calls slept stdout catalog fold_left]. rewrite <- !app_assoc. reflexivity.
Qed.

(** One turn of the loop, from the result back to the replies. *)
Lemma explore_dimension_bound (all_dimensions all_dimensions' : list (pyobj * pyobj))
    (dim : pyobj) (w w' : world) :
  ExploreDimensions.explore_dimension net version_url all_dimensions dim w
    = (Ok all_dimensions', w') ->
  exists info,
    answered net version_url (List.length (calls w)) dim info
    /\ all_dimensions' = catalog [info] all_dimensions
    /\ stdout w' = stdout w ++ info_lines info
    /\ List.length (calls w') = S (List.length (calls w)).
Proof.
  unfold ExploreDimensions.explore_dimension. intros H.
  apply bind_inv in H as (name & w1 & Hname & H). apply lift_inv in Hname as [Hname ->].
  apply bind_inv in H as (label & w1 & Hlabel & H).
  apply lift_inv in Hlabel as [Hlabel ->].
  apply bind_inv in H as (dim_id & w1 & Hid & H). apply lift_inv in Hid as [Hid ->].
  apply bind_inv in H as (opts_data & w1 & Hget & H).
  apply requests_get_inv in Hget as [Hnet ->].
  apply bind_inv in H as (items & w2 & Hitems & H).
  apply lift_inv in Hitems as [Hitems ->].
  apply bind_inv in H as (its & w2 & Hits & H). apply lift_inv in Hits as [Hits ->].
  apply bind_inv in H as (options & w2 & Hoptions & H).
  apply lift_inv in Hoptions as [Hoptions ->].
  apply bind_inv in H as (total & w2 & Htotal & H).
  apply lift_inv in Htotal as [Htotal ->].
  apply bind_inv in H as (stored & w2 & Hstore & H).
  apply lift_inv in Hstore as [Hstore ->]. apply py_setitem_inv in Hstore.
  rewrite !bind_print in H.
  apply bind_inv in H as (r & w2 & Hprint & H).
  pose proof (print_options_calls _ _ _ _ _ Hprint) as [Hcalls _].
  apply print_options_inv in Hprint. cbn [stdout calls] in Hprint, Hcalls.
  rewrite bind_print in H. unfold ret in H. injection H as <- <-.
  exists (mkInfo name label options total). split; [|split; [|split]].
  - exists dim_id, opts_data. split; [|split].
    + unfold options_id. rewrite Hname. cbn [rbind]. exact Hid.
    + exact Hnet.
    + unfold reads. cbn [info_name info_label info_options info_total].
      split; [exact Hname|]. split; [exact Hlabel|].
      exists items, its. repeat split; assumption.
  - exact Hstore.
  - cbn [stdout]. rewrite Hprint. unfold info_lines.
    cbn [info_name info_label info_options info_total].
    rewrite <- !app_assoc. reflexivity.
  - cbn [calls]. rewrite Hcalls, length_app. cbn [List.length]. lia.
Qed.

Lemma explore_each_run (dims : list pyobj) :
  forall (infos : list dim_info) (all_dimensions : list (pyobj * pyobj)) (w : world),
    each_answered net version_url (List.length (calls w)) dims infos ->
    Forall presentable infos ->
    exists ids,
      Forall2 (fun dim dim_id => options_id dim = Ok dim_id) dims ids
      /\ ExploreDimensions.explore_each net version_url dims all_dimensions w
         = (Ok (catalog infos all_dimensions),
            mkWorld (calls w ++ map (options_request version_url) ids) (slept w)
                    (stdout w ++ List.concat (map info_lines infos))).
Proof.
  induction dims as [|dim rest IH]; intros [|info infos] all_dimensions w Heach Hok;
    cbn [each_answered] in Heach; try contradiction;
    cbn [ExploreDimensions.explore_each].
  - exists []. split; [constructor|].
    cbn [map List.concat catalog fold_left]. rewrite !app_nil_r, world_eta. reflexivity.
  - destruct Heach as [Hone Hrest]. inversion Hok as [|x l Hinfo Hinfos]; subst.
    destruct (explore_dimension_run all_dimensions dim info w Hone Hinfo)
      as (dim_id & Hid & Hrun).
    rewrite (bind_ok _ _ _ _ _ Hrun).
    destruct (IH infos (catalog [info] all_dimensions)
                (mkWorld (calls w ++ [options_request version_url dim_id]) (slept w)
                         (stdout w ++ info_lines info)))
      as (ids & Hids & Hruns).
    + cbn [calls]. rewrite length_app. cbn [List.length].
      replace (List.length (calls w) + 1) with (S (List.length (calls w))) by lia.
      exact Hrest.
    + exact Hinfos.
    + exists (dim_id :: ids). split; [constructor; assumption|].
      rewrite Hruns. cbn [calls slept stdout map List.concat].
      rewrite <- !app_assoc. reflexivity.
Qed.

Lemma explore_each_bound (dims : list pyobj) :
  forall (all_dimensions all_dimensions' : list (pyobj * pyobj)) (w w' : world),
    ExploreDimensions.explore_each net version_url dims all_dimensions w
      = (Ok all_dimensions', w') ->
    exists infos,
      each_answered net version_url (List.length (calls w)) dims infos
      /\ all_dimensions' = catalog infos all_dimensions
      /\ stdout w' = stdout w ++ List.concat (map info_lines infos).
Proof.
  induction dims as [|dim rest IH]; intros all_dimensions all_dimensions' w w';
    cbn [ExploreDimensions.explore_each].
  - unfold ret. intros H. injection H as <- <-.
    exists []. split; [exact I|]. split; [reflexivity|].
    cbn. rewrite app_nil_r. reflexivity.
  - intros H. apply bind_inv in H as (stored & w1 & Hdim & H).
    apply explore_dimension_bound in Hdim as (info & Hinfo & -> & Hout & Hcalls).
    apply IH in H as (infos & Hinfos & -> & Hout').
    exists (info :: infos). split; [|split; [reflexivity|]].
    + cbn [each_answered]. rewrite Hcalls in Hinfos. split; assumption.
    + cbn [map List.concat]. rewrite Hout', Hout, <- app_assoc. reflexivity.
Qed.

End Bound.

(** [explore_dimensions] on a string URL, from the replies to the
    result. *)
Lemma explore_dimensions_run (net : network) (u : string) (w : world)
    (response listing : pyobj) (dims : list pyobj) (infos : list dim_info) :
  net (List.length (calls w)) (mkRequest (u ++ "/dimensions") PNone) = Some response ->
  py_get response "items" (PList []) = Ok listing ->
  py_iter listing = Ok dims ->
  each_answered net (PStr u) (S (List.length (calls w))) dims infos ->
  Forall presentable infos ->
  exists ids,
    Forall2 (fun dim dim_id => options_id dim = Ok dim_id) dims ids
    /\ ExploreDimensions.explore_dimensions net (PStr u) w
       = (Ok (PDict (catalog infos [])),
          mkWorld (calls w ++ mkRequest (u ++ "/dimensions") PNone
                     :: map (options_request (PStr u)) ids)
                  (slept w)
                  (stdout w ++ Version_URL (PStr u) :: List.concat (map info_lines infos))).
Proof.
  intros Hnet Hitems Hiter Heach Hok.
  unfold ExploreDimensions.explore_dimensions. rewrite bind_print.
  rewrite (bind_lift_ok (py_add_str (PStr u) "/dimensions") _ _ _ eq_refl).
  rewrite (bind_ok _ _ _ _ _
             (requests_get_ok net (u ++ "/dimensions") PNone response
                (mkWorld (calls w) (slept w) (stdout w ++ [Version_URL (PStr u)])) Hnet)).
  cbn [calls slept stdout].
  rewrite (bind_lift_ok _ _ _ _ Hitems), (bind_lift_ok _ _ _ _ Hiter).
  destruct (explore_each_run net (PStr u) dims infos []
              (mkWorld (calls w ++ [mkRequest (u ++ "/dimensions") PNone]) (slept w)
                       (stdout w ++ [Version_URL (PStr u)])))
    as (ids & Hids & Hrun).
  - cbn [calls]. rewrite length_app. cbn [List.length].
    replace (List.length (calls w) + 1) with (S (List.length (calls w))) by lia.
    exact Heach.
  - exact Hok.
  - exists ids. split; [exact Hids|].
    rewrite (bind_ok _ _ _ _ _ Hrun). unfold ret. cbn [calls slept stdout].
    rewrite <- !app_assoc. reflexivity.
Qed.

(** [explore_dimensions] on a string URL, from the result back to the
    replies. *)
Lemma explore_dimensions_bound (net : network) (u : string) (v : pyobj) (w w' : world) :
  ExploreDimensions.explore_dimensions net (PStr u) w = (Ok v, w') ->
  exists (response listing : pyobj) (dims : list pyobj) (infos : list dim_info),
    net (List.length (calls w)) (mkRequest (u ++ "/dimensions") PNone) = Some response
    /\ py_get response "items" (PList []) = Ok listing
    /\ py_iter listing = Ok dims
    /\ each_answered net (PStr u) (S (List.length (calls w))) dims infos
    /\ v = PDict (catalog infos [])
    /\ stdout w' = stdout w ++ Version_URL (PStr u) :: List.concat (map info_lines infos).
Proof.
  unfold ExploreDimensions.explore_dimensions. rewrite bind_print. intros H.
  apply bind_inv in H as (u' & w1 & Hu & H). apply lift_inv in Hu as [Hu ->].
  cbn [py_add_str] in Hu. injection Hu as <-.
  apply bind_inv in H as (response & w1 & Hget & H).
  apply requests_get_inv in Hget as [Hnet ->]. cbn [calls slept stdout] in *.
  apply bind_inv in H as (listing & w2 & Hlisting & H).
  apply lift_inv in Hlisting as [Hlisting ->].
  apply bind_inv in H as (dims & w2 & Hdims & H). apply lift_inv in Hdims as [Hdims ->].
  apply bind_inv in H as (all_dimensions & w2 & Heach & H).
  apply explore_each_bound in Heach as (infos & Hinfos & -> & Hout).
  unfold ret in H. injection H as <- <-.
  exists response, listing, dims, infos.
  cbn [calls stdout] in Hinfos, Hout. rewrite length_app in Hinfos.
  cbn [List.length] in Hinfos.
  replace (List.length (calls w) + 1) with (S (List.length (calls w))) in Hinfos by lia.
  repeat split; try assumption.
  rewrite Hout, <- app_assoc. reflexivity.
Qed.

(** C5, amended: [explore_dimensions] returns the options only.  When the
    API answers the listing of the dimensions and, for each dimension
    listed, its options request, with replies the loop can read and
    print, the call returns the dict that maps each dimension name to the
    dict of its options (option id to option label); and a call that
    returns has met such replies and returns that dict.  The options dict
    holds one entry per distinct option id among the items retrieved, so
    its size is at most their number.  The dimension's label and the
    total the API declares (or, when it declares none, the size of the
    options dict) are printed, in the lines [Dimension] and
    [Valid_options] of that dimension, and are no part of the value
    returned: replies that differ in labels and totals only give the same
    value. *)
Theorem explore_dimensions_catalog (net : network) (u : string) (w : world) :
  (forall (response listing : pyobj) (dims : list pyobj) (infos : list dim_info),
      net (List.length (calls w)) (mkRequest (u ++ "/dimensions") PNone)
        = Some response ->
      py_get response "items" (PList []) = Ok listing ->
      py_iter listing = Ok dims ->
      each_answered net (PStr u) (S (List.length (calls w))) dims infos ->
      Forall presentable infos ->
      fst (ExploreDimensions.explore_dimensions net (PStr u) w)
        = Ok (PDict (catalog infos []))
      /\ stdout (snd (ExploreDimensions.explore_dimensions net (PStr u) w))
         = stdout w ++ Version_URL (PStr u) :: List.concat (map info_lines infos))
  /\ (forall (v : pyobj) (w' : world),
        ExploreDimensions.explore_dimensions net (PStr u) w = (Ok v, w') ->
        exists (response listing : pyobj) (dims : list pyobj) (infos : list dim_info),
          net (List.length (calls w)) (mkRequest (u ++ "/dimensions") PNone)
            = Some response
          /\ py_get response "items" (PList []) = Ok listing
          /\ py_iter listing = Ok dims
          /\ each_answered net (PStr u) (S (List.length (calls w))) dims infos
          /\ v = PDict (catalog infos [])
          /\ stdout w'
             = stdout w ++ Version_URL (PStr u) :: List.concat (map info_lines infos))
  /\ (forall (its : list pyobj) (options : list (pyobj * pyobj)),
        ExploreDimensions.collect_options its [] = Ok options ->
        one_entry_per_id its options)
  /\ (forall infos infos' : list dim_info,
        map info_name infos = map info_name infos' ->
        map info_options infos = map info_options infos' ->
        catalog infos [] = catalog infos' []).
Proof.
  split; [|split; [|split]].
  - intros response listing dims infos Hnet Hitems Hiter Heach Hok.
    destruct (explore_dimensions_run net u w response listing dims infos
                Hnet Hitems Hiter Heach Hok) as (ids & _ & ->).
    split; reflexivity.
  - intros v w'. apply explore_dimensions_bound.
  - apply collect_options_one_entry_per_id.
  - intros infos infos'. apply catalog_names_options.
Qed.

Lemma explore_dimensions_catalog_witness :
  fst (ExploreDimensions.explore_dimensions (Sample.dimensions_api "Geography" 312)
         (PStr Sample.trade_version) start)
  = Ok (PDict (catalog [mkInfo (PStr "geography") (PStr "Geography")
                          [(PStr "K02000001", PStr "United Kingdom");
                           (PStr "K03000001", PStr "Great Britain")]
                          (PInt 312)] []))
  /\ stdout (snd (ExploreDimensions.explore_dimensions
                    (Sample.dimensions_api "Geography" 312)
                    (PStr Sample.trade_version) start))
     = stdout start
         ++ Version_URL (PStr Sample.trade_version)
              :: List.concat
                   (map info_lines
                      [mkInfo (PStr "geography") (PStr "Geography")
                         [(PStr "K02000001", PStr "United Kingdom");
                          (PStr "K03000001", PStr "Great Britain")]
                         (PInt 312)]).
Proof.
  apply (proj1 (explore_dimensions_catalog (Sample.dimensions_api "Geography" 312)
                  Sample.trade_version start)
           (obj [("items", PList [Sample.dimension "geography" "Geography"])])
           (PList [Sample.dimension "geography" "Geography"])
           [Sample.dimension "geography" "Geography"]).
  - reflexivity.
  - reflexivity.
  - reflexivity.
  - cbn [each_answered]. split; [|exact I].
    exists (PStr "geography").
    exists (obj [("items", PList [Sample.option_item "K02000001" "United Kingdom";
                                  Sample.option_item "K03000001" "Great Britain"]);
                 ("total_count", PInt 312)]).
    split; [reflexivity|]. split; [vm_compute; reflexivity|].
    split; [reflexivity|]. split; [reflexivity|].
    exists (PList [Sample.option_item "K02000001" "United Kingdom";
                   Sample.option_item "K03000001" "Great Britain"]).
    exists [Sample.option_item "K02000001" "United Kingdom";
            Sample.option_item "K03000001" "Great Britain"].
    repeat split; reflexivity.
  - constructor; [|constructor]. split; [reflexivity|]. left. cbn. lia.
Defined.

(** X21: the requests of [explore_dimensions] (script 02).  A run that
    returns has sent the request for the list of dimensions and then, for
    each dimension of the list the API answered with and in that order,
    exactly one request for its options, with the parameter limit=200: no
    second page of options is ever asked for, whatever total the API
    declares, and the function never sleeps.  On replies the loop can read
    and print, the run does return, after these requests. *)
Theorem explore_dimensions_requests (net : network) (u : string) (w : world) :
  (forall (v : pyobj) (w' : world),
      ExploreDimensions.explore_dimensions net (PStr u) w = (Ok v, w') ->
      exists (response listing : pyobj) (dims ids : list pyobj),
        net (List.length (calls w)) (mkRequest (u ++ "/dimensions") PNone)
          = Some response
        /\ py_get response "items" (PList []) = Ok listing
        /\ py_iter listing = Ok dims
        /\ Forall2 (fun dim dim_id => options_id dim = Ok dim_id) dims ids
        /\ calls w' = calls w
                        ++ mkRequest (u ++ "/dimensions") PNone
                             :: map (options_request (PStr u)) ids
        /\ slept w' = slept w)
  /\ (forall (response listing : pyobj) (dims : list pyobj) (infos : list dim_info),
        net (List.length (calls w)) (mkRequest (u ++ "/dimensions") PNone)
          = Some response ->
        py_get response "items" (PList []) = Ok listing ->
        py_iter listing = Ok dims ->
        each_answered net (PStr u) (S (List.length (calls w))) dims infos ->
        Forall presentable infos ->
        exists (v : pyobj) (ids : list pyobj),
          fst (ExploreDimensions.explore_dimensions net (PStr u) w) = Ok v
          /\ Forall2 (fun dim dim_id => options_id dim = Ok dim_id) dims ids
          /\ calls (snd (ExploreDimensions.explore_dimensions net (PStr u) w))
             = calls w
                 ++ mkRequest (u ++ "/dimensions") PNone
                      :: map (options_request (PStr u)) ids
          /\ slept (snd (ExploreDimensions.explore_dimensions net (PStr u) w))
             = slept w).
Proof.
  split.
  - intros v w'. unfold ExploreDimensions.explore_dimensions.
    rewrite bind_print. intros H.
    apply bind_inv in H as (u' & w1 & Hu & H). apply lift_inv in Hu as [Hu ->].
    cbn [py_add_str] in Hu. injection Hu as <-.
    apply bind_inv in H as (response & w1 & Hget & H).
    apply requests_get_inv in Hget as [Hnet ->]. cbn [calls slept stdout] in *.
    apply bind_inv in H as (listing & w2 & Hlisting & H).
    apply lift_inv in Hlisting as [Hlisting ->].
    apply bind_inv in H as (dims & w2 & Hdims & H).
    apply lift_inv in Hdims as [Hdims ->].
    apply bind_inv in H as (all_dimensions & w2 & Heach & H).
    apply explore_each_calls in Heach as (ids & Hids & Hc & Hs).
    unfold ret in H. injection H as _ <-.
    exists response, listing, dims, ids. cbn [calls slept] in Hc, Hs.
    repeat split; try assumption.
    rewrite Hc, <- app_assoc. reflexivity.
  - intros response listing dims infos Hnet Hitems Hiter Heach Hok.
    destruct (explore_dimensions_run net u w response listing dims infos
                Hnet Hitems Hiter Heach Hok) as (ids & Hids & ->).
    eexists. exists ids. repeat split. exact Hids.
Qed.

Lemma explore_dimensions_requests_witness :
  exists (v : pyobj) (ids : list pyobj),
    fst (ExploreDimensions.explore_dimensions (Sample.dimensions_api "Geography" 312)
           (PStr Sample.trade_version) start) = Ok v
    /\ Forall2 (fun dim dim_id => options_id dim = Ok dim_id)
         [Sample.dimension "geography" "Geography"] ids
    /\ calls (snd (ExploreDimensions.explore_dimensions
                     (Sample.dimensions_api "Geography" 312)
                     (PStr Sample.trade_version) start))
       = calls start
           ++ mkRequest (Sample.trade_version ++ "/dimensions") PNone
                :: map (options_request (PStr Sample.trade_version)) ids
    /\ slept (snd (ExploreDimensions.explore_dimensions
                     (Sample.dimensions_api "Geography" 312)
                     (PStr Sample.trade_version) start))
       = slept start.
Proof.
  apply (proj2 (explore_dimensions_requests (Sample.dimensions_api "Geography" 312)
                  Sample.trade_version start)
           (obj [("items", PList [Sample.dimension "geography" "Geography"])])
           (PList [Sample.dimension "geography" "Geography"])
           [Sample.dimension "geography" "Geography"]
           [mkInfo (PStr "geography") (PStr "Geography")
              [(PStr "K02000001", PStr "United Kingdom");
               (PStr "K03000001", PStr "Great Britain")]
              (PInt 312)]).
  - reflexivity.
  - reflexivity.
  - reflexivity.
  - cbn [each_answered]. split; [|exact I].
    exists (PStr "geography").
    exists (obj [("items", PList [Sample.option_item "K02000001" "United Kingdom";
                                  Sample.option_item "K03000001" "Great Britain"]);
                 ("total_count", PInt 312)]).
    split; [reflexivity|]. split; [vm_compute; reflexivity|].
    split; [reflexivity|]. split; [reflexivity|].
    exists (PList [Sample.option_item "K02000001" "United Kingdom";
                   Sample.option_item "K03000001" "Great Britain"]).
    exists [Sample.option_item "K02000001" "United Kingdom";
            Sample.option_item "K03000001" "Great Britain"].
    repeat split; reflexivity.
  - constructor; [|constructor]. split; [reflexivity|]. left. cbn. lia.
Defined.
